(** * Jobify: the multi-source job search aggregator

    A shallow embedding of

    - [src/models/job.py]           (JobSource, Location, JobPosting,
                                     JobSearchRequest, JobSearchResponse),
    - [src/utils/api_clients.py]    (FranceTravailClient, IndeedClient,
                                     GlassdoorClient),
    - [src/agents/job_searcher.py]  (JobSearcherAgent.search_jobs,
                                     _process_france_travail_results,
                                     enrich_search_query),
    - [src/agents/chatbot.py]       (_extract_location_from_message),

    followed by the properties of the specification that concern them,
    and by further properties of the same code.

    Conventions of the embedding.

    - A Python [str] is a [string] whose characters are code points below
      256 (Latin-1): [String.length] is [len], one [ascii] is one character.
      The letter e-acute is the single character 233.
    - A value that Python leaves untyped (whatever [response.json()] holds)
      is a [value]; numbers are integers.
    - A call that may raise returns a [result]; the exception classes are
      the constructors of [exn].
    - [print] and [requests.get]/[requests.post] produce [event]s. *)

From Stdlib Require Import String Ascii List ZArith Bool Lia Arith.
From Stdlib Require Import Permutation Sorted DecimalString.
Import ListNotations.

Set Warnings "-register-all".

Local Open Scope list_scope.
Local Open Scope string_scope.
Local Open Scope nat_scope.

(* ================================================================== *)
(** ** Python strings *)
(* ================================================================== *)

Module PyStr.

Definition chr (n : nat) : string := String (ascii_of_nat n) EmptyString.

(** e-acute, U+00E9. *)
Definition e_acute : string := chr 233.

Definition code (c : ascii) : nat := nat_of_ascii c.

(** [c.lower()] on Latin-1: A-Z and the capitals 0xC0-0xDE (but not the
    multiplication sign 0xD7) move up by 32. *)
Definition lower_char (c : ascii) : ascii :=
  let n := code c in
  if ((65 <=? n) && (n <=? 90))
     || ((192 <=? n) && (n <=? 222) && negb (n =? 215))
  then ascii_of_nat (n + 32) else c.

Fixpoint lower (s : string) : string :=
  match s with
  | EmptyString => EmptyString
  | String c s' => String (lower_char c) (lower s')
  end.

(** [c.isspace()] on Latin-1. *)
Definition is_space (c : ascii) : bool :=
  let n := code c in
  ((9 <=? n) && (n <=? 13)) || ((28 <=? n) && (n <=? 32))
  || (n =? 133) || (n =? 160).

Fixpoint lstrip (s : string) : string :=
  match s with
  | EmptyString => EmptyString
  | String c s' => if is_space c then lstrip s' else s
  end.

(** [rstrip] keeps a character when it is not a space or when something
    is kept after it. *)
Fixpoint rstrip (s : string) : string :=
  match s with
  | EmptyString => EmptyString
  | String c s' =>
      match rstrip s' with
      | EmptyString => if is_space c then EmptyString else String c EmptyString
      | r => String c r
      end
  end.

Definition strip (s : string) : string := rstrip (lstrip s).

(** [s.startswith(p)]. *)
Fixpoint startswith (p s : string) : bool :=
  match p, s with
  | EmptyString, _ => true
  | String a p', String b s' => Ascii.eqb a b && startswith p' s'
  | String _ _, EmptyString => false
  end.

(** [p in s]. *)
Fixpoint contains (p s : string) : bool :=
  startswith p s ||
  match s with
  | EmptyString => false
  | String _ s' => contains p s'
  end.

(** [s.replace(p, "")] for a non-empty [p]: occurrences are removed from
    left to right and do not overlap. [skip] counts the characters of the
    occurrence being removed that are still to be dropped. *)
Fixpoint remove_from (p : string) (skip : nat) (s : string) : string :=
  match s with
  | EmptyString => EmptyString
  | String c s' =>
      match skip with
      | S k => remove_from p k s'
      | O => if startswith p s
             then remove_from p (String.length p - 1) s'
             else String c (remove_from p 0 s')
      end
  end.

Definition remove (p s : string) : string := remove_from p 0 s.

(** The class [\d] of the [re] module, on Latin-1: 0-9. *)
Definition is_decimal (c : ascii) : bool :=
  let n := code c in (48 <=? n) && (n <=? 57).

(** [c.isdigit()] on Latin-1: 0-9 and the superscripts 2, 3 and 1. *)
Definition isdigit_char (c : ascii) : bool :=
  let n := code c in
  is_decimal c || (n =? 178) || (n =? 179) || (n =? 185).

Fixpoint all_chars (f : ascii -> bool) (s : string) : bool :=
  match s with
  | EmptyString => true
  | String c s' => f c && all_chars f s'
  end.

(** [s.isdigit()]: at least one character, all of them digits. *)
Definition isdigit (s : string) : bool :=
  match s with
  | EmptyString => false
  | _ => all_chars isdigit_char s
  end.

(** [s[:n]]. *)
Fixpoint take (n : nat) (s : string) : string :=
  match n, s with
  | S k, String c s' => String c (take k s')
  | _, _ => EmptyString
  end.

Fixpoint drop (n : nat) (s : string) : string :=
  match n, s with
  | S k, String _ s' => drop k s'
  | _, _ => s
  end.

(** The pattern [(?<!\d)(\d{5})(?!\d)] tried at one position: [prev] is
    the character before the position, if any. The answer is group 1. *)
Definition match_postal_here (prev : option ascii) (s : string)
  : option string :=
  let behind := match prev with Some c => is_decimal c | None => false end in
  let five := take 5 s in
  let ahead := match drop 5 s with
               | String c _ => is_decimal c
               | EmptyString => false
               end in
  if negb behind && (String.length five =? 5)
     && all_chars is_decimal five && negb ahead
  then Some five else None.

(** [re.search(r'(?<!\d)(\d{5})(?!\d)', s)]: the leftmost position where
    the pattern matches. *)
Fixpoint search_postal_from (prev : option ascii) (s : string)
  : option string :=
  match match_postal_here prev s with
  | Some g => Some g
  | None =>
      match s with
      | EmptyString => None
      | String c s' => search_postal_from (Some c) s'
      end
  end.

Definition search_postal (s : string) : option string :=
  search_postal_from None s.

(** [s.split(",")]: never empty. *)
Fixpoint split_comma (s : string) : string * list string :=
  match s with
  | EmptyString => (EmptyString, [])
  | String c s' =>
      let '(hd, tl) := split_comma s' in
      if Ascii.eqb c ","%char then (EmptyString, hd :: tl)
      else (String c hd, tl)
  end.

Definition split_first (s : string) : string := fst (split_comma s).

Definition split_last (s : string) : string :=
  let '(hd, tl) := split_comma s in last tl hd.

(** [sep.join(l)]. *)
Fixpoint join (sep : string) (l : list string) : string :=
  match l with
  | [] => EmptyString
  | [x] => x
  | x :: rest => x ++ sep ++ join sep rest
  end.

(** [str(n)] for an integer. *)
Definition of_Z (n : Z) : string := NilZero.string_of_int (Z.to_int n).

(** [a < b] on strings: by code points, then by length. *)
Definition ltb (a b : string) : bool := String.ltb a b.

End PyStr.

(* ================================================================== *)
(** ** Python values, exceptions, events *)
(* ================================================================== *)

(** What [json.loads] can produce (numbers restricted to integers). A
  [dict] keeps its items in insertion order; a key is looked up from the
  left. *)
Inductive value : Type :=
| VNone
| VBool (b : bool)
| VInt (n : Z)
| VStr (s : string)
| VList (l : list value)
| VDict (d : list (string * value)).

(** Exceptions. A message built by an f-string is kept in symbolic form:
  its literal prefix and what was interpolated. *)
Inductive exn : Type :=
| AttributeError
| TypeError
| KeyError
| IndexError
| OverflowError
| RequestException
| ValueError (text : message)
| Exception (text : message)
with message : Type :=
| Msg (s : string)
| MsgStatus (prefix : string) (status : Z) (body : string)
| MsgCause (prefix : string) (cause : exn)
| MsgSource (prefix : string) (source : string).

Inductive result (A : Type) : Type :=
| Ok (a : A)
| Raise (e : exn).
Arguments Ok {A} a.
Arguments Raise {A} e.

Definition is_ok {A} (r : result A) : bool :=
match r with Ok _ => true | Raise _ => false end.

Module Py.

Definition dict := list (string * value).

(** [bool(v)]. *)
Definition truthy (v : value) : bool :=
  match v with
  | VNone => false
  | VBool b => b
  | VInt n => negb (Z.eqb n 0)
  | VStr s => negb (String.eqb s "")
  | VList l => match l with [] => false | _ => true end
  | VDict d => match d with [] => false | _ => true end
  end.

(** [bool(s)] for an optional string: [None] and [""] are false. *)
Definition truthy_opt (o : option string) : bool :=
  match o with
  | Some s => negb (String.eqb s "")
  | None => false
  end.

Fixpoint lookup (k : string) (d : dict) : option value :=
  match d with
  | [] => None
  | (k', v) :: d' => if String.eqb k k' then Some v else lookup k d'
  end.

(** [k in d] for a dict. *)
Definition has_key (k : string) (d : dict) : bool :=
  match lookup k d with Some _ => true | None => false end.

(** [v.get(k, default)]: only a dict has the method. *)
Definition get (v : value) (k : string) (default : value) : result value :=
  match v with
  | VDict d => Ok (match lookup k d with Some x => x | None => default end)
  | _ => Raise AttributeError
  end.

(** [d[k] = v]: an existing key keeps its place. *)
Fixpoint set {A : Type} (k : string) (v : A) (d : list (string * A))
  : list (string * A) :=
  match d with
  | [] => [(k, v)]
  | (k', v') :: d' =>
      if String.eqb k k' then (k, v) :: d' else (k', v') :: set k v d'
  end.

(** [iter(v)]: a list gives its elements, a dict its keys, a string its
    characters; nothing else is iterable. *)
Fixpoint chars (s : string) : list value :=
  match s with
  | EmptyString => []
  | String c s' => VStr (String c EmptyString) :: chars s'
  end.

Definition iterate (v : value) : result (list value) :=
  match v with
  | VList l => Ok l
  | VDict d => Ok (map (fun kv => VStr (fst kv)) d)
  | VStr s => Ok (chars s)
  | _ => Raise TypeError
  end.

(** Numbers: [bool] is a subclass of [int]. *)
Definition as_int (v : value) : option Z :=
  match v with
  | VInt n => Some n
  | VBool true => Some 1%Z
  | VBool false => Some 0%Z
  | _ => None
  end.

(** [a == b]. Two dicts are equal when they have the same keys and equal
    values under them. *)
Fixpoint eqb (a b : value) {struct a} : bool :=
  match a, b with
  | VNone, VNone => true
  | VStr s, VStr t => String.eqb s t
  | VList l, VList m =>
      (fix all2 (l : list value) (m : list value) {struct l} : bool :=
         match l, m with
         | [], [] => true
         | x :: l', y :: m' => eqb x y && all2 l' m'
         | _, _ => false
         end) l m
  | VDict d, VDict e =>
      (fix sub (d : list (string * value)) {struct d} : bool :=
         match d with
         | [] => true
         | (k, x) :: d' =>
             match lookup k e with
             | Some y => eqb x y && sub d'
             | None => false
             end
         end) d
      && forallb (fun kv => has_key (fst kv) d) e
  | _, _ =>
      match as_int a, as_int b with
      | Some n, Some m => Z.eqb n m
      | _, _ => false
      end
  end.

(** [a < b]: defined between two numbers, two strings and two lists
    (decided at the first position where they differ), a [TypeError]
    everywhere else. *)
Fixpoint lt (a b : value) {struct a} : result bool :=
  match a, b with
  | VStr s, VStr t => Ok (PyStr.ltb s t)
  | VList l, VList m =>
      (fix lex (l : list value) (m : list value) {struct l} : result bool :=
         match l, m with
         | [], [] => Ok false
         | [], _ :: _ => Ok true
         | _ :: _, [] => Ok false
         | x :: l', y :: m' => if eqb x y then lex l' m' else lt x y
         end) l m
  | _, _ =>
      match as_int a, as_int b with
      | Some n, Some m => Ok (Z.ltb n m)
      | _, _ => Raise TypeError
      end
  end.

(** *** [str] and [repr] *)

Definition printable (c : ascii) : bool :=
  let n := PyStr.code c in
  ((32 <=? n) && (n <=? 126)) || ((161 <=? n) && negb (n =? 173)).

Definition hex_digit (n : nat) : string :=
  PyStr.take 1 (PyStr.drop n "0123456789abcdef").

Definition quote1 : ascii := ascii_of_nat 39.
Definition quote2 : ascii := ascii_of_nat 34.
Definition backslash : ascii := ascii_of_nat 92.

Definition repr_char (q c : ascii) : string :=
  let n := PyStr.code c in
  if Ascii.eqb c q || Ascii.eqb c backslash
  then String backslash (String c EmptyString)
  else if n =? 9 then String backslash "t"
  else if n =? 10 then String backslash "n"
  else if n =? 13 then String backslash "r"
  else if printable c then String c EmptyString
  else String backslash "x" ++ hex_digit (n / 16) ++ hex_digit (n mod 16).

Fixpoint has_char (c : ascii) (s : string) : bool :=
  match s with
  | EmptyString => false
  | String a s' => Ascii.eqb a c || has_char c s'
  end.

Fixpoint repr_chars (q : ascii) (s : string) : string :=
  match s with
  | EmptyString => EmptyString
  | String c s' => repr_char q c ++ repr_chars q s'
  end.

(** [repr(s)]: single quotes, unless [s] has one and no double quote. *)
Definition repr_str (s : string) : string :=
  let q := if has_char quote1 s && negb (has_char quote2 s)
           then quote2 else quote1 in
  String q (repr_chars q s) ++ String q EmptyString.

Fixpoint repr (v : value) : string :=
  match v with
  | VNone => "None"
  | VBool true => "True"
  | VBool false => "False"
  | VInt n => PyStr.of_Z n
  | VStr s => repr_str s
  | VList l =>
      "[" ++ PyStr.join ", "
               ((fix each (l : list value) : list string :=
                   match l with
                   | [] => []
                   | x :: l' => repr x :: each l'
                   end) l) ++ "]"
  | VDict d =>
      "{" ++ PyStr.join ", "
               ((fix each (d : list (string * value)) : list string :=
                   match d with
                   | [] => []
                   | (k, x) :: d' => (repr_str k ++ ": " ++ repr x) :: each d'
                   end) d) ++ "}"
  end.

(** [str(v)], which is what an f-string interpolates. *)
Definition str (v : value) : string :=
  match v with
  | VStr s => s
  | _ => repr v
  end.

End Py.

Module PyExtra.

(** [k in v] for a string [k]: a key of a dict, an element of a list, a
    substring of a string. *)
Definition contains_str (k : string) (v : value) : result bool :=
  match v with
  | VDict d => Ok (Py.has_key k d)
  | VList l => Ok (existsb (Py.eqb (VStr k)) l)
  | VStr s => Ok (PyStr.contains k s)
  | _ => Raise TypeError
  end.

(** [v[k]] for a string [k]. *)
Definition getitem_str (v : value) (k : string) : result value :=
  match v with
  | VDict d => match Py.lookup k d with
               | Some x => Ok x
               | None => Raise KeyError
               end
  | _ => Raise TypeError
  end.

(** [isinstance(v, dict)]. *)
Definition is_dict (v : value) : bool :=
  match v with VDict _ => true | _ => false end.

(** [v.split(",")[0].strip()] and [v.split(",")[-1].strip()]: only a
    string has [split]. *)
Definition split_first_strip (v : value) : result value :=
  match v with
  | VStr s => Ok (VStr (PyStr.strip (PyStr.split_first s)))
  | _ => Raise AttributeError
  end.

Definition split_last_strip (v : value) : result value :=
  match v with
  | VStr s => Ok (VStr (PyStr.strip (PyStr.split_last s)))
  | _ => Raise AttributeError
  end.

End PyExtra.

(* ================================================================== *)
(** ** src/models/job.py *)
(* ================================================================== *)

Inductive JobSource : Type :=
| FRANCE_TRAVAIL
| LINKEDIN
| INDEED
| GLASSDOOR.

(** [source.value]. *)
Definition JobSource_value (s : JobSource) : string :=
match s with
| FRANCE_TRAVAIL => "france_travail"
| LINKEDIN => "linkedin"
| INDEED => "indeed"
| GLASSDOOR => "glassdoor"
end.

Definition JobSource_eqb (a b : JobSource) : bool :=
match a, b with
| FRANCE_TRAVAIL, FRANCE_TRAVAIL => true
| LINKEDIN, LINKEDIN => true
| INDEED, INDEED => true
| GLASSDOOR, GLASSDOOR => true
| _, _ => false
end.

Record Location : Type := mkLocation {
city : value;
postal_code : value;
region : value;
country : value;
formatted_address : value
}.

(** [Location.__init__]. *)
Definition Location_init (city postal_code region country formatted_address : value)
: Location :=
{| city := city;
   postal_code := postal_code;
   region := region;
   country := country;
   formatted_address :=
     if Py.truthy formatted_address then formatted_address
     else VStr (Py.str city ++ ", " ++ Py.str country) |}.

Record JobPosting : Type := mkJobPosting {
job_id : value;
title : value;
company : value;
location : Location;
description : value;
url : value;
posted_date : value;
salary_range : value;
job_type : value;
required_skills : value;
required_experience : value;
required_education : value;
source : option JobSource;
raw_data : value
}.

(** [JobPosting.__init__]: [required_skills or []]. *)
Definition JobPosting_init
(job_id title company : value) (location : Location)
(description url posted_date salary_range job_type required_skills
 required_experience required_education : value)
(source : option JobSource) (raw_data : value) : JobPosting :=
{| job_id := job_id; title := title; company := company;
   location := location; description := description; url := url;
   posted_date := posted_date; salary_range := salary_range;
   job_type := job_type;
   required_skills :=
     if Py.truthy required_skills then required_skills else VList [];
   required_experience := required_experience;
   required_education := required_education;
   source := source; raw_data := raw_data |}.

Record JobSearchRequest : Type := mkJobSearchRequest {
job_title : string;
req_location : option string;
radius : Z;
keywords : list string;
limit_per_source : Z;
cv_data : value
}.

(** What a list handled by the aggregator may hold: a [JobPosting], or a
  raw value when a client returned something else. *)
Inductive pyobj : Type :=
| OPosting (j : JobPosting)
| OValue (v : value).

Record JobSearchResponse : Type := mkJobSearchResponse {
query : JobSearchRequest;
results : list pyobj;
available_sources : list string;
failed_sources : list string;
total_count : nat
}.

(* ================================================================== *)
(** ** Effects: the trace, the network, the clock *)
(* ================================================================== *)

(** The lines written by [print], with what they interpolate. *)
Inductive log_line : Type :=
| LogNoCredentials
| LogAuthError (status : Z) (body : string)
| LogNoAccessToken
| LogTokenException (e : exn)
| LogLLMKeywords (motsCles : string)
| LogContractDetected (keyword code : string)
| LogCleanTitle (cleaned : string)
| LogSearchKeywords (motsCles : string)
| LogContractStored (code : string)
| LogDeptFromPostal (dept : string)
| LogDeptDirect (dept : string)
| LogDeptCity (dept location : string)
| LogDeptDefault (location : string)
| LogSkillsCount (client : JobSource) (n : nat)
| LogSkillsShown (client : JobSource) (shown : string)
| LogRequest (url : string) (params : list (string * value))
| LogResponseUrl (url : string)
| LogTokenExpired
| LogRetrySucceeded
| LogSourceError (source : string) (e : exn)
| LogFanInError (source : JobSource) (e : exn)
| LogSortError (e : exn)
| LogRecordError (e : exn).

Inductive event : Type :=
| Printed (line : log_line)
| HttpPost (url : string) (data : list (string * value))
         (headers : list (string * string))
| HttpGet (url : string) (params : list (string * value))
        (headers : list (string * string)).

Definition is_http (e : event) : bool :=
match e with Printed _ => false | _ => true end.

Definition is_get (e : event) : bool :=
match e with HttpGet _ _ _ => true | _ => false end.

Definition is_post (e : event) : bool :=
match e with HttpPost _ _ _ => true | _ => false end.

Record response : Type := mkResponse {
status_code : Z;
text : string;
resp_url : string;
json : result value          (* what [response.json()] returns or raises *)
}.

(** The outside of one client during one call: the answer to its n-th
  request (a response, or the exception [requests] raises), and the
  clock. [now] counts seconds from 0001-01-01T00:00:00; [today] is
  [datetime.now().strftime("%Y-%m-%d")]. *)
Record world : Type := mkWorld {
net : nat -> result response;
now : Z;
today : string
}.

(** *** The monad of a client method

  A method reads and writes its object ([self]), sends requests, prints,
  and may raise; what it did before raising stays done. *)
Module Eff.
Section Eff.
Context {S : Type}.

(** What a method works on: its object, and the number of requests the
    client has sent so far. *)
Record sys : Type := mkSys {
  self : S;
  sent : nat
}.

(** A method gives what it returns or raises, the state it leaves, and
    the events it produced, in order. *)
Definition M (A : Type) : Type := sys -> result A * sys * list event.

Definition ret {A} (a : A) : M A := fun s => (Ok a, s, []).

Definition raise {A} (e : exn) : M A := fun s => (Raise e, s, []).

Definition bind {A B} (m : M A) (k : A -> M B) : M B :=
  fun s =>
    match m s with
    | (Ok a, s', t) =>
        match k a s' with
        | (r, s'', t') => (r, s'', (t ++ t')%list)
        end
    | (Raise e, s', t) => (Raise e, s', t)
    end.

(** [try: m except Exception as e: h e]. *)
Definition try_except {A} (m : M A) (h : exn -> M A) : M A :=
  fun s =>
    match m s with
    | (Ok a, s', t) => (Ok a, s', t)
    | (Raise e, s', t) =>
        match h e s' with
        | (r, s'', t') => (r, s'', (t ++ t')%list)
        end
    end.

Definition lift {A} (r : result A) : M A := fun s => (r, s, []).

Definition get_self : M S := fun s => (Ok (self s), s, []).

Definition set_self (x : S) : M unit :=
  fun s => (Ok tt, {| self := x; sent := sent s |}, []).

Definition emit (e : event) : M unit := fun s => (Ok tt, s, [e]).

Definition print (l : log_line) : M unit := emit (Printed l).

(** One request: it is recorded, and the world answers it. *)
Definition request (w : world) (e : event) : M response :=
  fun s => (net w (sent s),
            {| self := self s; sent := Datatypes.S (sent s) |}, [e]).

(** A method called on an object that has sent nothing yet. *)
Definition run {A} (m : M A) (x : S) : result A * S * list event :=
  match m {| self := x; sent := 0 |} with
  | (r, s, t) => (r, self s, t)
  end.

End Eff.
Arguments sys : clear implicits.
Arguments M : clear implicits.
End Eff.

Notation "x <- m ;; k" := (Eff.bind m (fun x => k))
(at level 61, m at next level, right associativity).
Notation "m ;;; k" := (Eff.bind m (fun _ => k))
(at level 61, right associativity).

(* ================================================================== *)
(** ** src/utils/api_clients.py: FranceTravailClient *)
(* ================================================================== *)

Module FranceTravailClient.
Import Eff.

(** The attributes set by [__init__]; [os.getenv] gives a string or
    [None]. [access_token] is whatever the token endpoint sent. *)
Record t : Type := mk {
  client_id : option string;
  client_secret : option string;
  api_key : option string;
  api_base_url : string;
  access_token : value;
  token_expiry : option Z
}.

Definition base_url : string :=
  "https://api.francetravail.io/partenaire/offresdemploi/v2".

Definition token_url : string :=
  "https://entreprise.francetravail.fr/connexion/oauth2/access_token?realm=%2Fpartenaire".

(** [__init__]: never raises; it prints a notice when nothing is
    configured. *)
Definition init (id secret key : option string) : t * list event :=
  ({| client_id := id; client_secret := secret; api_key := key;
      api_base_url := base_url;
      access_token := VNone; token_expiry := None |},
   if negb (Py.truthy_opt id) && negb (Py.truthy_opt secret)
      && negb (Py.truthy_opt key)
   then [Printed LogNoCredentials] else []).

Definition set_access_token (v : value) (c : t) : t :=
  {| client_id := client_id c; client_secret := client_secret c;
     api_key := api_key c; api_base_url := api_base_url c;
     access_token := v; token_expiry := token_expiry c |}.

Definition set_token_expiry (e : option Z) (c : t) : t :=
  {| client_id := client_id c; client_secret := client_secret c;
     api_key := api_key c; api_base_url := api_base_url c;
     access_token := access_token c; token_expiry := e |}.

Definition opt_value (o : option string) : value :=
  match o with Some s => VStr s | None => VNone end.

(** [datetime.now() + timedelta(seconds=v)]: [v] must be a number;
    a [timedelta] holds at most 999999999 days either way and a
    [datetime] lies in the years 1 to 9999. *)
Definition add_seconds (now : Z) (v : value) : result Z :=
  match Py.as_int v with
  | None => Raise TypeError
  | Some n =>
      if (Z.abs (n / 86400) <=? 999999999)%Z
         && (0 <=? now + n)%Z && (now + n <? 315537897600)%Z
      then Ok (now + n)%Z
      else Raise OverflowError
  end.

(** [_get_access_token]. The result is the token, or [None]. *)
Definition _get_access_token (w : world) : M t value :=
  c <- get_self ;;
  if negb (Py.truthy_opt (client_id c)) || negb (Py.truthy_opt (client_secret c))
  then ret VNone
  else
    let data := [("grant_type", VStr "client_credentials");
                 ("client_id", opt_value (client_id c));
                 ("client_secret", opt_value (client_secret c));
                 ("scope", VStr "api_offresdemploiv2 o2dsoffre")] in
    let headers := [("Content-Type", "application/x-www-form-urlencoded");
                    ("Accept", "application/json")] in
    try_except
      (response <- request w (HttpPost token_url data headers) ;;
       if negb (status_code response =? 200)%Z
       then print (LogAuthError (status_code response) (text response)) ;;;
            ret VNone
       else
         token_data <- lift (json response) ;;
         access_token <- lift (Py.get token_data "access_token" VNone) ;;
         if negb (Py.truthy access_token)
         then print LogNoAccessToken ;;; ret VNone
         else
           c <- get_self ;;
           set_self (set_access_token access_token c) ;;;
           has <- lift (PyExtra.contains_str "expires_in" token_data) ;;
           (if has : bool
            then
              seconds <- lift (PyExtra.getitem_str token_data "expires_in") ;;
              expiry <- lift (add_seconds (now w) seconds) ;;
              c <- get_self ;;
              set_self (set_token_expiry (Some expiry) c)
            else ret tt) ;;;
           ret access_token)
      (fun e => print (LogTokenException e) ;;; ret VNone).

(** [_get_auth_token]. *)
Definition _get_auth_token (w : world) : M t value :=
  c <- get_self ;;
  if Py.truthy_opt (api_key c) then ret (opt_value (api_key c))
  else
    match Py.truthy (access_token c), token_expiry c with
    | true, Some expiry =>
        if (now w <? expiry)%Z then ret (access_token c)
        else _get_access_token w
    | _, _ => _get_access_token w
    end.

(** The dict [contract_keywords], in the order it is written. *)
Definition contract_keywords : list (string * string) :=
  [("Stage", "STG");
   ("Alternance", "ALT");
   ("CDD", "CDD");
   ("CDI", "CDI");
   ("Int" ++ PyStr.e_acute ++ "rim", "MIS");
   ("Freelance", "LIB");
   ("Saisonnier", "SAI")].

(** The loop over [contract_keywords.items()], left by [break] at the
    first keyword found. It gives [job_title_clean] and
    [detected_contract_type]. *)
Fixpoint scan_contract (items : list (string * string)) (job_title : string)
  : M t (string * option string) :=
  match items with
  | [] => ret (job_title, None)
  | (keyword, code) :: rest =>
      if PyStr.contains (PyStr.lower keyword) (PyStr.lower job_title)
      then
        let job_title_clean :=
          PyStr.strip (PyStr.remove (PyStr.lower keyword) (PyStr.lower job_title)) in
        print (LogContractDetected keyword code) ;;;
        print (LogCleanTitle job_title_clean) ;;;
        ret (job_title_clean, Some code)
      else scan_contract rest job_title
  end.

(** The [else] branch of [if job_keywords]: the query text and the
    contract type worked out from the title. *)
Definition analyse_title (job_title : string) (contract_type : option string)
  : M t (string * option string) :=
  r <- scan_contract contract_keywords job_title ;;
  let '(job_title_clean, detected_contract_type) := r in
  let job_title_clean := PyStr.strip (PyStr.remove "technique" job_title_clean) in
  let motsCles := job_title_clean in
  print (LogSearchKeywords motsCles) ;;;
  if negb (Py.truthy_opt contract_type) && Py.truthy_opt detected_contract_type
  then
    print (LogContractStored (match detected_contract_type with
                              | Some code => code | None => "" end)) ;;;
    ret (motsCles, detected_contract_type)
  else ret (motsCles, contract_type).

(** The table [dept_codes]. *)
Definition dept_codes : list (string * string) :=
  [("paris", "75"); ("lyon", "69"); ("marseille", "13");
   ("toulouse", "31"); ("nice", "06"); ("bordeaux", "33");
   ("lille", "59")].

Fixpoint assoc (k : string) (d : list (string * string)) : option string :=
  match d with
  | [] => None
  | (k', v) :: d' => if String.eqb k k' then Some v else assoc k d'
  end.

(** The block under [if location:]: the value of [params["departement"]]
    and the line printed with it; nothing when [location] is [None] or
    empty. *)
Definition departement (location : option string) : option (string * log_line) :=
  match location with
  | None => None
  | Some location =>
      if String.eqb location "" then None
      else
        match PyStr.search_postal location with
        | Some group1 =>
            let dept_code := PyStr.take 2 group1 in
            Some (dept_code, LogDeptFromPostal dept_code)
        | None =>
            if (String.length location =? 2) && PyStr.isdigit location
            then Some (location, LogDeptDirect location)
            else
              match assoc (PyStr.lower location) dept_codes with
              | Some code => Some (code, LogDeptCity code location)
              | None => Some ("75", LogDeptDefault location)
              end
        end
  end.

Definition status_ok (r : response) : bool :=
  (status_code r =? 200)%Z || (status_code r =? 206)%Z.

Definition msg_401 : message :=
  Msg ("Erreur d'authentification avec l'API France Travail: Cl"
       ++ PyStr.e_acute ++ " API invalide (code 401)").

(** The arguments of [search_jobs]. *)
Record args : Type := mkArgs {
  a_job_title : string;
  a_location : option string;
  a_radius : Z;
  a_keywords : option (list string);
  a_limit : Z;
  a_contract_type : option string;
  a_job_keywords : option string
}.

(** [results] out of the parsed body. *)
Definition extract_results (data : value) : result value :=
  match PyExtra.contains_str "resultats" data with
  | Raise e => Raise e
  | Ok false => Ok (VList [])
  | Ok true =>
      match PyExtra.getitem_str data "resultats" with
      | Raise e => Raise e
      | Ok inner =>
          if PyExtra.is_dict inner
          then Py.get inner "resultats" (VList [])
          else Ok inner
      end
  end.

Definition params_t : Type := list (string * value).
Definition headers_t : Type := list (string * string).

(** [if job_keywords: ... else: ...]: [motsCles] and [contract_type]. *)
Definition choose_query (a : args) : M t (string * option string) :=
  if Py.truthy_opt (a_job_keywords a)
  then
    let motsCles := match a_job_keywords a with
                    | Some k => k | None => "" end in
    print (LogLLMKeywords motsCles) ;;;
    ret (motsCles, a_contract_type a)
  else analyse_title (a_job_title a) (a_contract_type a).

(** [params] at first, then the block [if location:]. *)
Definition first_params (motsCles : string) (limit : Z) : params_t :=
  [("motsCles", VStr motsCles);
   ("range", VStr ("0-" ++ PyStr.of_Z (limit - 1)))].

Definition add_location (location : option string) (params : params_t)
  : M t params_t :=
  match departement location with
  | Some (dept, line) =>
      print line ;;; ret (Py.set "departement" (VStr dept) params)
  | None => ret params
  end.

(** The block [if keywords:]: two lines are printed; [params] is not
    touched. *)
Definition mention_keywords (keywords : option (list string)) : M t unit :=
  match keywords with
  | Some ((_ :: _) as keywords) =>
      print (LogSkillsCount FRANCE_TRAVAIL (List.length keywords)) ;;;
      print (LogSkillsShown FRANCE_TRAVAIL
               (PyStr.join ", " (firstn 5 keywords)))
  | _ => ret tt
  end.

Definition first_headers (auth_token : value) : headers_t :=
  [("Authorization", "Bearer " ++ Py.str auth_token);
   ("Accept", "application/json")].

(** The block [if response.status_code == 401:], entered with the
    response to the first request: it gives the response the rest of
    the method goes on with. *)
Definition on_401 (w : world) (search_url : string) (params : params_t)
  (headers : headers_t) (first_response : response) : M t response :=
  c <- get_self ;;
  if Py.truthy_opt (client_id c) && Py.truthy_opt (client_secret c)
     && Py.truthy (access_token c)
  then
    print LogTokenExpired ;;;
    set_self (set_access_token VNone c) ;;;
    new_token <- _get_auth_token w ;;
    if Py.truthy new_token
    then
      let headers :=
        Py.set "Authorization" ("Bearer " ++ Py.str new_token) headers in
      response <- request w (HttpGet search_url params headers) ;;
      if status_ok response
      then print LogRetrySucceeded ;;; ret response
      else raise (ValueError msg_401)
    else ret first_response
  else raise (ValueError msg_401).

(** The body of the [try]. *)
Definition fetch (w : world) (search_url : string) (params : params_t)
  (headers : headers_t) : M t value :=
  print (LogRequest search_url params) ;;;
  response <- request w (HttpGet search_url params headers) ;;
  print (LogResponseUrl (resp_url response)) ;;;
  response <- (if (status_code response =? 401)%Z
               then on_401 w search_url params headers response
               else ret response) ;;
  if negb (status_ok response)
  then raise (ValueError (MsgStatus
         "Erreur lors de la recherche sur France Travail: "
         (status_code response) (text response)))
  else
    data <- lift (json response) ;;
    results <- lift (extract_results data) ;;
    ret results.

(** The two [except] clauses. *)
Definition rewrap (e : exn) : exn :=
  match e with
  | RequestException =>
      ValueError (MsgCause
        "Erreur lors de la recherche sur France Travail: " e)
  | _ =>
      ValueError (MsgCause
        ("Erreur lors du traitement des r" ++ PyStr.e_acute
         ++ "sultats France Travail: ") e)
  end.

Definition not_configured : message :=
  Msg ("Authentification France Travail non configur" ++ PyStr.e_acute
       ++ "e. Impossible d'effectuer la recherche.").

(** [search_jobs]. *)
Definition search_jobs (w : world) (a : args) : M t value :=
  auth_token <- _get_auth_token w ;;
  if negb (Py.truthy auth_token)
  then raise (ValueError not_configured)
  else
    chosen <- choose_query a ;;
    let '(motsCles, contract_type) := chosen in
    params <- add_location (a_location a) (first_params motsCles (a_limit a)) ;;
    mention_keywords (a_keywords a) ;;;
    c <- get_self ;;
    let search_url := api_base_url c ++ "/offres/search" in
    let headers := first_headers auth_token in
    try_except (fetch w search_url params headers)
               (fun e => raise (rewrap e)).

(** A call on a client [c] that has sent nothing yet: what it returns or
    raises, the client afterwards, and what it did. *)
Definition call (w : world) (c : t) (a : args) : result value * t * list event :=
  run (search_jobs w a) c.

End FranceTravailClient.

(* ================================================================== *)
(** ** [list.sort(key=..., reverse=...)] *)
(* ================================================================== *)

(** The sort of CPython on a list of fewer than 64 elements: the keys are
  computed first; with [reverse] the list is reversed before and after;
  the natural run at the head is found ([count_run]), turned round when
  it descends, and the other elements are put in place one by one by
  binary search ([binarysort]). A comparison that raises stops the sort
  and leaves the list as it is at that moment. (A longer list is cut in
  several runs that are merged; when no comparison raises the outcome is
  the same, a stable sort having one outcome only.) *)
Module ListSort.
Local Open Scope list_scope.
Section Sort.
Context {A : Type}.

(** An element with its key. *)
Definition item : Type := value * A.

Fixpoint run_descending (prev : value) (rest : list item) (n : nat)
  : result nat :=
  match rest with
  | [] => Ok n
  | x :: rest' =>
      match Py.lt (fst x) prev with
      | Raise e => Raise e
      | Ok true => run_descending (fst x) rest' (S n)
      | Ok false => Ok n
      end
  end.

Fixpoint run_ascending (prev : value) (rest : list item) (n : nat)
  : result nat :=
  match rest with
  | [] => Ok n
  | x :: rest' =>
      match Py.lt (fst x) prev with
      | Raise e => Raise e
      | Ok true => Ok n
      | Ok false => run_ascending (fst x) rest' (S n)
      end
  end.

(** The length of the run at the head, and whether it descends. *)
Definition count_run (l : list item) : result (nat * bool) :=
  match l with
  | [] => Ok (0, false)
  | [_] => Ok (1, false)
  | a :: b :: rest =>
      match Py.lt (fst b) (fst a) with
      | Raise e => Raise e
      | Ok true =>
          match run_descending (fst b) rest 2 with
          | Ok n => Ok (n, true)
          | Raise e => Raise e
          end
      | Ok false =>
          match run_ascending (fst b) rest 2 with
          | Ok n => Ok (n, false)
          | Raise e => Raise e
          end
      end
  end.

(** The place of [pivot] in the sorted [pre], found by halving: the
    middle element [x] is at index [length pre / 2]; [pivot] goes to the
    left of it when [pivot < x] and to the right otherwise. [fuel]
    bounds the number of halvings; [length pre] is enough. *)
Fixpoint insert (fuel : nat) (pivot : item) (pre : list item)
  : result (list item) :=
  match fuel with
  | O => Ok (pivot :: pre)
  | S fuel' =>
      let p := List.length pre / 2 in
      match skipn p pre with
      | [] => Ok (pre ++ [pivot])
      | x :: after =>
          match Py.lt (fst pivot) (fst x) with
          | Raise e => Raise e
          | Ok true =>
              match insert fuel' pivot (firstn p pre) with
              | Ok before' => Ok (before' ++ x :: after)
              | Raise e => Raise e
              end
          | Ok false =>
              match insert fuel' pivot after with
              | Ok after' => Ok (firstn p pre ++ x :: after')
              | Raise e => Raise e
              end
          end
      end
  end.

(** [binarysort]: [sorted] is in order, [pending] is still to insert. *)
Fixpoint binarysort (sorted pending : list item) : result unit * list item :=
  match pending with
  | [] => (Ok tt, sorted)
  | pivot :: rest =>
      match insert (S (List.length sorted)) pivot sorted with
      | Ok sorted' => binarysort sorted' rest
      | Raise e => (Raise e, sorted ++ pivot :: rest)
      end
  end.

Definition sort_items (items : list item) : result unit * list item :=
  if List.length items <? 2 then (Ok tt, items)
  else
    match count_run items with
    | Raise e => (Raise e, items)
    | Ok (n, descending) =>
        let run := firstn n items in
        binarysort (if descending : bool then rev run else run) (skipn n items)
    end.

(** [l.sort(key=key, reverse=reverse)] for a [key] that does not raise:
    whether it raised, and the list afterwards. *)
Definition sort (key : A -> value) (reverse : bool) (l : list A)
  : result unit * list A :=
  let items := map (fun x => (key x, x)) l in
  let '(r, items') := sort_items (if reverse then rev items else items) in
  (r, map snd (if reverse then rev items' else items')).

End Sort.
End ListSort.

(* ================================================================== *)
(** ** src/utils/api_clients.py: IndeedClient, GlassdoorClient *)
(* ================================================================== *)

Definition rbind {A B} (r : result A) (k : A -> result B) : result B :=
match r with
| Ok a => k a
| Raise e => Raise e
end.

Notation "x <~ r ;; k" := (rbind r (fun x => k))
(at level 61, r at next level, right associativity).

(** [for x in l: ...append(f x)], left at the first [x] on which the body
  raises. *)
Fixpoint for_each {A B} (f : A -> result B) (l : list A) : result (list B) :=
match l with
| [] => Ok []
| x :: l' =>
    y <~ f x ;;
    ys <~ for_each f l' ;;
    Ok (y :: ys)
end.

(** [city] and [country] out of [location_str]: the first and the last
  piece when it has a comma. *)
Definition city_of (location_str : value) : result value :=
has <~ PyExtra.contains_str "," location_str ;;
if has : bool then PyExtra.split_first_strip location_str
else Ok location_str.

Definition country_of (location_str : value) : result value :=
has <~ PyExtra.contains_str "," location_str ;;
if has : bool then PyExtra.split_last_strip location_str
else Ok (VStr "France").

Module IndeedClient.
Import Eff.

Record t : Type := mk {
  api_key : option string;
  base_url : string
}.

(** [__init__] raises [ValueError] without a key. *)
Definition init (key : option string) : result t :=
  if Py.truthy_opt key
  then Ok {| api_key := key;
             base_url := "https://api.indeed.com/ads/apisearch" |}
  else Raise (ValueError (Msg
         ("La cl" ++ PyStr.e_acute ++ " API Indeed n'est pas configur"
          ++ PyStr.e_acute ++ "e."))).

(** The body of the loop over [data.get("results", [])]. *)
Definition posting_of (w : world) (job : value) : result JobPosting :=
  location_str <~ Py.get job "formattedLocation" (VStr "") ;;
  city <~ city_of location_str ;;
  country <~ country_of location_str ;;
  let location_obj := Location_init city VNone VNone country location_str in
  jobkey <~ Py.get job "jobkey" (VStr "") ;;
  jobtitle <~ Py.get job "jobtitle" (VStr "") ;;
  company <~ Py.get job "company" (VStr "") ;;
  snippet <~ Py.get job "snippet" (VStr "") ;;
  url <~ Py.get job "url" (VStr "") ;;
  date <~ Py.get job "date" (VStr (today w)) ;;
  Ok (JobPosting_init jobkey jobtitle company location_obj snippet url date
        VNone VNone VNone VNone VNone (Some INDEED) job).

(** [search_jobs]. *)
Definition search_jobs (w : world) (job_title : string)
  (location : option string) (radius : Z) (keywords : option (list string))
  (limit : Z) : M t (list JobPosting) :=
  c <- get_self ;;
  let params := [("publisher", FranceTravailClient.opt_value (api_key c));
                 ("q", VStr job_title);
                 ("limit", VInt limit);
                 ("radius", VInt radius);
                 ("format", VStr "json");
                 ("v", VStr "2")] in
  let params := if Py.truthy_opt location
                then Py.set "l" (FranceTravailClient.opt_value location) params
                else params in
  match keywords with
  | Some ((_ :: _) as keywords) =>
      print (LogSkillsCount INDEED (List.length keywords)) ;;;
      print (LogSkillsShown INDEED (PyStr.join ", " (firstn 5 keywords)))
  | _ => ret tt
  end ;;;
  response <- request w (HttpGet (base_url c) params []) ;;
  if negb (status_code response =? 200)%Z
  then raise (Exception (MsgStatus "Erreur lors de la recherche sur Indeed: "
                           (status_code response) (text response)))
  else
    data <- lift (json response) ;;
    listed <- lift (Py.get data "results" (VList [])) ;;
    jobs <- lift (Py.iterate listed) ;;
    lift (for_each (posting_of w) jobs).

Definition call (w : world) (c : t) (job_title : string)
  (location : option string) (radius : Z) (keywords : option (list string))
  (limit : Z) : result (list JobPosting) * list event :=
  let '(r, _, did) := run (search_jobs w job_title location radius keywords limit) c in
  (r, did).

End IndeedClient.

Module GlassdoorClient.
Import Eff.

Record t : Type := mk {
  api_key : option string;
  base_url : string
}.

Definition init (key : option string) : result t :=
  if Py.truthy_opt key
  then Ok {| api_key := key;
             base_url := "https://api.glassdoor.com/api/api.htm" |}
  else Raise (ValueError (Msg
         ("La cl" ++ PyStr.e_acute ++ " API Glassdoor n'est pas configur"
          ++ PyStr.e_acute ++ "e."))).

(** The body of the loop over the job listings. *)
Definition posting_of (w : world) (job : value) : result JobPosting :=
  location_str <~ Py.get job "location" (VStr "") ;;
  city <~ city_of location_str ;;
  let country := VStr "France" in
  let location_obj := Location_init city VNone VNone country location_str in
  listing_id <~ Py.get job "jobListingId" (VStr "") ;;
  jobTitle <~ Py.get job "jobTitle" (VStr "") ;;
  employer <~ Py.get job "employer" (VDict []) ;;
  name <~ Py.get employer "name" (VStr "") ;;
  jobDescription <~ Py.get job "jobDescription" (VStr "") ;;
  jobViewUrl <~ Py.get job "jobViewUrl" (VStr "") ;;
  Ok (JobPosting_init (VStr (Py.str listing_id)) jobTitle name location_obj
        jobDescription jobViewUrl (VStr (today w))
        VNone VNone VNone VNone VNone (Some GLASSDOOR) job).

(** [search_jobs]. *)
Definition search_jobs (w : world) (job_title : string)
  (location : option string) (radius : Z) (keywords : option (list string))
  (limit : Z) : M t (list JobPosting) :=
  c <- get_self ;;
  let params := [("v", VStr "1");
                 ("format", VStr "json");
                 ("t.p", VStr "API_KEY");
                 ("t.k", FranceTravailClient.opt_value (api_key c));
                 ("action", VStr "jobs-prog");
                 ("countryId", VStr "1");
                 ("jobTitle", VStr job_title);
                 ("numResults", VInt limit)] in
  let params := if Py.truthy_opt location
                then Py.set "city" (FranceTravailClient.opt_value location) params
                else params in
  match keywords with
  | Some ((_ :: _) as keywords) =>
      print (LogSkillsCount GLASSDOOR (List.length keywords))
  | _ => ret tt
  end ;;;
  response <- request w (HttpGet (base_url c) params []) ;;
  if negb (status_code response =? 200)%Z
  then raise (Exception (MsgStatus "Erreur lors de la recherche sur Glassdoor: "
                           (status_code response) (text response)))
  else
    data <- lift (json response) ;;
    inner <- lift (Py.get data "response" (VDict [])) ;;
    listed <- lift (Py.get inner "jobListings" (VList [])) ;;
    jobs <- lift (Py.iterate listed) ;;
    lift (for_each (posting_of w) jobs).

Definition call (w : world) (c : t) (job_title : string)
  (location : option string) (radius : Z) (keywords : option (list string))
  (limit : Z) : result (list JobPosting) * list event :=
  let '(r, _, did) := run (search_jobs w job_title location radius keywords limit) c in
  (r, did).

End GlassdoorClient.

(* ================================================================== *)
(** ** src/agents/job_searcher.py *)
(* ================================================================== *)

Module JobSearcherAgent.

(** What a client's [search_jobs] returned: some value, or a list of
    objects. *)
Inductive payload : Type :=
| PValue (v : value)
| PList (l : list pyobj).

(** [iter(payload)]. *)
Definition iterate (p : payload) : result (list pyobj) :=
  match p with
  | PValue v => l <~ Py.iterate v ;; Ok (map OValue l)
  | PList l => Ok l
  end.

(** A configured client, seen from the agent: called with [job_title],
    [location], [radius], [keywords] and [limit], it returns or raises,
    and has sent requests and printed lines meanwhile. *)
Definition client : Type :=
  string -> option string -> Z -> list string -> Z
  -> result payload * list event.

(** [self.clients]: a dict whose keys are the four sources, in the order
    [__init__] writes them; a value is a client or [None]. *)
Definition clients_t : Type := JobSource -> option client.

Definition sources : list JobSource :=
  [FRANCE_TRAVAIL; LINKEDIN; INDEED; GLASSDOOR].

(** [_init_client]: [None] when the constructor raises [ValueError]. *)
Definition _init_client {C} (constructed : result C) : result (option C) :=
  match constructed with
  | Ok c => Ok (Some c)
  | Raise (ValueError _) => Ok None
  | Raise e => Raise e
  end.

(** The dict built by [__init__]: LinkedIn, Indeed and Glassdoor are
    switched off. *)
Definition init_clients (france_travail : option client) : clients_t :=
  fun s =>
    match s with
    | FRANCE_TRAVAIL => france_travail
    | LINKEDIN => None
    | INDEED => None
    | GLASSDOOR => None
    end.

Definition placeholder : string :=
  "Non sp" ++ PyStr.e_acute ++ "cifi" ++ PyStr.e_acute.

(** [job.get(k, d)] on an object of the list: a [JobPosting] has no
    [get]. *)
Definition obj_get (job : pyobj) (k : string) (d : value) : result value :=
  match job with
  | OValue v => Py.get v k d
  | OPosting _ => Raise AttributeError
  end.

Definition obj_raw (job : pyobj) : value :=
  match job with
  | OValue v => v
  | OPosting _ => VNone
  end.

(** The body of the [try] in [_process_france_travail_results]. *)
Definition normalise (job : pyobj) : result JobPosting :=
  job_id <~ obj_get job "id" (VStr "") ;;
  title <~ obj_get job "intitule" (VStr "") ;;
  entreprise <~ obj_get job "entreprise" (VDict []) ;;
  company <~ Py.get entreprise "nom" (VStr placeholder) ;;
  description <~ obj_get job "description" (VStr "") ;;
  origine <~ obj_get job "origineOffre" (VDict []) ;;
  url <~ Py.get origine "urlOrigine" (VStr "https://www.francetravail.fr/") ;;
  posted_date <~ obj_get job "dateCreation" (VStr "") ;;
  location_data <~ obj_get job "lieuTravail" (VDict []) ;;
  city <~ Py.get location_data "libelle" (VStr "") ;;
  postal_code <~ Py.get location_data "codePostal" (VStr "") ;;
  let country := VStr "France" in
  let location :=
    Location_init city postal_code (VStr "") country
      (VStr (Py.str city ++ ", " ++ Py.str postal_code ++ ", " ++ Py.str country)) in
  has <~ PyExtra.contains_str "competences" (obj_raw job) ;;
  skills <~ (if has : bool
             then
               listed <~ obj_get job "competences" (VList []) ;;
               comps <~ Py.iterate listed ;;
               libelles <~ for_each (fun comp => Py.get comp "libelle" (VStr "")) comps ;;
               Ok (VList libelles)
             else Ok (VList [])) ;;
  contract_type <~ obj_get job "typeContrat" (VStr "") ;;
  salaire <~ obj_get job "salaire" (VDict []) ;;
  salary <~ Py.get salaire "libelle" (VStr "") ;;
  experience <~ obj_get job "experienceExige" (VStr "") ;;
  education <~ obj_get job "formationExige" (VStr "") ;;
  Ok (JobPosting_init job_id title company location description url
        posted_date salary contract_type skills experience education
        (Some FRANCE_TRAVAIL) (obj_raw job)).

(** The loop of [_process_france_travail_results]: a record on which the
    body raises is reported and left out. *)
Fixpoint process_each (jobs : list pyobj) : list JobPosting * list log_line :=
  match jobs with
  | [] => ([], [])
  | job :: rest =>
      let '(job_postings, printed) := process_each rest in
      match normalise job with
      | Ok job_posting => (job_posting :: job_postings, printed)
      | Raise e => (job_postings, LogRecordError e :: printed)
      end
  end.

(** [_process_france_travail_results]. *)
Definition _process_france_travail_results (results : payload)
  : result (list JobPosting) * list log_line :=
  match iterate results with
  | Raise e => (Raise e, [])
  | Ok jobs => let '(job_postings, printed) := process_each jobs in
               (Ok job_postings, printed)
  end.

(** [_search_on_source]. *)
Definition _search_on_source (clients : clients_t) (source : JobSource)
  (query : JobSearchRequest) : result payload * list event :=
  match clients source with
  | None =>
      (Raise (ValueError (MsgSource
         ("Client non configur" ++ PyStr.e_acute ++ " pour la source ")
         (JobSource_value source))), [])
  | Some client =>
      match client (job_title query) (req_location query) (radius query)
              (keywords query) (limit_per_source query) with
      | (Ok found, did) => (Ok found, did)
      | (Raise e, did) =>
          (Raise e,
           (did ++ [Printed (LogSourceError (JobSource_value source) e)])%list)
      end
  end.

(** What one task did. *)
Record task : Type := mkTask {
  task_source : JobSource;
  task_events : list event
}.

(** The outside of one search: the moment each task finishes.
    [as_completed] gives the tasks by finishing time (two tasks that
    finish together come in the order they were submitted). *)
Definition schedule : Type := JobSource -> nat.

Fixpoint insert_by (finish : schedule) (s : JobSource) (l : list JobSource)
  : list JobSource :=
  match l with
  | [] => [s]
  | x :: l' => if finish x <=? finish s then x :: insert_by finish s l'
               else s :: l
  end.

(** [as_completed]. *)
Definition as_completed (finish : schedule) (submitted : list JobSource)
  : list JobSource :=
  fold_left (fun done s => insert_by finish s done) submitted [].

(** The key given to [sort]. *)
Definition sort_key (job : pyobj) : value :=
  match job with
  | OPosting j => if Py.truthy (posted_date j) then posted_date j else VStr ""
  | OValue _ => VStr ""
  end.

(** The state of the loop over [as_completed]. *)
Record fan_in_state : Type := mkFanIn {
  fi_results : list pyobj;
  fi_failed : list JobSource;
  fi_printed : list log_line
}.

(** One round of the loop: the [try] around [future.result()], the
    conversion and [results.extend]. *)
Definition collect (source : JobSource) (outcome : result payload)
  : result (list pyobj) * list log_line :=
  match outcome with
  | Raise e => (Raise e, [])
  | Ok source_results =>
      match source with
      | FRANCE_TRAVAIL =>
          let '(r, printed) := _process_france_travail_results source_results in
          (x <~ r ;; Ok (map OPosting x), printed)
      | _ => (iterate source_results, [])
      end
  end.

Definition fan_in_step (outcome : JobSource -> result payload)
  (st : fan_in_state) (source : JobSource) : fan_in_state :=
  match collect source (outcome source) with
  | (Ok processed_results, printed) =>
      {| fi_results := (fi_results st ++ processed_results)%list;
         fi_failed := fi_failed st;
         fi_printed := (fi_printed st ++ printed)%list |}
  | (Raise e, printed) =>
      {| fi_results := fi_results st;
         fi_failed := (fi_failed st ++ [source])%list;
         fi_printed := (fi_printed st ++ printed ++ [LogFanInError source e])%list |}
  end.

Definition no_source : message :=
  Msg "Aucune source d'emploi n'est disponible. Veuillez configurer au moins une source.".

(** The error of a search with no source: the [ValueError] raised when
    [available_sources] is empty. *)
Definition NoSourceAvailableError : exn := ValueError no_source.

(** What a search did besides returning: the tasks it submitted, with
    what each did, and the lines the agent itself printed. *)
Record effects : Type := mkEffects {
  submitted : list task;
  printed : list log_line
}.

Definition is_some {X} (o : option X) : bool :=
  match o with Some _ => true | None => false end.

(** [search_jobs]. *)
Definition search_jobs (clients : clients_t) (finish : schedule)
  (query : JobSearchRequest) : result JobSearchResponse * effects :=
  let enriched_query := query in
  let available_sources := filter (fun s => is_some (clients s)) sources in
  match available_sources with
  | [] => (Raise NoSourceAvailableError, {| submitted := []; printed := [] |})
  | _ =>
      let futures :=
        map (fun s => (s, _search_on_source clients s query)) available_sources in
      let outcome := fun s => fst (_search_on_source clients s query) in
      let st :=
        fold_left (fan_in_step outcome) (as_completed finish available_sources)
          {| fi_results := []; fi_failed := []; fi_printed := [] |} in
      let '(sorted, results) := ListSort.sort sort_key true (fi_results st) in
      let sort_printed := match sorted with
                          | Ok _ => []
                          | Raise e => [LogSortError e]
                          end in
      (Ok {| query := enriched_query;
             results := results;
             available_sources := map JobSource_value available_sources;
             failed_sources := map JobSource_value (fi_failed st);
             total_count := List.length results |},
       {| submitted := map (fun f => {| task_source := fst f;
                                        task_events := snd (snd f) |}) futures;
          printed := (fi_printed st ++ sort_printed)%list |})
  end.

(** The requests sent during a search. *)
Definition network_calls (e : effects) : list event :=
  flat_map (fun t => filter is_http (task_events t)) (submitted e).

End JobSearcherAgent.

(** *** The agent's clients, wired to the client classes *)

Module Wiring.

Definition map_result {A B} (f : A -> B) (r : result A) : result B :=
  match r with Ok a => Ok (f a) | Raise e => Raise e end.

(** A France Travail client in a world: the agent leaves [contract_type]
    and [job_keywords] at their defaults. *)
Definition france_travail (w : world) (c : FranceTravailClient.t)
  : JobSearcherAgent.client :=
  fun job_title location radius keywords limit =>
    let '(r, _, did) :=
      FranceTravailClient.call w c
        {| FranceTravailClient.a_job_title := job_title;
           FranceTravailClient.a_location := location;
           FranceTravailClient.a_radius := radius;
           FranceTravailClient.a_keywords := Some keywords;
           FranceTravailClient.a_limit := limit;
           FranceTravailClient.a_contract_type := None;
           FranceTravailClient.a_job_keywords := None |} in
    (map_result JobSearcherAgent.PValue r, did).

Definition indeed (w : world) (c : IndeedClient.t) : JobSearcherAgent.client :=
  fun job_title location radius keywords limit =>
    let '(r, did) :=
      IndeedClient.call w c job_title location radius (Some keywords) limit in
    (map_result (fun l => JobSearcherAgent.PList (map OPosting l)) r, did).

Definition glassdoor (w : world) (c : GlassdoorClient.t)
  : JobSearcherAgent.client :=
  fun job_title location radius keywords limit =>
    let '(r, did) :=
      GlassdoorClient.call w c job_title location radius (Some keywords) limit in
    (map_result (fun l => JobSearcherAgent.PList (map OPosting l)) r, did).

(** [JobSearcherAgent.__init__], as far as [self.clients] goes. *)
Definition agent_clients (w : world) (id secret key : option string)
  : JobSearcherAgent.clients_t :=
  JobSearcherAgent.init_clients
    (match JobSearcherAgent._init_client
             (Ok (fst (FranceTravailClient.init id secret key))) with
     | Ok (Some c) => Some (france_travail w c)
     | _ => None
     end).

End Wiring.

(* ================================================================== *)
(** ** src/models/job.py: [Location.__str__], [JobPosting.__str__] *)
(* ================================================================== *)

Module JobModels.

(** An item given to [str.join] must be a string. *)
Definition join_item (v : value) : result string :=
  match v with
  | VStr s => Ok s
  | _ => Raise TypeError
  end.

(** [sep.join(v)]: [v] is iterated, and every item must be a string. *)
Definition join (sep : string) (v : value) : result string :=
  items <~ Py.iterate v ;;
  pieces <~ for_each join_item items ;;
  Ok (PyStr.join sep pieces).

(** [x not in (a, b)]. *)
Definition not_in_pair (x a b : value) : bool :=
  negb (Py.eqb a x || Py.eqb b x).

(** [Location.__str__]: the parts that are set, joined by a comma and a
    space; the region is left out when it repeats the city or the postal
    code. *)
Definition Location_str (l : Location) : result string :=
  let parts := [] in
  let parts := if Py.truthy (city l) then (parts ++ [city l])%list else parts in
  let parts := if Py.truthy (postal_code l)
               then (parts ++ [postal_code l])%list else parts in
  let parts := if Py.truthy (region l)
                  && not_in_pair (region l) (city l) (postal_code l)
               then (parts ++ [region l])%list else parts in
  let parts := if Py.truthy (country l) then (parts ++ [country l])%list else parts in
  join ", " (VList parts).

(** [JobPosting.__str__]: the f-string formats [self.location] with
    [Location.__str__]. *)
Definition JobPosting_str (j : JobPosting) : result string :=
  where_ <~ Location_str (location j) ;;
  Ok (Py.str (title j) ++ " chez " ++ Py.str (company j) ++ " - " ++ where_).

End JobModels.

(* ================================================================== *)
(** ** src/agents/job_searcher.py: [enrich_search_query] *)
(* ================================================================== *)

Module Enrichment.

(** What [enrichment_chain.invoke] is given. *)
Record invocation : Type := mkInvocation {
  inv_cv_data : string;
  inv_job_title : string;
  inv_location : string
}.

(** The chain, from outside: prompt, model and parser give a string or
    raise. *)
Definition chain : Type := invocation -> result string.

Definition newline : string := PyStr.chr 10.

Definition indent : string := "        ".

(** [f"{e.get(a, '')}<sep>{e.get(b, '')}"] for one element [e]. *)
Definition pair_text (a sep b : string) (e : value) : result value :=
  x <~ Py.get e a (VStr "") ;;
  y <~ Py.get e b (VStr "") ;;
  Ok (VStr (Py.str x ++ sep ++ Py.str y)).

(** [[f"..." for e in cv_data.get(k, [])]]. *)
Definition pair_texts (cv_data : value) (k a sep b : string) : result value :=
  listed <~ Py.get cv_data k (VList []) ;;
  elements <~ Py.iterate listed ;;
  texts <~ for_each (pair_text a sep b) elements ;;
  Ok (VList texts).

(** The f-string [cv_text]. *)
Definition cv_text (cv_data : value) : result string :=
  desired_job <~ Py.get cv_data "desired_job" (VStr "") ;;
  listed <~ Py.get cv_data "skills" (VList []) ;;
  skills <~ JobModels.join ", " listed ;;
  texts <~ pair_texts cv_data "experiences" "position" " chez " "company" ;;
  experiences <~ JobModels.join ", " texts ;;
  texts <~ pair_texts cv_data "education" "diploma" " en " "field_of_study" ;;
  education <~ JobModels.join ", " texts ;;
  Ok (newline
      ++ indent ++ "Poste recherch" ++ PyStr.e_acute ++ ": " ++ Py.str desired_job
      ++ newline
      ++ indent ++ "Comp" ++ PyStr.e_acute ++ "tences: " ++ skills ++ newline
      ++ indent ++ "Exp" ++ PyStr.e_acute ++ "riences: " ++ experiences ++ newline
      ++ indent ++ "Formation: " ++ education ++ newline
      ++ indent).

(** [s.split(",")] as a list. *)
Definition split (s : string) : list string :=
  let '(hd, tl) := PyStr.split_comma s in hd :: tl.

(** [enrich_search_query]: what it returns or raises, and the
    invocations of the chain. *)
Definition enrich_search_query (llm : chain) (job_title location : string)
  (cv_data : value) : result (list string) * list invocation :=
  if negb (Py.truthy cv_data) then (Ok [], [])
  else
    match cv_text cv_data with
    | Raise e => (Raise e, [])
    | Ok text =>
        let asked := {| inv_cv_data := text; inv_job_title := job_title;
                        inv_location := location |} in
        match llm asked with
        | Raise e => (Raise e, [asked])
        | Ok keywords_str =>
            let keywords := map PyStr.strip (split keywords_str) in
            (Ok keywords, [asked])
        end
    end.

End Enrichment.

(* ================================================================== *)
(** ** src/agents/chatbot.py: [_extract_location_from_message] *)
(* ================================================================== *)

Module ChatbotAgent.

Definition a_grave : string := PyStr.chr 224.

Definition e_grave : string := PyStr.chr 232.

Definition known_cities : list string :=
  ["paris"; "lyon"; "marseille"; "toulouse"; "nice"; "bordeaux"; "lille"].

(** The city as a word of the message: between spaces, or followed by a
    comma or a full stop. *)
Definition as_word (city message_lower : string) : bool :=
  let padded := " " ++ message_lower ++ " " in
  PyStr.contains (" " ++ city ++ " ") padded
  || PyStr.contains (" " ++ city ++ ",") padded
  || PyStr.contains (" " ++ city ++ ".") padded.

Definition location_phrases (city : string) : list string :=
  [a_grave ++ " " ++ city; "dans " ++ city; "sur " ++ city;
   "vers " ++ city; "autour de " ++ city;
   "pr" ++ e_grave ++ "s de " ++ city;
   "en r" ++ PyStr.e_acute ++ "gion " ++ city; "ville de " ++ city].

(** The loop over [known_cities], left by [return] at the first city
    the message mentions. *)
Fixpoint find_city (cities : list string) (message_lower : string)
  : option string :=
  match cities with
  | [] => None
  | city :: rest =>
      if as_word city message_lower then Some city
      else if existsb (fun phrase => PyStr.contains phrase message_lower)
                (location_phrases city)
      then Some city
      else find_city rest message_lower
  end.

Definition departement_word : string :=
  "d" ++ PyStr.e_acute ++ "partement ".

(** The pattern [département (\d{2})] tried at one position. *)
Definition match_dept_here (s : string) : option string :=
  let after := PyStr.drop (String.length departement_word) s in
  let two := PyStr.take 2 after in
  if PyStr.startswith departement_word s && (String.length two =? 2)
     && PyStr.all_chars PyStr.is_decimal two
  then Some two else None.

(** [re.search(r'département (\d{2})', s)]: group 1 of the leftmost
    match. *)
Fixpoint search_dept (s : string) : option string :=
  match match_dept_here s with
  | Some g => Some g
  | None =>
      match s with
      | EmptyString => None
      | String _ s' => search_dept s'
      end
  end.

(** [_extract_location_from_message]. *)
Definition _extract_location_from_message (message : string) : option string :=
  let message_lower := PyStr.lower message in
  match find_city known_cities message_lower with
  | Some city => Some city
  | None =>
      match PyStr.search_postal message with
      | Some group1 => Some group1
      | None => search_dept message_lower
      end
  end.

End ChatbotAgent.

(* ================================================================== *)
(** ** What the properties are stated with *)
(* ================================================================== *)

Module Views.
Import Eff FranceTravailClient.

(** *** The France Travail query, as values *)

(** What the loop [scan_contract] returns and prints. *)
Fixpoint scanned (items : list (string * string)) (job_title : string)
  : (string * option string) * list event :=
  match items with
  | [] => ((job_title, None), [])
  | (keyword, code) :: rest =>
      if PyStr.contains (PyStr.lower keyword) (PyStr.lower job_title)
      then
        let job_title_clean :=
          PyStr.strip (PyStr.remove (PyStr.lower keyword) (PyStr.lower job_title)) in
        ((job_title_clean, Some code),
         [Printed (LogContractDetected keyword code);
          Printed (LogCleanTitle job_title_clean)])
      else scanned rest job_title
  end.

(** [motsCles] as [analyse_title] computes it. *)
Definition title_text (job_title : string) : string :=
  PyStr.strip (PyStr.remove "technique"
                 (fst (fst (scanned contract_keywords job_title)))).

(** [motsCles] of a call. *)
Definition query_text (a : args) : string :=
  if Py.truthy_opt (a_job_keywords a)
  then match a_job_keywords a with Some k => k | None => "" end
  else title_text (a_job_title a).

(** [params] of a call, as sent. *)
Definition query_params (a : args) : params_t :=
  let params := first_params (query_text a) (a_limit a) in
  match departement (a_location a) with
  | Some (dept, _) => Py.set "departement" (VStr dept) params
  | None => params
  end.

(** What is printed while the query is put together: by the choice of
    the text, by the location, by the keywords. *)
Definition chosen_events (a : args) : list event :=
  if Py.truthy_opt (a_job_keywords a)
  then [Printed (LogLLMKeywords (query_text a))]
  else
    let '((_, detected), said) := scanned contract_keywords (a_job_title a) in
    (said ++ [Printed (LogSearchKeywords (query_text a))]
     ++ (if negb (Py.truthy_opt (a_contract_type a)) && Py.truthy_opt detected
         then [Printed (LogContractStored
                          (match detected with Some code => code | None => "" end))]
         else []))%list.

Definition location_events (location : option string) : list event :=
  match departement location with
  | Some (_, line) => [Printed line]
  | None => []
  end.

Definition keyword_events (keywords : option (list string)) : list event :=
  match keywords with
  | Some ((_ :: _) as keywords) =>
      [Printed (LogSkillsCount FRANCE_TRAVAIL (List.length keywords));
       Printed (LogSkillsShown FRANCE_TRAVAIL
                  (PyStr.join ", " (firstn 5 keywords)))]
  | _ => []
  end.

(** The same call with other keywords. *)
Definition with_keywords (keywords : option (list string)) (a : args) : args :=
  {| a_job_title := a_job_title a; a_location := a_location a;
     a_radius := a_radius a; a_keywords := keywords; a_limit := a_limit a;
     a_contract_type := a_contract_type a;
     a_job_keywords := a_job_keywords a |}.

(** The requests among some events, and their parts. *)
Definition requests (t : list event) : list event := filter is_http t.

Definition gets (t : list event) : list event := filter is_get t.

Definition posts (t : list event) : list event := filter is_post t.

(** An event that is not a search request with other parameters. *)
Definition get_carries (params : params_t) (e : event) : Prop :=
  match e with
  | HttpGet _ sent_params _ => sent_params = params
  | _ => True
  end.

(** The guard of the block entered on a 401: both credentials and an
    access token. *)
Definition may_refresh (c : t) : bool :=
  Py.truthy_opt (client_id c) && Py.truthy_opt (client_secret c)
  && Py.truthy (access_token c).

(** "Refresh credentials are present". *)
Definition has_credentials (c : t) : bool :=
  Py.truthy_opt (client_id c) && Py.truthy_opt (client_secret c).

(** What comes after the first search request. *)
Fixpoint after_first_get (t : list event) : list event :=
  match t with
  | [] => []
  | e :: t' => if is_get e then t' else after_first_get t'
  end.

(** The requests the [try] block may send: the search request, then
    nothing, or a token request, or a token request and the search
    request again, or (for a client with a static key) the search
    request again. *)
Definition try_requests (url : string) (params : params_t) (l : list event)
  : Prop :=
  match l with
  | [HttpGet u p _] => u = url /\ p = params
  | [HttpGet u p _; HttpPost v _ _] => u = url /\ p = params /\ v = token_url
  | [HttpGet u p _; HttpPost v _ _; HttpGet u' p' _] =>
      u = url /\ p = params /\ v = token_url /\ u' = url /\ p' = params
  | [HttpGet u p _; HttpGet u' p' _] =>
      u = url /\ p = params /\ u' = url /\ p' = params
  | _ => False
  end.

(** What the body of a response gives when it is parsed. *)
Definition parsed (r : response) : result value :=
  match json r with
  | Ok data => extract_results data
  | Raise e => Raise e
  end.

(** *** The query text, in the words of the specification *)

(** The contract-type keywords, in the order they are tried. *)
Definition contract_words : list string :=
  ["Stage"; "Alternance"; "CDD"; "CDI"; "Int" ++ PyStr.e_acute ++ "rim";
   "Freelance"; "Saisonnier"].

(** The first keyword found in the title, case set aside. *)
Definition first_contract_word (job_title : string) : option string :=
  find (fun word => PyStr.contains (PyStr.lower word) (PyStr.lower job_title))
       contract_words.

(** The title without that keyword (taken out of the lowercased title)
    and without "technique". *)
Definition spec_query_text (job_title : string) : string :=
  let remaining :=
    match first_contract_word job_title with
    | Some word =>
        PyStr.strip (PyStr.remove (PyStr.lower word) (PyStr.lower job_title))
    | None => job_title
    end in
  PyStr.strip (PyStr.remove "technique" remaining).

(** *** The department, in the words of the specification *)

Definition default_department : string := "75".

(** The table of known cities. *)
Definition known_cities : list (string * string) :=
  [("paris", "75"); ("lyon", "69"); ("marseille", "13"); ("toulouse", "31");
   ("nice", "06"); ("bordeaux", "33"); ("lille", "59")].

(** The four rules, in order of priority. *)
Definition spec_departement (location : string) : string :=
  match PyStr.search_postal location with
  | Some postal_code => PyStr.take 2 postal_code
  | None =>
      if (String.length location =? 2) && PyStr.isdigit location
      then location
      else
        match assoc (PyStr.lower location) known_cities with
        | Some code => code
        | None => default_department
        end
  end.

(** The department sent for a location, if one is sent. *)
Definition sent_departement (location : option string) : option string :=
  match departement location with
  | Some (dept, _) => Some dept
  | None => None
  end.

(** *** The aggregator, as values *)

(** The sources that have a client, in the order of the dict. *)
Definition available (clients : JobSearcherAgent.clients_t) : list JobSource :=
  filter (fun s => JobSearcherAgent.is_some (clients s)) JobSearcherAgent.sources.

(** What the task of a source returns or raises. *)
Definition task_outcome (clients : JobSearcherAgent.clients_t)
  (query : JobSearchRequest) (s : JobSource) : result JobSearcherAgent.payload :=
  fst (JobSearcherAgent._search_on_source clients s query).

(** What a source brings to the results: its postings, or the exception
    raised by its task or by the conversion of what the task returned. *)
Definition gathered (clients : JobSearcherAgent.clients_t)
  (query : JobSearchRequest) (s : JobSource) : result (list pyobj) :=
  fst (JobSearcherAgent.collect s (task_outcome clients query s)).

Definition contribution (clients : JobSearcherAgent.clients_t)
  (query : JobSearchRequest) (s : JobSource) : list pyobj :=
  match gathered clients query s with
  | Ok postings => postings
  | Raise _ => []
  end.

Definition fails (clients : JobSearcherAgent.clients_t)
  (query : JobSearchRequest) (s : JobSource) : bool :=
  negb (is_ok (gathered clients query s)).

(** The sources in the order their tasks finish. *)
Definition completed (clients : JobSearcherAgent.clients_t)
  (finish : JobSearcherAgent.schedule) : list JobSource :=
  JobSearcherAgent.as_completed finish (available clients).

(** The merged list, before the sort. *)
Definition merged (clients : JobSearcherAgent.clients_t)
  (finish : JobSearcherAgent.schedule) (query : JobSearchRequest) : list pyobj :=
  flat_map (contribution clients query) (completed clients finish).

(** The posting date of an object of the results, as the sort sees it. *)
Definition date_text (job : pyobj) : string :=
  match JobSearcherAgent.sort_key job with
  | VStr s => s
  | _ => EmptyString
  end.

(** The posting date is a string, or is missing or empty. *)
Definition dated (job : pyobj) : Prop :=
  match job with
  | OPosting j => (exists s, posted_date j = VStr s) \/ Py.truthy (posted_date j) = false
  | OValue _ => True
  end.

(** *** Normalisation *)

Definition harmless (e : exn) : Prop := e = AttributeError \/ e = TypeError.

(** What one record contributes to the batch. *)
Definition kept (job : pyobj) : list JobPosting :=
  match JobSearcherAgent.normalise job with
  | Ok job_posting => [job_posting]
  | Raise _ => []
  end.

(** The postings made out of a batch of raw records. *)
Definition batch (records : list value) : result (list JobPosting) :=
  fst (JobSearcherAgent._process_france_travail_results (JobSearcherAgent.PValue (VList records))).

(** *** The France Travail call *)

(** What is printed before the request leaves. *)
Definition prepared (a : args) : list event :=
  (chosen_events a ++ location_events (a_location a)
   ++ keyword_events (a_keywords a))%list.

(** C5, as stated: every location string resolves by the four rules. *)
Definition every_location_resolves : Prop :=
  forall location : string,
    sent_departement (Some location) = Some (spec_departement location).

(** C6, as stated: on a 401, credentials being present, the token is
    refreshed once and the request is sent once more. *)
Definition refresh_whenever_credentials : Prop :=
  forall w url params headers (s : sys t) resp r s' said,
    net w (sent s) = Ok resp ->
    status_code resp = 401%Z ->
    has_credentials (self s) = true ->
    fetch w url params headers s = (r, s', said) ->
    exists data token_headers retry_headers,
      requests said = [HttpGet url params headers;
                       HttpPost token_url data token_headers;
                       HttpGet url params retry_headers].

(** *** The Indeed and Glassdoor calls *)

(** What the Indeed client makes of a body. *)
Definition indeed_parsed (w : world) (r : response) : result (list JobPosting) :=
  data <~ json r ;;
  listed <~ Py.get data "results" (VList []) ;;
  jobs <~ Py.iterate listed ;;
  for_each (IndeedClient.posting_of w) jobs.

(** What the Glassdoor client makes of a body. *)
Definition glassdoor_parsed (w : world) (r : response) : result (list JobPosting) :=
  data <~ json r ;;
  inner <~ Py.get data "response" (VDict []) ;;
  listed <~ Py.get inner "jobListings" (VList []) ;;
  jobs <~ Py.iterate listed ;;
  for_each (GlassdoorClient.posting_of w) jobs.

(** C7, as stated, for the Indeed client: 200 and 206 are both a
    success. *)
Definition indeed_accepts_200_and_206 : Prop :=
  forall w c job_title location radius keywords limit resp,
    net w 0 = Ok resp ->
    (status_code resp = 200%Z \/ status_code resp = 206%Z) ->
    fst (IndeedClient.call w c job_title location radius keywords limit)
    = indeed_parsed w resp.

(** *** The results *)

(** The posting date of an object of the results. *)
Definition date_of (job : pyobj) : value :=
  match job with
  | OPosting j => posted_date j
  | OValue _ => VNone
  end.

(** C3, as stated: no source is in both lists. *)
Definition lists_disjoint : Prop :=
  forall clients finish query response happened,
    JobSearcherAgent.search_jobs clients finish query = (Ok response, happened) ->
    forall x, In x (available_sources response) ->
              ~ In x (failed_sources response).

(** In descending order of the posting dates. *)
Definition newest_first (l : list pyobj) : Prop :=
  StronglySorted (fun a b => PyStr.ltb (date_text a) (date_text b) = false) l.

End Views.

Module StringOrder.

(** [s <= t] on strings: [t] is not less than [s]. *)
Definition le (s t : string) : Prop := PyStr.ltb t s = false.

End StringOrder.

Module SortViews.

(** The key of an element, when it is a string. *)
Definition skey {A} (x : @ListSort.item A) : string :=
  match fst x with VStr s => s | _ => EmptyString end.

Definition str_keyed {A} (x : @ListSort.item A) : Prop := fst x = VStr (skey x).

(** Not before: [x] then [y] is in ascending order. *)
Definition upto {A} (x y : @ListSort.item A) : Prop := StringOrder.le (skey x) (skey y).

(** Strictly after: [x] then [y] is in descending order. *)
Definition downto {A} (x y : @ListSort.item A) : Prop := PyStr.ltb (skey y) (skey x) = true.

Definition ascending {A} (items : list (@ListSort.item A)) : Prop := StronglySorted upto items.

(** The key of an element as a string. *)
Definition key_text {A} (key : A -> value) (x : A) : string :=
  match key x with VStr s => s | _ => EmptyString end.

(** In descending order of the keys: no element is less than one that
    comes after it. *)
Definition descending_by {A} (key : A -> value) (l : list A) : Prop :=
  StronglySorted
    (fun a b => PyStr.ltb (key_text key a) (key_text key b) = false) l.

End SortViews.

(* ================================================================== *)
(** ** Clients, worlds and requests for the examples *)
(* ================================================================== *)

Module Samples.
Import FranceTravailClient JobSearcherAgent.

(** A batch of three records: the second has a string where the
    workplace should be and is left out; the third has no company. *)
Definition sample_batch : list value :=
  [VDict [("id", VStr "1"); ("intitule", VStr "Dev");
          ("entreprise", VDict [("nom", VStr "ACME")]);
          ("dateCreation", VStr "2024-03-01")];
   VDict [("id", VStr "2"); ("lieuTravail", VStr "Paris")];
   VDict [("id", VStr "3"); ("intitule", VStr "Ops")]].

(** A client with a static key, and a world in which every request is
    answered 200 with an empty list of results. *)
Definition keyed_client : t := fst (init None None (Some "key")).

Definition answer (status : Z) (body : result value) : response :=
  {| status_code := status; text := ""; resp_url := ""; json := body |}.

Definition calm_world : world :=
  {| net := fun _ => Ok (answer 200 (Ok (VDict [("resultats", VList [])])));
     now := 0; today := "2024-01-01" |}.

Definition stage_args : args :=
  {| a_job_title := "Stage D" ++ PyStr.e_acute ++ "veloppeur technique";
     a_location := Some "Lyon"; a_radius := 50;
     a_keywords := Some ["python"; "sql"]; a_limit := 10;
     a_contract_type := None; a_job_keywords := None |}.

(** A client configured with both credentials and a static key. *)
Definition overconfigured : t :=
  fst (init (Some "id") (Some "secret") (Some "key")).

(** A client with credentials and a token that has not expired. *)
Definition oauth_client : t :=
  {| client_id := Some "id"; client_secret := Some "secret"; api_key := None;
     api_base_url := base_url;
     access_token := VStr "old"; token_expiry := Some 1000%Z |}.

Definition no_results : result value := Ok (VDict [("resultats", VList [])]).

(** Every request is answered 401. *)
Definition refusing_world : world :=
  {| net := fun _ => Ok (answer 401 no_results); now := 0; today := "2024-01-01" |}.

(** The first request is answered 401, the token request gives a token,
    the next request is answered 200. *)
Definition renewing_world : world :=
  {| net := fun k =>
              match k with
              | 0 => Ok (answer 401 no_results)
              | 1 => Ok (answer 200 (Ok (VDict [("access_token", VStr "new");
                                                ("expires_in", VInt 3600)])))
              | _ => Ok (answer 200 no_results)
              end;
     now := 0; today := "2024-01-01" |}.

Definition plain_args : args :=
  {| a_job_title := "Boulanger"; a_location := None; a_radius := 50;
     a_keywords := None; a_limit := 10;
     a_contract_type := None; a_job_keywords := None |}.

Definition search_url : string := base_url ++ "/offres/search".

Definition indeed_client : IndeedClient.t :=
  {| IndeedClient.api_key := Some "key";
     IndeedClient.base_url := "https://api.indeed.com/ads/apisearch" |}.

Definition glassdoor_client : GlassdoorClient.t :=
  {| GlassdoorClient.api_key := Some "key";
     GlassdoorClient.base_url := "https://api.glassdoor.com/api/api.htm" |}.

(** Every request is answered 206, with one well-formed record for each
    of the two clients. *)
Definition partial_body : value :=
  VDict [("results", VList [VDict [("jobkey", VStr "1")]]);
         ("response", VDict [("jobListings", VList [VDict [("jobListingId", VInt 1)]])])].

Definition partial_world : world :=
  {| net := fun _ => Ok (answer 206 (Ok partial_body));
     now := 0; today := "2024-01-01" |}.

Definition ok_world : world :=
  {| net := fun _ => Ok (answer 200 (Ok partial_body));
     now := 0; today := "2024-01-01" |}.

(** A client whose search raises, and one whose search returns. *)
Definition failing (e : exn) : client := fun _ _ _ _ _ => (Raise e, []).

Definition returning (found : payload) : client := fun _ _ _ _ _ => (Ok found, []).

Definition unconfigured : clients_t := fun _ => None.

Definition posting (id date : string) : JobPosting :=
  JobPosting_init (VStr id) (VStr "") (VStr "") 
    (Location_init (VStr "") VNone VNone (VStr "France") VNone)
    (VStr "") (VStr "") (VStr date) VNone VNone VNone VNone VNone None VNone.

Definition record (id : string) (date : value) : value :=
  VDict [("id", VStr id); ("dateCreation", date)].

Definition any_query : JobSearchRequest :=
  {| job_title := "dev"; req_location := None; radius := 50;
     keywords := []; limit_per_source := 10; cv_data := VNone |}.

Definition at_once : schedule := fun _ => 0.

(** France Travail fails; no other source is configured. *)
Definition one_failing : clients_t := init_clients (Some (failing RequestException)).

(** Three sources: Glassdoor raises, France Travail and Indeed return
    two records each. *)
Definition three_sources : clients_t :=
  fun s =>
    match s with
    | FRANCE_TRAVAIL =>
        Some (returning (PValue (VList [record "a" (VStr "2024-01-10");
                                        record "b" (VStr "2024-03-01")])))
    | INDEED =>
        Some (returning (PList [OPosting (posting "c" "2024-02-15");
                                OPosting (posting "d" "2024-01-20")]))
    | GLASSDOOR => Some (failing RequestException)
    | LINKEDIN => None
    end.

(** A posting without date goes last and the search does not raise. *)
Definition undated_sources : clients_t :=
  init_clients
    (Some (returning (PValue (VList [record "a" (VStr "2024-01-10");
                                     VDict [("id", VStr "b")];
                                     record "c" VNone;
                                     record "d" (VStr "2024-03-01")])))).

(** The France Travail client of an agent, in a world where the API
    answers with four records: the first has a number as creation date,
    the others have strings. *)
Definition mixed_body : value :=
  VDict [("resultats",
          VList [record "a" (VInt 20240105);
                 record "b" (VStr "2024-03-01");
                 record "c" (VStr "2024-01-10");
                 record "d" (VStr "2024-02-15")])].

Definition mixed_world : world :=
  {| net := fun _ => Ok {| status_code := 200; text := ""; resp_url := "";
                           json := Ok mixed_body |};
     now := 0; today := "2024-01-01" |}.

Definition mixed_agent : clients_t :=
  Wiring.agent_clients mixed_world None None (Some "key").

End Samples.

(* ================================================================== *)
(** ** What the further properties are stated with *)
(* ================================================================== *)

Module TextViews.

(** No comma in the string. *)
Definition comma_free (s : string) : Prop := Py.has_char ","%char s = false.

(** No white space at either end. *)
Definition stripped (s : string) : Prop := PyStr.strip s = s.

(** Decimal digits only. *)
Definition decimal (s : string) : Prop :=
  PyStr.all_chars PyStr.is_decimal s = true.

(** Empty, or starting with something else than a space: what [lstrip]
    leaves. *)
Definition starts_solid (s : string) : Prop :=
  match s with
  | EmptyString => True
  | String c _ => PyStr.is_space c = false
  end.

(** The number of commas. *)
Fixpoint commas (s : string) : nat :=
  match s with
  | EmptyString => 0
  | String c s' => (if Ascii.eqb c ","%char then 1 else 0) + commas s'
  end.

End TextViews.

Module ErrorViews.

(** The prefixes of the two messages [search_jobs] of the France Travail
    client wraps an exception in. *)
Definition search_error : string :=
  "Erreur lors de la recherche sur France Travail: ".

Definition processing_error : string :=
  "Erreur lors du traitement des r" ++ PyStr.e_acute
  ++ "sultats France Travail: ".

End ErrorViews.

Module RecordViews.

(** A record of the Indeed or Glassdoor API whose location, under the
    key [k], is missing or is a string. *)
Definition located (k : string) (record : value) : Prop :=
  exists d, record = VDict d
            /\ (Py.lookup k d = None \/ exists s, Py.lookup k d = Some (VStr s)).

(** A record that is no object, or whose location is [null] or a
    number. *)
Definition misplaced (k : string) (record : value) : Prop :=
  (forall d, record <> VDict d)
  \/ exists d, record = VDict d
               /\ (Py.lookup k d = Some VNone
                   \/ exists n, Py.lookup k d = Some (VInt n)).

End RecordViews.

Module StableViews.

(** The elements of a list that have a given key text, in the order of
    the list. *)
Definition with_key {X} (key_text : X -> string) (k : string) (l : list X)
  : list X :=
  filter (fun x => String.eqb (key_text x) k) l.

End StableViews.

Module CvViews.

(** CV data as [CVData.dict()] gives them: the skills, when present, are
    a list of strings; the experiences and the education, when present,
    are lists of objects. *)
Definition plain_cv (d : Py.dict) : Prop :=
  (forall v, Py.lookup "skills" d = Some v -> exists l, v = VList (map VStr l))
  /\ (forall v, Py.lookup "experiences" d = Some v ->
        exists l, v = VList (map VDict l))
  /\ (forall v, Py.lookup "education" d = Some v ->
        exists l, v = VList (map VDict l)).

End CvViews.

(** Clients, worlds and data for the examples of the properties that
    follow the claims. *)
Module MoreSamples.
Import FranceTravailClient JobSearcherAgent.

(** A client with its two credentials and no key, as [__init__] leaves
    it. *)
Definition fresh_oauth : t := fst (init (Some "id") (Some "secret") None).

Definition token_body (more : Py.dict) : result value :=
  Ok (VDict (("access_token", VStr "new") :: more)).

(** The token endpoint answers with a token that lives one hour, with a
    token and no lifetime, with a token and a lifetime that is no
    number. *)
Definition token_world (time : Z) : world :=
  {| net := fun _ => Ok (Samples.answer 200 (token_body [("expires_in", VInt 3600)]));
     now := time; today := "2024-01-01" |}.

Definition bare_token_world : world :=
  {| net := fun _ => Ok (Samples.answer 200 (token_body []));
     now := 1000; today := "2024-01-01" |}.

Definition bad_lifetime_world : world :=
  {| net := fun _ => Ok (Samples.answer 200 (token_body [("expires_in", VStr "3600")]));
     now := 1000; today := "2024-01-01" |}.

(** Every request is answered 503. *)
Definition down_world : world :=
  {| net := fun _ => Ok (Samples.answer 503 Samples.no_results);
     now := 0; today := "2024-01-01" |}.

(** France Travail answers with two records under a nested key. *)
Definition nested_body : Py.dict :=
  [("resultats", VDict [("resultats", VList [Samples.record "a" (VStr "2024-01-10");
                                             Samples.record "b" (VStr "2024-01-10")])])].

Definition nested_world : world :=
  {| net := fun _ => Ok (Samples.answer 206 (Ok (VDict nested_body)));
     now := 0; today := "2024-01-01" |}.

(** Two Indeed records, and a body in which the second one has no
    location that can be read. *)
Definition indeed_records : list value :=
  [VDict [("jobkey", VStr "1"); ("formattedLocation", VStr "Lyon, France")];
   VDict [("jobkey", VStr "2")]].

Definition indeed_world (records : list value) : world :=
  {| net := fun _ => Ok (Samples.answer 200 (Ok (VDict [("results", VList records)])));
     now := 0; today := "2024-01-01" |}.

Definition misplaced_record : value :=
  VDict [("jobkey", VStr "3"); ("formattedLocation", VNone)].

(** A France Travail record with its place. *)
Definition placed_record (postal_code : value) : Py.dict :=
  [("id", VStr "1"); ("intitule", VStr "Dev");
   ("lieuTravail", VDict [("libelle", VStr "Lyon"); ("codePostal", postal_code)])].

(** Two sources that return postings of the same day; Indeed finishes
    first in [indeed_first]. *)
Definition two_sources : clients_t :=
  fun s =>
    match s with
    | FRANCE_TRAVAIL =>
        Some (Samples.returning
                (PValue (VList [Samples.record "a" (VStr "2024-01-10");
                                Samples.record "b" (VStr "2024-01-10")])))
    | INDEED =>
        Some (Samples.returning
                (PList [OPosting (Samples.posting "c" "2024-01-10")]))
    | _ => None
    end.

Definition indeed_first : schedule :=
  fun s => match s with INDEED => 0 | _ => 1 end.

(** CV data, and a chain that answers with keywords. *)
Definition sample_cv_data : Py.dict :=
  [("desired_job", VStr "Data engineer");
   ("skills", VList (map VStr ["python"; "sql"]));
   ("experiences",
    VList (map VDict [[("position", VStr "Dev"); ("company", VStr "ACME")]]))].

Definition sample_cv : value := VDict sample_cv_data.

Definition sample_chain : Enrichment.chain :=
  fun _ => Ok " python , sql,, spark ".

Definition joining_chain : Enrichment.chain :=
  fun _ => Ok (PyStr.join ", " ["python"; "data engineering"; "sql"]).

End MoreSamples.

(* ================================================================== *)
(** ** Rounds of the aggregator, token answers, records with a place *)
(* ================================================================== *)

Module RoundViews.
Import JobSearcherAgent Views.
Local Open Scope list_scope.

(** A source is attempted when the dict holds a client for it. *)
Definition attempted (clients : clients_t) (s : JobSource) : Prop :=
  clients s <> None.

(** What Python cannot go through ([for ... in], [list.extend]): [None],
    a boolean, a number. *)
Definition not_iterable (found : payload) : Prop :=
  match found with
  | PValue VNone => True
  | PValue (VBool _) => True
  | PValue (VInt _) => True
  | _ => False
  end.

(** The task of an attempted source raises. *)
Definition task_raises (clients : clients_t) (request : JobSearchRequest)
  (s : JobSource) : Prop :=
  attempted clients s /\ exists e, task_outcome clients request s = Raise e.

(** A source fails: its task raises, or returns what cannot be gone
    through. *)
Definition source_fails (clients : clients_t) (request : JobSearchRequest)
  (s : JobSource) : Prop :=
  task_raises clients request s
  \/ exists found,
       task_outcome clients request s = Ok found /\ not_iterable found.

(** A source succeeds: its task returns what can be gone through. *)
Definition source_succeeds (clients : clients_t) (request : JobSearchRequest)
  (s : JobSource) : Prop :=
  exists found,
    task_outcome clients request s = Ok found /\ ~ not_iterable found.

(** The postings of a source: nothing when it fails; for France Travail
    the postings made of the records that can be normalised, for
    another source the elements of what its task returned. *)
Definition brought (clients : clients_t) (request : JobSearchRequest)
  (s : JobSource) : list pyobj :=
  match task_outcome clients request s with
  | Raise _ => []
  | Ok found =>
      match iterate found with
      | Raise _ => []
      | Ok items =>
          match s with
          | FRANCE_TRAVAIL => map OPosting (flat_map kept items)
          | _ => items
          end
      end
  end.

(** C2, as stated: the task of exactly one source raises, another source
    succeeds; then the failed sources are that one source. *)
Definition one_failure_as_stated : Prop :=
  forall clients finish request f,
    task_raises clients request f ->
    (forall s, task_raises clients request s -> s = f) ->
    (exists s, s <> f /\ source_succeeds clients request s) ->
    exists response happened,
      search_jobs clients finish request = (Ok response, happened)
      /\ failed_sources response = [JobSource_value f].

End RoundViews.

Module TokenViews.
Import FranceTravailClient.

(** The form sent to the token endpoint. *)
Definition token_form (c : t) : list (string * value) :=
  [("grant_type", VStr "client_credentials");
   ("client_id", opt_value (client_id c));
   ("client_secret", opt_value (client_secret c));
   ("scope", VStr "api_offresdemploiv2 o2dsoffre")].

Definition token_headers : list (string * string) :=
  [("Content-Type", "application/x-www-form-urlencoded");
   ("Accept", "application/json")].

(** The token that an answer of the token endpoint yields: the answer
    has status 200, its body is an object with an [access_token] that
    is not empty, and the lifetime [expires_in], when the body has one,
    is a number of seconds that the clock can take. Any other answer,
    and a request that fails, yield nothing. *)
Definition granted (w : world) (answer : result response) : option value :=
  match answer with
  | Raise _ => None
  | Ok resp =>
      if (status_code resp =? 200)%Z
      then
        match json resp with
        | Ok (VDict body) =>
            match Py.lookup "access_token" body with
            | Some token =>
                if Py.truthy token
                then
                  match Py.lookup "expires_in" body with
                  | None => Some token
                  | Some seconds =>
                      match add_seconds (now w) seconds with
                      | Ok _ => Some token
                      | Raise _ => None
                      end
                  end
                else None
            | None => None
            end
        | _ => None
        end
      else None
  end.

End TokenViews.

Module PlaceViews.

(** Under the key [k] the record has nothing, or an object. *)
Definition object_or_missing (k : string) (d : Py.dict) : Prop :=
  Py.lookup k d = None \/ exists o, Py.lookup k d = Some (VDict o).

(** The record has no [competences], or a list of objects. *)
Definition skills_listed (d : Py.dict) : Prop :=
  Py.lookup "competences" d = None
  \/ exists comps,
       Py.lookup "competences" d = Some (VList comps)
       /\ Forall (fun comp => exists o, comp = VDict o) comps.

(** A record of the France Travail API with objects where the
    normalisation reads objects. *)
Definition shaped (d : Py.dict) : Prop :=
  object_or_missing "entreprise" d
  /\ object_or_missing "origineOffre" d
  /\ object_or_missing "salaire" d
  /\ skills_listed d.

(** The name of the place, as the normalisation reads it. *)
Definition place_name (lieu : Py.dict) : value :=
  match Py.lookup "libelle" lieu with
  | Some name => name
  | None => VStr ""
  end.

End PlaceViews.

Module RoundSamples.
Import FranceTravailClient JobSearcherAgent.

(** The France Travail API answers 200 with [{"resultats": null}]. *)
Definition null_world : world :=
  {| net := fun _ => Ok (Samples.answer 200 (Ok (VDict [("resultats", VNone)])));
     now := 0; today := "2024-01-01" |}.

(** Three sources: Glassdoor raises, France Travail gets the answer
    above, Indeed returns a posting. *)
Definition null_sources : clients_t :=
  fun s =>
    match s with
    | FRANCE_TRAVAIL => Some (Wiring.france_travail null_world Samples.keyed_client)
    | INDEED =>
        Some (Samples.returning (PList [OPosting (Samples.posting "c" "2024-02-15")]))
    | GLASSDOOR => Some (Samples.failing RequestException)
    | LINKEDIN => None
    end.

(** The token endpoint refuses: 401, 403, then anything. *)
Definition denying_world : world :=
  {| net := fun k =>
              match k with
              | 0 => Ok (Samples.answer 401 Samples.no_results)
              | _ => Ok (Samples.answer 403 Samples.no_results)
              end;
     now := 0; today := "2024-01-01" |}.

(** A record with a place whose postal code is a number and whose name
    is missing. *)
Definition nameless_record : Py.dict :=
  [("id", VStr "1"); ("lieuTravail", VDict [("codePostal", VInt 69003)])].

End RoundSamples.

(* ================================================================== *)
(** * Properties *)
(* ================================================================== *)

(** ** The Python layer on examples *)
Example lower_ex : PyStr.lower ("INT" ++ PyStr.chr 201 ++ "RIM") = "int" ++ PyStr.e_acute ++ "rim".
Proof. reflexivity. Qed.

Example strip_ex : PyStr.strip "  a b  " = "a b".
Proof. reflexivity. Qed.

Example remove_ex : PyStr.remove "technique" "techtechniquenique" = "technique".
Proof. reflexivity. Qed.

Example remove_ex2 : PyStr.remove "aa" "aaaxaa" = "ax".
Proof. reflexivity. Qed.

Example search_postal_ex :
PyStr.search_postal "12 rue X, 75001 Paris" = Some "75001"
/\ PyStr.search_postal "123456" = None
/\ PyStr.search_postal "a123456b69001" = Some "69001".
Proof. repeat split; reflexivity. Qed.

Example split_ex :
PyStr.split_first "Lyon, Rhone, France" = "Lyon"
/\ PyStr.split_last "Lyon, Rhone, France" = " France"
/\ PyStr.of_Z 9 = "9" /\ PyStr.of_Z (-1) = "-1" /\ PyStr.of_Z 0 = "0".
Proof. repeat split; reflexivity. Qed.

Example repr_ex :
Py.str (VList [VInt 1; VStr "a"; VNone; VBool true; VDict [("k", VList [VStr "x"])]])
= "[1, 'a', None, True, {'k': ['x']}]".
Proof. reflexivity. Qed.

Example repr_ex2 :
Py.repr (VStr ("a'b" ++ PyStr.chr 233 ++ PyStr.chr 133 ++ PyStr.chr 1))
= PyStr.chr 34 ++ "a'b" ++ PyStr.chr 233 ++ PyStr.chr 92 ++ "x85"
    ++ PyStr.chr 92 ++ "x01" ++ PyStr.chr 34.
Proof. reflexivity. Qed.

Example lt_ex :
Py.lt (VStr "2024-01-10") (VStr "2024-03-01") = Ok true
/\ Py.lt (VInt 1) (VStr "a") = Raise TypeError
/\ Py.lt (VList [VInt 1; VStr "a"]) (VList [VInt 1; VInt 2]) = Raise TypeError
/\ Py.lt (VList [VInt 1]) (VList [VBool true; VInt 2]) = Ok true
/\ Py.lt (VDict []) (VDict []) = Raise TypeError.
Proof. repeat split; reflexivity. Qed.

(* ================================================================== *)
(** ** Normalisation of France Travail records *)
(* ================================================================== *)

Module NormaliseFacts.
Import JobSearcherAgent Views.

Lemma get_raises v k d e : Py.get v k d = Raise e -> harmless e.
Proof. destruct v; simpl; intros H; inversion H; left; reflexivity. Qed.

Lemma obj_get_raises job k d e : obj_get job k d = Raise e -> harmless e.
Proof.
  destruct job; simpl; [intros H; inversion H; left; reflexivity|].
  apply get_raises.
Qed.

Lemma iterate_raises v e : Py.iterate v = Raise e -> harmless e.
Proof. destruct v; simpl; intros H; inversion H; right; reflexivity. Qed.

Lemma contains_str_raises k v e :
  PyExtra.contains_str k v = Raise e -> harmless e.
Proof. destruct v; simpl; intros H; inversion H; right; reflexivity. Qed.

Lemma for_each_get_raises k d l e :
  for_each (fun comp => Py.get comp k d) l = Raise e -> harmless e.
Proof.
  induction l as [|x l IH]; simpl; [discriminate|].
  destruct (Py.get x k d) eqn:G; simpl.
  - destruct (for_each _ l); simpl; [discriminate|].
    intros H; inversion H; subst. apply IH; reflexivity.
  - intros H; inversion H; subst. eapply get_raises; eassumption.
Qed.

Create HintDb harmless.
#[local] Hint Resolve get_raises obj_get_raises iterate_raises
  contains_str_raises for_each_get_raises : harmless.



Lemma process_each_kept jobs :
  fst (process_each jobs) = flat_map kept jobs.
Proof.
  induction jobs as [|job rest IH]; [reflexivity|].
  simpl. destruct (process_each rest) as [done said]. simpl in IH.
  unfold kept at 1. destruct (normalise job); simpl; rewrite IH; reflexivity.
Qed.



End NormaliseFacts.

Module NormaliseClaims.
Import JobSearcherAgent Views Samples NormaliseFacts.





End NormaliseClaims.

(* ================================================================== *)
(** ** The France Travail client: how a call unfolds *)
(* ================================================================== *)

Module FranceTravailFacts.
Import Eff FranceTravailClient Views.

Lemma scan_contract_scanned items job_title (s : sys t) :
  scan_contract items job_title s
  = (Ok (fst (scanned items job_title)), s, snd (scanned items job_title)).
Proof.
  induction items as [|[keyword code] rest IH]; simpl; [reflexivity|].
  destruct (PyStr.contains (PyStr.lower keyword) (PyStr.lower job_title));
    [reflexivity | apply IH].
Qed.

Lemma choose_query_runs a (s : sys t) :
  exists contract_type,
    choose_query a s = (Ok (query_text a, contract_type), s, chosen_events a).
Proof.
  unfold choose_query, chosen_events, query_text.
  destruct (Py.truthy_opt (a_job_keywords a)) eqn:K.
  - eexists. reflexivity.
  - unfold analyse_title, bind. rewrite scan_contract_scanned.
    unfold title_text.
    destruct (scanned contract_keywords (a_job_title a)) as [[clean detected] said].
    simpl.
    destruct (negb (Py.truthy_opt (a_contract_type a)) && Py.truthy_opt detected);
      simpl; eexists; rewrite ?app_nil_r; reflexivity.
Qed.

Lemma add_location_runs location params (s : sys t) :
  add_location location params s
  = (Ok (match departement location with
         | Some (dept, _) => Py.set "departement" (VStr dept) params
         | None => params
         end), s, location_events location).
Proof.
  unfold add_location, location_events.
  destruct (departement location) as [[dept line]|]; reflexivity.
Qed.

Lemma mention_keywords_runs keywords (s : sys t) :
  mention_keywords keywords s = (Ok tt, s, keyword_events keywords).
Proof.
  unfold mention_keywords, keyword_events.
  destruct keywords as [[|k ks]|]; reflexivity.
Qed.

(** A call is: getting a token, putting the query together (which only
    prints), and the [try] block on the parameters of the query. *)
Lemma search_jobs_unfolds w a (s : sys t) :
  search_jobs w a s =
  match _get_auth_token w s with
  | (Raise e, s1, t1) => (Raise e, s1, t1)
  | (Ok auth_token, s1, t1) =>
      if negb (Py.truthy auth_token)
      then (Raise (ValueError not_configured), s1, t1)
      else
        match fetch w (api_base_url (self s1) ++ "/offres/search")
                (query_params a) (first_headers auth_token) s1 with
        | (Ok found, s2, t2) => (Ok found, s2, (t1 ++ prepared a ++ t2)%list)
        | (Raise e, s2, t2) =>
            (Raise (rewrap e), s2, (t1 ++ prepared a ++ t2)%list)
        end
  end.
Proof.
  unfold search_jobs. unfold bind at 1.
  destruct (_get_auth_token w s) as [[[auth_token|e] s1] t1]; [|reflexivity].
  destruct (negb (Py.truthy auth_token)); [simpl; rewrite app_nil_r; reflexivity|].
  unfold bind at 1.
  destruct (choose_query_runs a s1) as [contract_type ->].
  unfold bind at 1. rewrite add_location_runs.
  unfold bind at 1. rewrite mention_keywords_runs.
  unfold bind at 1, get_self at 1. simpl fst.
  unfold try_except, query_params, prepared.
  fold (query_text a).
  destruct (fetch w _ _ _ s1) as [[[found|e] s2] t2]; simpl;
    rewrite ?app_nil_r, <- ?app_assoc; reflexivity.
Qed.

(** Case analysis along a method: the innermost condition or scrutinee
    that is not yet known is split. *)
Ltac split_path :=
  match goal with
  | |- context [match ?x with _ => _ end] =>
      lazymatch x with
      | context [match _ with _ => _ end] => fail
      | _ => destruct x eqn:?; simpl in *
      end
  end.

Ltac open_method :=
  unfold bind, try_except, ret, raise, lift, get_self, set_self, print,
    emit, request in *; simpl in *.

(** The token endpoint is asked at most once, and exactly once when the
    client has its two credentials; no search request is sent; the
    method does not raise. *)
Lemma get_access_token_requests w (s : sys t) :
  exists v s' said,
    _get_access_token w s = (Ok v, s', said)
    /\ gets said = []
    /\ sent s' = sent s + List.length (requests said)
    /\ client_id (self s') = client_id (self s)
    /\ client_secret (self s') = client_secret (self s)
    /\ api_key (self s') = api_key (self s)
    /\ api_base_url (self s') = api_base_url (self s)
    /\ (if Py.truthy_opt (client_id (self s)) && Py.truthy_opt (client_secret (self s))
        then exists data headers, requests said = [HttpPost token_url data headers]
        else said = [] /\ v = VNone /\ s' = s)
    /\ (Py.truthy v = true -> access_token (self s') = v).
Proof.
  unfold _get_access_token. open_method.
  destruct (Py.truthy_opt (client_id (self s))) eqn:Hid;
    destruct (Py.truthy_opt (client_secret (self s))) eqn:Hsecret; simpl;
    repeat split_path;
    do 3 eexists; (split; [reflexivity|]); simpl;
    repeat split; try reflexivity; try lia; eauto;
    try (intros; discriminate); try congruence.
Qed.

Lemma get_auth_token_requests w (s : sys t) :
  exists v s' said,
    _get_auth_token w s = (Ok v, s', said)
    /\ gets said = []
    /\ sent s' = sent s + List.length (requests said)
    /\ List.length (requests said) <= 1
    /\ client_id (self s') = client_id (self s)
    /\ client_secret (self s') = client_secret (self s)
    /\ api_key (self s') = api_key (self s)
    /\ api_base_url (self s') = api_base_url (self s).
Proof.
  unfold _get_auth_token. unfold bind at 1, get_self at 1. simpl.
  destruct (Py.truthy_opt (api_key (self s)));
    [ do 3 eexists; split; [reflexivity|]; simpl; repeat split; lia | ].
  assert (A : exists v s' said,
             _get_access_token w s = (Ok v, s', said)
             /\ gets said = []
             /\ sent s' = sent s + List.length (requests said)
             /\ List.length (requests said) <= 1
             /\ client_id (self s') = client_id (self s)
             /\ client_secret (self s') = client_secret (self s)
             /\ api_key (self s') = api_key (self s)
             /\ api_base_url (self s') = api_base_url (self s)).
  { destruct (get_access_token_requests w s)
      as (v & s' & said & E & G & N & I1 & I2 & I3 & I4 & C & _).
    exists v, s', said. repeat split; auto.
    destruct (Py.truthy_opt (client_id (self s)) && Py.truthy_opt (client_secret (self s))).
    - destruct C as (d & h & ->). simpl. lia.
    - destruct C as (-> & _). simpl. lia. }
  destruct A as (v & s' & said & E & A).
  destruct (Py.truthy (access_token (self s)));
    [ destruct (token_expiry (self s)) as [expiry|];
      [ destruct (now w <? expiry)%Z | ] | ];
    try (rewrite E; exists v, s', said; split; [reflexivity | exact A]).
  do 3 eexists; split; [reflexivity|]; simpl; repeat split; lia.
Qed.

Ltac walk_fetch :=
  unfold fetch, on_401, _get_auth_token, _get_access_token;
  open_method; repeat split_path.

(** The requests of the [try] block, in every case. *)
Lemma fetch_requests w url params headers (s : sys t) :
  match fetch w url params headers s with
  | (_, s', said) =>
      try_requests url params (requests said)
      /\ sent s' = sent s + List.length (requests said)
  end.
Proof.
  walk_fetch; simpl; repeat split; try reflexivity; try lia.
Qed.

Ltac begin_fetch :=
  unfold fetch, on_401, _get_auth_token, _get_access_token; open_method.

Lemma not_401_of_ok resp : status_ok resp = true -> (status_code resp =? 401)%Z = false.
Proof.
  unfold status_ok. intros H. apply orb_prop in H.
  destruct H as [H|H]; apply Z.eqb_eq in H; rewrite H; reflexivity.
Qed.

(** The search request fails on the network: the block raises at once. *)
Lemma fetch_network_failure w url params headers (s : sys t) e :
  net w (sent s) = Raise e ->
  exists s' said,
    fetch w url params headers s = (Raise e, s', said)
    /\ requests said = [HttpGet url params headers].
Proof.
  intros H. begin_fetch. rewrite H. simpl. do 2 eexists. split; reflexivity.
Qed.

(** 200 or 206: the body is parsed and its records are returned. *)
Lemma fetch_success w url params headers (s : sys t) resp :
  net w (sent s) = Ok resp ->
  status_ok resp = true ->
  exists s' said,
    fetch w url params headers s = (parsed resp, s', said)
    /\ requests said = [HttpGet url params headers].
Proof.
  intros H Hok. begin_fetch. rewrite H. simpl.
  rewrite (not_401_of_ok _ Hok). simpl. rewrite Hok. simpl.
  unfold parsed.
  destruct (json resp) as [data|e]; simpl;
    [destruct (extract_results data); simpl|];
    do 2 eexists; split; reflexivity.
Qed.

(** Another status than 200, 206 and 401: the block raises. *)
Lemma fetch_other_status w url params headers (s : sys t) resp :
  net w (sent s) = Ok resp ->
  status_ok resp = false ->
  (status_code resp =? 401)%Z = false ->
  exists s' said,
    fetch w url params headers s
    = (Raise (ValueError (MsgStatus
                "Erreur lors de la recherche sur France Travail: "
                (status_code resp) (text resp))), s', said)
    /\ requests said = [HttpGet url params headers].
Proof.
  intros H Hok H401. begin_fetch. rewrite H. simpl. rewrite H401. simpl.
  rewrite Hok. simpl. do 2 eexists. split; reflexivity.
Qed.

(** 401 and the guard does not hold: the block raises, nothing else is
    sent. *)
Lemma fetch_401_no_refresh w url params headers (s : sys t) resp :
  net w (sent s) = Ok resp ->
  status_code resp = 401%Z ->
  may_refresh (self s) = false ->
  exists s' said,
    fetch w url params headers s = (Raise (ValueError msg_401), s', said)
    /\ requests said = [HttpGet url params headers].
Proof.
  intros H H401 G. begin_fetch. rewrite H. simpl. rewrite H401. simpl.
  unfold may_refresh in G. rewrite G. simpl.
  do 2 eexists. split; reflexivity.
Qed.

Lemma not_ok_of_401 resp : status_code resp = 401%Z -> status_ok resp = false.
Proof. unfold status_ok. intros ->. reflexivity. Qed.

(** Two facts about the same thing are brought together. *)
Ltac agree :=
  repeat match goal with
         | H1 : ?x = Ok _, H2 : ?x = Ok _ |- _ =>
             rewrite H1 in H2; inversion H2; subst; clear H2
         | H1 : ?x = Ok _, H2 : ?x = Raise _ |- _ =>
             rewrite H1 in H2; discriminate H2
         | H1 : ?x = Raise _, H2 : ?x = Raise _ |- _ =>
             rewrite H1 in H2; inversion H2; subst; clear H2
         | H1 : ?x = true, H2 : ?x = false |- _ =>
             rewrite H1 in H2; discriminate H2
         end.

(** What is known about an answer is used to compute what a block
    gave. *)
Ltac settle :=
  intros;
  repeat match goal with
         | H : Ok _ = Ok _ |- _ => inversion H; subst; clear H
         | H : Raise _ = Raise _ |- _ => inversion H; subst; clear H
         | H : Ok _ = Raise _ |- _ => discriminate H
         | H : Raise _ = Ok _ |- _ => discriminate H
         end;
  agree; unfold parsed;
  repeat (match goal with
          | E : _ = Ok _ |- _ => rewrite E
          | E : _ = Raise _ |- _ => rewrite E
          end; simpl);
  try reflexivity.

(** A path on which a condition is both true and false. *)
Ltac absurd_path :=
  match goal with
  | H1 : ?b = true, H2 : negb ?b = true |- _ =>
      rewrite H1 in H2; discriminate H2
  | H1 : ?b = false, H2 : negb ?b = false |- _ =>
      rewrite H1 in H2; discriminate H2
  end.

(** 401 and the guard holds, for a client without a static key: the
    token endpoint is asked once; then either no token came and the
    block raises, or the search request is sent once more, and the
    block raises unless the answer to it is 200 or 206. *)
Lemma fetch_401_refresh w url params headers (s : sys t) resp :
  net w (sent s) = Ok resp ->
  status_code resp = 401%Z ->
  may_refresh (self s) = true ->
  Py.truthy_opt (api_key (self s)) = false ->
  exists r s' said data token_headers,
    fetch w url params headers s = (r, s', said)
    /\ ((requests said = [HttpGet url params headers;
                          HttpPost token_url data token_headers]
         /\ is_ok r = false)
        \/ (exists retry_headers,
              requests said = [HttpGet url params headers;
                               HttpPost token_url data token_headers;
                               HttpGet url params retry_headers]
              /\ (forall again, net w (S (S (sent s))) = Ok again ->
                    status_ok again = true -> r = parsed again)
              /\ (forall again, net w (S (S (sent s))) = Ok again ->
                    status_ok again = false -> r = Raise (ValueError msg_401))
              /\ (forall e, net w (S (S (sent s))) = Raise e -> r = Raise e))).
Proof.
  intros H H401 G K. begin_fetch. rewrite H. simpl. rewrite H401. simpl.
  unfold may_refresh in G. rewrite G. simpl. rewrite K. simpl.
  apply andb_prop in G. destruct G as [G _].
  apply andb_prop in G. destruct G as [G1 G2]. rewrite G1, G2. simpl.
  pose proof (not_ok_of_401 _ H401) as N.
  repeat split_path;
    try (rewrite N in *; discriminate);
    try absurd_path;
    do 5 eexists; (split; [reflexivity|]); simpl;
    first [ left; split; reflexivity
          | right; eexists; split; [reflexivity|]; repeat split; settle ].
Qed.

(** *** The search requests of a call carry the parameters of the query *)

Lemma no_get_carries params said :
  gets said = [] -> Forall (get_carries params) said.
Proof.
  induction said as [|e said IH]; simpl; [constructor|].
  destruct e; simpl; intros H; try discriminate; constructor; simpl; auto.
Qed.

Lemma printed_carry params said :
  Forall (fun e => is_http e = false) said -> Forall (get_carries params) said.
Proof.
  induction 1 as [|e said He _ IH]; constructor; auto.
  destruct e; simpl in *; auto; discriminate.
Qed.

Lemma try_requests_carry url params said :
  try_requests url params (requests said) -> Forall (get_carries params) said.
Proof.
  intros H.
  assert (G : Forall (get_carries params) (requests said)).
  { destruct (requests said) as [|e1 [|e2 [|e3 [|e4 l]]]]; simpl in H;
      repeat match goal with
             | e : event |- _ => destruct e; simpl in H; try contradiction
             end;
      try contradiction;
      repeat constructor; simpl; intuition congruence. }
  clear H. induction said as [|e said IH]; [constructor|].
  unfold requests in G. simpl in G.
  destruct e; simpl in *.
  - constructor; simpl; auto.
  - inversion G; subst. constructor; simpl; auto.
  - inversion G; subst. constructor; simpl; auto.
Qed.

Lemma scanned_printed items job_title :
  Forall (fun e => is_http e = false) (snd (scanned items job_title)).
Proof.
  induction items as [|[keyword code] rest IH]; simpl; [constructor|].
  destruct (PyStr.contains _ _); simpl; auto.
Qed.

Lemma prepared_printed a : Forall (fun e => is_http e = false) (prepared a).
Proof.
  unfold prepared. repeat rewrite Forall_app. repeat split.
  - unfold chosen_events.
    destruct (Py.truthy_opt (a_job_keywords a)); [repeat constructor|].
    pose proof (scanned_printed contract_keywords (a_job_title a)) as P.
    destruct (scanned contract_keywords (a_job_title a)) as [[clean detected] said].
    simpl in P. repeat rewrite Forall_app. repeat split; auto;
      try destruct (negb _ && _); repeat constructor.
  - unfold location_events.
    destruct (departement (a_location a)) as [[dept line]|]; repeat constructor.
  - unfold keyword_events.
    destruct (a_keywords a) as [[|k ks]|]; repeat constructor.
Qed.

Lemma requests_app x y : requests (x ++ y) = (requests x ++ requests y)%list.
Proof. apply filter_app. Qed.

Lemma requests_printed said :
  Forall (fun e => is_http e = false) said -> requests said = [].
Proof.
  induction 1 as [|e said He _ IH]; [reflexivity|].
  unfold requests in *. simpl. rewrite He. exact IH.
Qed.

(** A call, unfolded from a client that has sent nothing. *)
Lemma call_unfolds w c a :
  call w c a =
  match _get_auth_token w {| self := c; sent := 0 |} with
  | (Raise e, s1, t1) => (Raise e, self s1, t1)
  | (Ok auth_token, s1, t1) =>
      if negb (Py.truthy auth_token)
      then (Raise (ValueError not_configured), self s1, t1)
      else
        match fetch w (api_base_url (self s1) ++ "/offres/search")
                (query_params a) (first_headers auth_token) s1 with
        | (Ok found, s2, t2) =>
            (Ok found, self s2, (t1 ++ prepared a ++ t2)%list)
        | (Raise e, s2, t2) =>
            (Raise (rewrap e), self s2, (t1 ++ prepared a ++ t2)%list)
        end
  end.
Proof.
  unfold call, run. rewrite search_jobs_unfolds.
  destruct (_get_auth_token w _) as [[[auth_token|e] s1] t1]; [|reflexivity].
  destruct (negb (Py.truthy auth_token)); [reflexivity|].
  destruct (fetch w _ _ _ s1) as [[[found|e] s2] t2]; reflexivity.
Qed.

Lemma call_gets_carry w c a r c' did :
  call w c a = (r, c', did) ->
  Forall (get_carries (query_params a)) did.
Proof.
  rewrite call_unfolds.
  destruct (get_auth_token_requests w {| self := c; sent := 0 |})
    as (v & s1 & t1 & -> & G & _).
  pose proof (no_get_carries (query_params a) t1 G) as C1.
  destruct (negb (Py.truthy v)); [intros H; inversion H; subst; exact C1|].
  pose proof (fetch_requests w (api_base_url (self s1) ++ "/offres/search")
                (query_params a) (first_headers v) s1) as F.
  destruct (fetch w _ _ _ s1) as [[[found|e] s2] t2];
    destruct F as [F _]; intros H; inversion H; subst;
    repeat rewrite Forall_app; repeat split; auto;
    try (apply printed_carry, prepared_printed);
    eapply try_requests_carry; eassumption.
Qed.

End FranceTravailFacts.

(* ================================================================== *)
(** ** The France Travail query: text, department, keywords *)
(* ================================================================== *)

Module QueryClaims.
Import Eff FranceTravailClient Views Samples FranceTravailFacts.

(** The loop stops at the first keyword of the dict that the title
    contains. *)
Lemma scanned_first items job_title :
  fst (fst (scanned items job_title))
  = match find (fun word => PyStr.contains (PyStr.lower word) (PyStr.lower job_title))
               (map fst items) with
    | Some word =>
        PyStr.strip (PyStr.remove (PyStr.lower word) (PyStr.lower job_title))
    | None => job_title
    end.
Proof.
  induction items as [|[keyword code] rest IH]; simpl; [reflexivity|].
  destruct (PyStr.contains (PyStr.lower keyword) (PyStr.lower job_title));
    [reflexivity | exact IH].
Qed.

Lemma title_text_spec job_title : title_text job_title = spec_query_text job_title.
Proof.
  unfold title_text, spec_query_text, first_contract_word.
  rewrite scanned_first. reflexivity.
Qed.

Lemma motsCles_of_query a :
  Py.lookup "motsCles" (query_params a) = Some (VStr (query_text a)).
Proof.
  unfold query_params.
  destruct (departement (a_location a)) as [[dept line]|]; reflexivity.
Qed.

Lemma departement_of_query a :
  Py.lookup "departement" (query_params a)
  = option_map VStr (sent_departement (a_location a)).
Proof.
  unfold query_params, sent_departement.
  destruct (departement (a_location a)) as [[dept line]|]; reflexivity.
Qed.

Lemma get_in_call w c a r c' did url params headers :
  call w c a = (r, c', did) ->
  In (HttpGet url params headers) did ->
  params = query_params a.
Proof.
  intros E I. pose proof (call_gets_carry _ _ _ _ _ _ E) as F.
  rewrite Forall_forall in F. exact (F _ I).
Qed.

Lemma triple_eta {A B C} (x : A * B * C) : x = (fst (fst x), snd (fst x), snd x).
Proof. destruct x as [[a b] c]. reflexivity. Defined.

(** C10. Without keywords from the LLM, the client works on the job
    title before it queries: the contract keywords are Stage,
    Alternance, CDD, CDI, Interim (with an acute accent), Freelance and
    Saisonnier, tried in that order, case set aside; the first one found
    is taken out of the lowercased title, "technique" is taken out too,
    and what is left (stripped) is the parameter motsCles of every
    search request of the call. So the text sent is in general not the
    title: for "Stage Developpeur technique" (with an acute accent) it
    is "developpeur". *)
Theorem C10_title_preprocessing :
  map fst contract_keywords = contract_words
  /\ (forall w c a r c' did url params headers,
        Py.truthy_opt (a_job_keywords a) = false ->
        call w c a = (r, c', did) ->
        In (HttpGet url params headers) did ->
        Py.lookup "motsCles" params
        = Some (VStr (spec_query_text (a_job_title a))))
  /\ spec_query_text ("Stage D" ++ PyStr.e_acute ++ "veloppeur technique")
     = "d" ++ PyStr.e_acute ++ "veloppeur"
  /\ first_contract_word "Poste en CDI ou en alternance" = Some "Alternance".
Proof.
  split; [reflexivity|]. split; [|split; reflexivity].
  intros w c a r c' did url params headers K E I.
  rewrite (get_in_call _ _ _ _ _ _ _ _ _ E I), motsCles_of_query.
  unfold query_text. rewrite K, title_text_spec. reflexivity.
Qed.

Lemma C10_witness :
  Py.truthy_opt (a_job_keywords stage_args) = false
  /\ (exists r c' did,
        call calm_world keyed_client stage_args = (r, c', did)
        /\ In (HttpGet (base_url ++ "/offres/search") (query_params stage_args)
                 (first_headers (VStr "key"))) did
        /\ Py.lookup "motsCles" (query_params stage_args)
           = Some (VStr ("d" ++ PyStr.e_acute ++ "veloppeur"))).
Proof.
  split; [reflexivity|].
  exists (fst (fst (call calm_world keyed_client stage_args))),
         (snd (fst (call calm_world keyed_client stage_args))),
         (snd (call calm_world keyed_client stage_args)).
  assert (I : In (HttpGet (base_url ++ "/offres/search") (query_params stage_args)
                    (first_headers (VStr "key")))
                 (snd (call calm_world keyed_client stage_args))).
  { vm_compute. repeat (first [left; reflexivity | right]). }
  split; [apply triple_eta|].
  split; [exact I|].
  exact (proj1 (proj2 C10_title_preprocessing)
           calm_world keyed_client stage_args _ _ _ _ _ _ eq_refl
           (triple_eta _) I).
Defined.

(** *** The department *)

Lemma departement_sent location :
  location <> "" ->
  sent_departement (Some location) = Some (spec_departement location).
Proof.
  intros N. unfold sent_departement, departement, spec_departement.
  destruct (String.eqb location "") eqn:E;
    [apply String.eqb_eq in E; contradiction|].
  destruct (PyStr.search_postal location); [reflexivity|].
  destruct ((String.length location =? 2) && PyStr.isdigit location);
    [reflexivity|].
  change known_cities with dept_codes.
  destruct (assoc (PyStr.lower location) dept_codes); reflexivity.
Qed.

Lemma C5_counterexample : ~ every_location_resolves.
Proof.
  intros H. specialize (H ""). vm_compute in H. discriminate H.
Qed.

(** C5, amended. The department is a function of the location string
    alone. For a location that is not empty the rules apply in order:
    five digits in a row with no digit on either side give their first
    two digits; else a string of exactly two digits is taken as it is;
    else a known city, case set aside, gives its code from the table;
    else the default department 75. For an empty location, or none, no
    department is sent. The parameter "departement" of every search
    request of a call is that department, whatever the client, the
    world and the other arguments. "75001" gives "75", "69" gives "69",
    "Lyon" gives "69", "unknown city" gives the default. *)
Theorem C5_departement_resolution :
  (forall location, location <> "" ->
     sent_departement (Some location) = Some (spec_departement location))
  /\ sent_departement (Some "") = None
  /\ sent_departement None = None
  /\ (forall w c a r c' did url params headers,
        call w c a = (r, c', did) ->
        In (HttpGet url params headers) did ->
        Py.lookup "departement" params
        = option_map VStr (sent_departement (a_location a)))
  /\ sent_departement (Some "75001") = Some "75"
  /\ sent_departement (Some "69") = Some "69"
  /\ sent_departement (Some "Lyon") = Some "69"
  /\ sent_departement (Some "unknown city") = Some default_department.
Proof.
  split; [exact departement_sent|].
  split; [reflexivity|]. split; [reflexivity|].
  split; [|repeat split; reflexivity].
  intros w c a r c' did url params headers E I.
  rewrite (get_in_call _ _ _ _ _ _ _ _ _ E I). apply departement_of_query.
Qed.

Lemma C5_witness :
  "12 rue de la Paix, 69003 Lyon" <> ""
  /\ sent_departement (Some "12 rue de la Paix, 69003 Lyon") = Some "69"
  /\ Py.lookup "departement" (query_params stage_args) = Some (VStr "69").
Proof.
  split; [discriminate|]. split.
  - rewrite (proj1 C5_departement_resolution "12 rue de la Paix, 69003 Lyon");
      [reflexivity | discriminate].
  - assert (I : In (HttpGet (base_url ++ "/offres/search") (query_params stage_args)
                      (first_headers (VStr "key")))
                   (snd (call calm_world keyed_client stage_args))).
    { vm_compute. repeat (first [left; reflexivity | right]). }
    exact (proj1 (proj2 (proj2 (proj2 C5_departement_resolution)))
             calm_world keyed_client stage_args _ _ _ _ _ _ (triple_eta _) I).
Defined.

(** *** The keywords *)

(** C9. The keyword list of a France Travail call is printed and not
    used: with any two keyword lists (empty or not) the call gives the
    same result, leaves the client the same, and produces the same
    events but for the lines about the keywords themselves; so it sends
    the same requests, and in each search request motsCles is the query
    text, which the keywords do not enter. *)
Theorem C9_keywords_not_sent :
  forall w c a,
  exists r c' before after (reached : bool),
    (forall keywords,
       call w c (with_keywords keywords a)
       = (r, c', (before ++ (if reached then keyword_events keywords else [])
                  ++ after)%list))
    /\ (forall keywords, requests (keyword_events keywords) = [])
    /\ (forall keywords r' c'' did url params headers,
          call w c (with_keywords keywords a) = (r', c'', did) ->
          In (HttpGet url params headers) did ->
          Py.lookup "motsCles" params = Some (VStr (query_text a))).
Proof.
  intros w c a.
  assert (Q : forall keywords, query_params (with_keywords keywords a) = query_params a)
    by reflexivity.
  assert (P : forall keywords,
             prepared (with_keywords keywords a)
             = ((chosen_events a ++ location_events (a_location a))
                ++ keyword_events keywords)%list).
  { intros keywords. unfold prepared. simpl. rewrite app_assoc. reflexivity. }
  assert (N : forall keywords, requests (keyword_events keywords) = []).
  { intros [[|k ks]|]; reflexivity. }
  assert (G : forall keywords r' c'' did url params headers,
             call w c (with_keywords keywords a) = (r', c'', did) ->
             In (HttpGet url params headers) did ->
             Py.lookup "motsCles" params = Some (VStr (query_text a))).
  { intros keywords r' c'' did url params headers E I.
    rewrite (get_in_call _ _ _ _ _ _ _ _ _ E I), Q. apply motsCles_of_query. }
  destruct (_get_auth_token w {| self := c; sent := 0 |})
    as [[[auth_token|e] s1] t1] eqn:A.
  - destruct (negb (Py.truthy auth_token)) eqn:T.
    + exists (Raise (ValueError not_configured)), (self s1), t1, [], false.
      split; [|split; assumption].
      intros keywords. rewrite call_unfolds, A, T. rewrite app_nil_r. reflexivity.
    + destruct (fetch w (api_base_url (self s1) ++ "/offres/search")
                  (query_params a) (first_headers auth_token) s1)
        as [[[found|e] s2] t2] eqn:F.
      * exists (Ok found), (self s2),
               (t1 ++ chosen_events a ++ location_events (a_location a))%list,
               t2, true.
        split; [|split; assumption].
        intros keywords. rewrite call_unfolds, A, T, Q, F, P.
        repeat rewrite <- app_assoc. reflexivity.
      * exists (Raise (rewrap e)), (self s2),
               (t1 ++ chosen_events a ++ location_events (a_location a))%list,
               t2, true.
        split; [|split; assumption].
        intros keywords. rewrite call_unfolds, A, T, Q, F, P.
        repeat rewrite <- app_assoc. reflexivity.
  - exists (Raise e), (self s1), t1, [], false.
    split; [|split; assumption].
    intros keywords. rewrite call_unfolds, A. rewrite app_nil_r. reflexivity.
Qed.

Lemma C9_witness :
  exists r c' did,
    call calm_world keyed_client (with_keywords (Some ["python"; "sql"]) stage_args)
    = (r, c', did)
    /\ In (HttpGet (base_url ++ "/offres/search") (query_params stage_args)
             (first_headers (VStr "key"))) did
    /\ In (Printed (LogSkillsShown FRANCE_TRAVAIL "python, sql")) did
    /\ Py.lookup "motsCles" (query_params stage_args)
       = Some (VStr (query_text stage_args))
    /\ requests did
       = requests (snd (call calm_world keyed_client (with_keywords None stage_args))).
Proof.
  exists (fst (fst (call calm_world keyed_client
                      (with_keywords (Some ["python"; "sql"]) stage_args)))),
         (snd (fst (call calm_world keyed_client
                      (with_keywords (Some ["python"; "sql"]) stage_args)))),
         (snd (call calm_world keyed_client
                 (with_keywords (Some ["python"; "sql"]) stage_args))).
  assert (I : In (HttpGet (base_url ++ "/offres/search") (query_params stage_args)
                    (first_headers (VStr "key")))
                 (snd (call calm_world keyed_client
                         (with_keywords (Some ["python"; "sql"]) stage_args)))).
  { vm_compute. repeat (first [left; reflexivity | right]). }
  split; [apply triple_eta|]. split; [exact I|].
  split; [vm_compute; repeat (first [left; reflexivity | right])|].
  split; [|vm_compute; reflexivity].
  destruct (C9_keywords_not_sent calm_world keyed_client stage_args)
    as (r & c' & before & after & reached & _ & _ & G).
  exact (G (Some ["python"; "sql"]) _ _ _ _ _ _ (triple_eta _) I).
Defined.

End QueryClaims.

(* ================================================================== *)
(** ** The France Travail client: 401, refresh and retry; status codes *)
(* ================================================================== *)

Module RetryFacts.
Import Eff FranceTravailClient Views FranceTravailFacts.

(** The block returns only what it parsed out of an answer with status
    200 or 206. *)
Lemma fetch_ok_from_ok_answer w url params headers (s : sys t) found s' said :
  fetch w url params headers s = (Ok found, s', said) ->
  exists k answer,
    net w k = Ok answer /\ status_ok answer = true /\ parsed answer = Ok found.
Proof.
  begin_fetch. repeat split_path; intros E; inversion E; subst;
    try absurd_path;
    repeat match goal with
           | H : negb ?b = false |- _ => apply negb_false_iff in H
           end;
    match goal with
    | N : net w ?k = Ok ?answer, S : status_ok ?answer = true,
      J : json ?answer = Ok ?data, X : extract_results ?data = Ok _ |- _ =>
        exists k, answer; repeat split; try assumption;
        unfold parsed; rewrite J; exact X
    end.
Qed.

Lemma posts_requests said : posts (requests said) = posts said.
Proof.
  unfold posts, requests. induction said as [|e said IH]; [reflexivity|].
  destruct e; simpl; rewrite IH; reflexivity.
Qed.

Lemma gets_requests said : gets (requests said) = gets said.
Proof.
  unfold gets, requests. induction said as [|e said IH]; [reflexivity|].
  destruct e; simpl; rewrite IH; reflexivity.
Qed.

Lemma after_first_get_requests said :
  requests (after_first_get said) = after_first_get (requests said).
Proof.
  unfold requests. induction said as [|e said IH]; [reflexivity|].
  destruct e; simpl; auto.
Qed.

Lemma after_first_get_skips before said :
  gets before = [] ->
  after_first_get (before ++ said) = after_first_get said.
Proof.
  unfold gets. induction before as [|e before IH]; simpl; [reflexivity|].
  destruct e; simpl; intros H; try discriminate; auto.
Qed.

Lemma gets_app x y : gets (x ++ y) = (gets x ++ gets y)%list.
Proof. apply filter_app. Qed.

Lemma gets_printed said :
  Forall (fun e => is_http e = false) said -> gets said = [].
Proof.
  induction 1 as [|e said He _ IH]; [reflexivity|].
  unfold gets in *. simpl. destruct e; simpl in *; try discriminate; exact IH.
Qed.

(** Two search requests at most, and after the first of them one token
    request at most and one search request at most. *)
Lemma try_requests_bounds url params said :
  try_requests url params (requests said) ->
  List.length (gets said) <= 2
  /\ List.length (posts (after_first_get said)) <= 1
  /\ List.length (gets (after_first_get said)) <= 1.
Proof.
  rewrite <- (gets_requests said).
  rewrite <- (posts_requests (after_first_get said)).
  rewrite <- (gets_requests (after_first_get said)).
  rewrite after_first_get_requests.
  destruct (requests said) as [|e1 [|e2 [|e3 [|e4 l]]]]; simpl;
    repeat match goal with
           | e : event |- _ => destruct e; simpl
           end;
    intros H; try contradiction; simpl; repeat split; lia.
Qed.

Lemma call_bounds w c a r c' did :
  call w c a = (r, c', did) ->
  List.length (gets did) <= 2
  /\ List.length (posts (after_first_get did)) <= 1
  /\ List.length (gets (after_first_get did)) <= 1.
Proof.
  rewrite call_unfolds.
  destruct (get_auth_token_requests w {| self := c; sent := 0 |})
    as (v & s1 & t1 & -> & G & _).
  assert (Z0 : List.length (gets t1) <= 2
               /\ List.length (posts (after_first_get t1)) <= 1
               /\ List.length (gets (after_first_get t1)) <= 1).
  { rewrite G. rewrite <- (app_nil_r t1), after_first_get_skips by exact G.
    simpl. repeat split; lia. }
  destruct (negb (Py.truthy v)); [intros H; inversion H; subst; exact Z0|].
  pose proof (fetch_requests w (api_base_url (self s1) ++ "/offres/search")
                (query_params a) (first_headers v) s1) as F.
  pose proof (gets_printed _ (prepared_printed a)) as P.
  destruct (fetch w _ _ _ s1) as [[[found|e] s2] t2];
    destruct F as [F _]; apply try_requests_bounds in F;
    intros H; inversion H; subst;
    rewrite after_first_get_skips by exact G;
    rewrite after_first_get_skips by exact P;
    repeat rewrite gets_app; rewrite G, P; simpl; exact F.
Qed.

Lemma call_ok_from_ok_answer w c a found c' did :
  call w c a = (Ok found, c', did) ->
  exists k answer,
    net w k = Ok answer /\ status_ok answer = true /\ parsed answer = Ok found.
Proof.
  rewrite call_unfolds.
  destruct (_get_auth_token w _) as [[[auth_token|e] s1] t1]; [|discriminate].
  destruct (negb (Py.truthy auth_token)); [discriminate|].
  destruct (fetch w _ _ _ s1) as [[[found'|e] s2] t2] eqn:F; [|discriminate].
  intros H; inversion H; subst.
  eapply fetch_ok_from_ok_answer; eassumption.
Qed.

End RetryFacts.

Module RefreshFacts.
Import Eff FranceTravailClient Views TokenViews FranceTravailFacts.

Lemma status_ok_codes resp :
  status_ok resp = true
  <-> status_code resp = 200%Z \/ status_code resp = 206%Z.
Proof.
  unfold status_ok. rewrite orb_true_iff, !Z.eqb_eq. reflexivity.
Qed.

Lemma status_not_ok_codes resp :
  status_ok resp = false
  <-> status_code resp <> 200%Z /\ status_code resp <> 206%Z.
Proof.
  unfold status_ok. rewrite orb_false_iff, !Z.eqb_neq. reflexivity.
Qed.

(** A token that is granted is not empty. *)
Lemma granted_truthy w answer token :
  granted w answer = Some token -> Py.truthy token = true.
Proof.
  unfold granted. destruct answer as [resp|e]; [|discriminate].
  destruct (status_code resp =? 200)%Z; [|discriminate].
  destruct (json resp) as [[| | | | |body]|e]; try discriminate.
  destruct (Py.lookup "access_token" body) as [v|]; [|discriminate].
  destruct (Py.truthy v) eqn:T; [|discriminate].
  destruct (Py.lookup "expires_in" body) as [seconds|];
    [destruct (add_seconds (now w) seconds)|];
    intros H; inversion H; subst; exact T.
Qed.

(** The token request of a client that has its two credentials: one
    request, and the method returns the token that the answer grants,
    or [None]. *)
Lemma get_access_token_granted w (s : sys t) :
  Py.truthy_opt (client_id (self s)) = true ->
  Py.truthy_opt (client_secret (self s)) = true ->
  exists s' said,
    _get_access_token w s
    = (Ok (match granted w (net w (sent s)) with
           | Some token => token
           | None => VNone
           end), s', said)
    /\ requests said = [HttpPost token_url (token_form (self s)) token_headers]
    /\ sent s' = S (sent s)
    /\ (forall token, granted w (net w (sent s)) = Some token ->
                      access_token (self s') = token).
Proof.
  intros Hid Hsecret. unfold _get_access_token, granted. open_method.
  rewrite Hid, Hsecret. simpl.
  destruct (net w (sent s)) as [resp|e]; simpl;
    [|do 2 eexists; repeat split; try reflexivity; discriminate].
  destruct (status_code resp =? 200)%Z; simpl;
    [|do 2 eexists; repeat split; try reflexivity; discriminate].
  destruct (json resp) as [[| | | | |body]|e]; simpl;
    try (do 2 eexists; repeat split; try reflexivity; discriminate).
  destruct (Py.lookup "access_token" body) as [v|]; simpl;
    [|do 2 eexists; repeat split; try reflexivity; discriminate].
  destruct (Py.truthy v) eqn:T; simpl;
    [|do 2 eexists; repeat split; try reflexivity; discriminate].
  unfold Py.has_key.
  destruct (Py.lookup "expires_in" body) as [seconds|]; simpl;
    [destruct (add_seconds (now w) seconds) as [expiry|e]; simpl|];
    do 2 eexists; repeat split; try reflexivity;
    try discriminate; intros token H; inversion H; reflexivity.
Qed.

(** 401, the guard holds, no static key, and the token endpoint grants
    a token: the search request is sent once more with the new token,
    and its answer decides. *)
Lemma fetch_401_granted w url params headers (s : sys t) resp token :
  net w (sent s) = Ok resp ->
  status_code resp = 401%Z ->
  may_refresh (self s) = true ->
  Py.truthy_opt (api_key (self s)) = false ->
  granted w (net w (S (sent s))) = Some token ->
  exists r s' said,
    fetch w url params headers s = (r, s', said)
    /\ requests said
       = [HttpGet url params headers;
          HttpPost token_url (token_form (self s)) token_headers;
          HttpGet url params
            (Py.set "Authorization" ("Bearer " ++ Py.str token) headers)]
    /\ access_token (self s') = token
    /\ r = match net w (S (S (sent s))) with
           | Raise e => Raise e
           | Ok again => if status_ok again then parsed again
                         else Raise (ValueError msg_401)
           end.
Proof.
  intros H H401 G K T.
  pose proof (granted_truthy _ _ _ T) as Tt.
  unfold may_refresh in G.
  pose proof G as G'. apply andb_prop in G'. destruct G' as [G' _].
  apply andb_prop in G'. destruct G' as [G1 G2].
  set (s1 := {| self := set_access_token VNone (self s); sent := S (sent s) |}).
  destruct (get_access_token_granted w s1 G1 G2) as (s2 & said2 & E & R & N & A).
  simpl in E, R, N, A. rewrite T in E. specialize (A token T).
  unfold fetch, on_401, _get_auth_token.
  unfold bind, try_except, ret, raise, lift, get_self, set_self, print,
    emit, request. simpl.
  rewrite H. simpl. rewrite H401. simpl. rewrite G. simpl. rewrite K. simpl.
  fold s1. rewrite E. rewrite Tt. rewrite N.
  unfold requests in *. simpl in R.
  destruct (net w (S (S (sent s)))) as [again|e]; simpl;
    [ destruct (status_ok again) eqn:O; simpl; rewrite ?O; simpl;
      [ unfold parsed;
        destruct (json again) as [data|e]; simpl;
        [ destruct (extract_results data); simpl | ] | ] | ];
    do 3 eexists; (split; [reflexivity|]); simpl;
    rewrite ?filter_app; simpl; rewrite ?R; simpl;
    repeat split; try reflexivity; exact A.
Qed.

(** The same, and the token endpoint does not grant a token: nothing
    more is sent, and the block raises on the 401. *)
Lemma fetch_401_denied w url params headers (s : sys t) resp :
  net w (sent s) = Ok resp ->
  status_code resp = 401%Z ->
  may_refresh (self s) = true ->
  Py.truthy_opt (api_key (self s)) = false ->
  granted w (net w (S (sent s))) = None ->
  exists s' said,
    fetch w url params headers s
    = (Raise (ValueError (MsgStatus
                "Erreur lors de la recherche sur France Travail: "
                401 (text resp))), s', said)
    /\ requests said
       = [HttpGet url params headers;
          HttpPost token_url (token_form (self s)) token_headers].
Proof.
  intros H H401 G K T.
  unfold may_refresh in G.
  pose proof G as G'. apply andb_prop in G'. destruct G' as [G' _].
  apply andb_prop in G'. destruct G' as [G1 G2].
  set (s1 := {| self := set_access_token VNone (self s); sent := S (sent s) |}).
  destruct (get_access_token_granted w s1 G1 G2) as (s2 & said2 & E & R & N & A).
  simpl in E, R, N, A. rewrite T in E.
  unfold fetch, on_401, _get_auth_token.
  unfold bind, try_except, ret, raise, lift, get_self, set_self, print,
    emit, request. simpl.
  rewrite H. simpl. rewrite H401. simpl. rewrite G. simpl. rewrite K. simpl.
  fold s1. rewrite E. simpl.
  rewrite (not_ok_of_401 _ H401). simpl. rewrite H401.
  do 2 eexists. split; [reflexivity|].
  unfold requests in *. simpl in R. simpl.
  rewrite ?filter_app. simpl. rewrite ?R. simpl. rewrite ?app_nil_r. reflexivity.
Qed.

End RefreshFacts.

Module RetryClaims.
Import Eff FranceTravailClient Views TokenViews Samples RoundSamples.
Import FranceTravailFacts RetryFacts RefreshFacts.

(** With credentials and a static key, a 401 ends the call: one search
    request, no token request. *)
Lemma overconfigured_call :
  has_credentials overconfigured = true
  /\ exists e did,
       call refusing_world overconfigured plain_args = (Raise e, overconfigured, did)
       /\ requests did
          = [HttpGet search_url (query_params plain_args) (first_headers (VStr "key"))].
Proof.
  split; [reflexivity|]. do 2 eexists. split; vm_compute; reflexivity.
Qed.

Lemma C6_counterexample : ~ refresh_whenever_credentials.
Proof.
  intros H.
  destruct (fetch refusing_world search_url [] [] {| self := overconfigured; sent := 0 |})
    as [[r s'] said] eqn:E.
  destruct (H refusing_world search_url [] [] {| self := overconfigured; sent := 0 |}
              (answer 401 no_results) r s' said eq_refl eq_refl eq_refl E)
    as (data & token_headers & retry_headers & R).
  vm_compute in E. inversion E; subst. vm_compute in R. discriminate R.
Qed.

(** C6, amended. When the search request of a France Travail call is
    answered 401:
    - if the client does not hold its client id, its client secret and
      an access token together (this is so for a client that uses a
      static key, even when it has credentials), nothing more is sent
      and the call fails;
    - if it holds them and uses no static key, the token endpoint is
      asked exactly once; when its answer grants a token (status 200
      and a body with an access token that is not empty and, when the
      body has a lifetime, one that is a number of seconds the clock
      can take), the search request is sent exactly once more, with the
      new token, and then the call returns what the new answer holds
      when its status is 200 or 206 and fails otherwise; when no token
      is granted, nothing more is sent and the call fails.
    In every call there are at most two search requests, and after the
    first one at most one token request and at most one search
    request. The token that an answer grants is what the token request
    of the client returns. *)
Theorem C6_refresh_and_retry_once :
  (forall w url params headers (s : sys t) resp,
     net w (sent s) = Ok resp ->
     status_code resp = 401%Z ->
     may_refresh (self s) = false ->
     exists s' said,
       fetch w url params headers s = (Raise (ValueError msg_401), s', said)
       /\ requests said = [HttpGet url params headers])
  /\ (forall w url params headers (s : sys t) resp token,
        net w (sent s) = Ok resp ->
        status_code resp = 401%Z ->
        may_refresh (self s) = true ->
        Py.truthy_opt (api_key (self s)) = false ->
        granted w (net w (S (sent s))) = Some token ->
        exists r s' said,
          fetch w url params headers s = (r, s', said)
          /\ requests said
             = [HttpGet url params headers;
                HttpPost token_url (token_form (self s)) token_headers;
                HttpGet url params
                  (Py.set "Authorization" ("Bearer " ++ Py.str token) headers)]
          /\ access_token (self s') = token
          /\ (forall again, net w (S (S (sent s))) = Ok again ->
                status_code again = 200%Z \/ status_code again = 206%Z ->
                r = parsed again)
          /\ (forall again, net w (S (S (sent s))) = Ok again ->
                status_code again <> 200%Z ->
                status_code again <> 206%Z ->
                r = Raise (ValueError msg_401))
          /\ (forall e, net w (S (S (sent s))) = Raise e -> r = Raise e))
  /\ (forall w url params headers (s : sys t) resp,
        net w (sent s) = Ok resp ->
        status_code resp = 401%Z ->
        may_refresh (self s) = true ->
        Py.truthy_opt (api_key (self s)) = false ->
        granted w (net w (S (sent s))) = None ->
        exists e s' said,
          fetch w url params headers s = (Raise e, s', said)
          /\ e = ValueError (MsgStatus
                   "Erreur lors de la recherche sur France Travail: "
                   401 (text resp))
          /\ requests said
             = [HttpGet url params headers;
                HttpPost token_url (token_form (self s)) token_headers])
  /\ (forall w c a r c' did,
        call w c a = (r, c', did) ->
        List.length (gets did) <= 2
        /\ List.length (posts (after_first_get did)) <= 1
        /\ List.length (gets (after_first_get did)) <= 1)
  /\ (forall w c a found c' did,
        call w c a = (Ok found, c', did) ->
        exists k answer,
          net w k = Ok answer
          /\ (status_code answer = 200%Z \/ status_code answer = 206%Z)
          /\ status_ok answer = true
          /\ parsed answer = Ok found)
  /\ (forall w (s : sys t),
        Py.truthy_opt (client_id (self s)) = true ->
        Py.truthy_opt (client_secret (self s)) = true ->
        exists s' said,
          _get_access_token w s
          = (Ok (match granted w (net w (sent s)) with
                 | Some token => token
                 | None => VNone
                 end), s', said)
          /\ requests said
             = [HttpPost token_url (token_form (self s)) token_headers]).
Proof.
  split; [exact fetch_401_no_refresh|].
  split; [|split; [|split; [exact call_bounds|split]]].
  - intros w url params headers s resp token H H401 G K T.
    destruct (fetch_401_granted w url params headers s resp token H H401 G K T)
      as (r & s' & said & E & R & A & D).
    exists r, s', said. split; [exact E|]. split; [exact R|].
    split; [exact A|]. split; [|split].
    + intros again N C. rewrite N in D.
      rewrite (proj2 (status_ok_codes again) C) in D. exact D.
    + intros again N C1 C2. rewrite N in D.
      rewrite (proj2 (status_not_ok_codes again) (conj C1 C2)) in D. exact D.
    + intros e N. rewrite N in D. exact D.
  - intros w url params headers s resp H H401 G K T.
    destruct (fetch_401_denied w url params headers s resp H H401 G K T)
      as (s' & said & E & R).
    do 3 eexists. split; [exact E|]. split; [reflexivity | exact R].
  - intros w c a found c' did E.
    destruct (call_ok_from_ok_answer w c a found c' did E)
      as (k & answer' & N & S & P).
    exists k, answer'. split; [exact N|].
    split; [apply status_ok_codes; exact S|]. split; assumption.
  - intros w s Hid Hsecret.
    destruct (get_access_token_granted w s Hid Hsecret)
      as (s' & said & E & R & _).
    exists s', said. split; assumption.
Qed.

Lemma C6_witness :
  net renewing_world 0 = Ok (answer 401 no_results)
  /\ may_refresh oauth_client = true
  /\ Py.truthy_opt (api_key oauth_client) = false
  /\ granted renewing_world (net renewing_world 1) = Some (VStr "new")
  /\ granted denying_world (net denying_world 1) = None
  /\ (exists c' did,
        call renewing_world oauth_client plain_args = (Ok (VList []), c', did)
        /\ List.length (gets did) = 2
        /\ List.length (posts (after_first_get did)) = 1
        /\ access_token c' = VStr "new")
  /\ (exists r s' said,
        fetch renewing_world search_url [] [] {| self := oauth_client; sent := 0 |}
        = (r, s', said)
        /\ requests said
           = [HttpGet search_url [] [];
              HttpPost token_url (token_form oauth_client) token_headers;
              HttpGet search_url [] [("Authorization", "Bearer new")]]
        /\ r = Ok (VList []))
  /\ (exists e s' said,
        fetch denying_world search_url [] [] {| self := oauth_client; sent := 0 |}
        = (Raise e, s', said)
        /\ requests said
           = [HttpGet search_url [] [];
              HttpPost token_url (token_form oauth_client) token_headers]).
Proof.
  split; [reflexivity|]. split; [reflexivity|]. split; [reflexivity|].
  split; [reflexivity|]. split; [reflexivity|].
  split.
  { do 2 eexists. split; [vm_compute; reflexivity|].
    repeat split; reflexivity. }
  split.
  - destruct (proj1 (proj2 C6_refresh_and_retry_once)
                renewing_world search_url [] [] {| self := oauth_client; sent := 0 |}
                (answer 401 no_results) (VStr "new")
                eq_refl eq_refl eq_refl eq_refl eq_refl)
      as (r & s' & said & E & R & _ & P & _).
    exists r, s', said. split; [exact E|]. split; [exact R|].
    exact (P (answer 200 no_results) eq_refl (or_introl eq_refl)).
  - destruct (proj1 (proj2 (proj2 C6_refresh_and_retry_once))
                denying_world search_url [] [] {| self := oauth_client; sent := 0 |}
                (answer 401 no_results)
                eq_refl eq_refl eq_refl eq_refl eq_refl)
      as (e & s' & said & E & _ & R).
    exists e, s', said. split; [exact E | exact R].
Defined.

End RetryClaims.

(* ================================================================== *)
(** ** Status codes, client by client *)
(* ================================================================== *)

Module StatusClaims.
Import Eff Views Samples.

Lemma indeed_status w job_title location radius keywords limit
  (s : sys IndeedClient.t) resp :
  net w (sent s) = Ok resp ->
  fst (fst (IndeedClient.search_jobs w job_title location radius keywords limit s))
  = if (status_code resp =? 200)%Z then indeed_parsed w resp
    else Raise (Exception (MsgStatus "Erreur lors de la recherche sur Indeed: "
                             (status_code resp) (text resp))).
Proof.
  intros H. unfold IndeedClient.search_jobs, indeed_parsed.
  unfold bind, ret, raise, lift, get_self, print, emit, request.
  destruct keywords as [[|k ks]|]; simpl; rewrite H; simpl;
    destruct (status_code resp =? 200)%Z; simpl; try reflexivity;
    destruct (json resp) as [data|e]; simpl; try reflexivity;
    destruct (Py.get data "results" (VList [])) as [listed|e]; simpl; try reflexivity;
    destruct (Py.iterate listed) as [jobs|e]; simpl; try reflexivity;
    destruct (for_each (IndeedClient.posting_of w) jobs); reflexivity.
Qed.

Lemma glassdoor_status w job_title location radius keywords limit
  (s : sys GlassdoorClient.t) resp :
  net w (sent s) = Ok resp ->
  fst (fst (GlassdoorClient.search_jobs w job_title location radius keywords limit s))
  = if (status_code resp =? 200)%Z then glassdoor_parsed w resp
    else Raise (Exception (MsgStatus "Erreur lors de la recherche sur Glassdoor: "
                             (status_code resp) (text resp))).
Proof.
  intros H. unfold GlassdoorClient.search_jobs, glassdoor_parsed.
  unfold bind, ret, raise, lift, get_self, print, emit, request.
  destruct keywords as [[|k ks]|]; simpl; rewrite H; simpl;
    destruct (status_code resp =? 200)%Z; simpl; try reflexivity;
    destruct (json resp) as [data|e]; simpl; try reflexivity;
    destruct (Py.get data "response" (VDict [])) as [inner|e]; simpl; try reflexivity;
    destruct (Py.get inner "jobListings" (VList [])) as [listed|e]; simpl; try reflexivity;
    destruct (Py.iterate listed) as [jobs|e]; simpl; try reflexivity;
    destruct (for_each (GlassdoorClient.posting_of w) jobs); reflexivity.
Qed.

Lemma call_indeed w c job_title location radius keywords limit :
  fst (IndeedClient.call w c job_title location radius keywords limit)
  = fst (fst (IndeedClient.search_jobs w job_title location radius keywords limit
                {| self := c; sent := 0 |})).
Proof.
  unfold IndeedClient.call, run.
  destruct (IndeedClient.search_jobs _ _ _ _ _ _ _) as [[r s] did]. reflexivity.
Qed.

Lemma call_glassdoor w c job_title location radius keywords limit :
  fst (GlassdoorClient.call w c job_title location radius keywords limit)
  = fst (fst (GlassdoorClient.search_jobs w job_title location radius keywords limit
                {| self := c; sent := 0 |})).
Proof.
  unfold GlassdoorClient.call, run.
  destruct (GlassdoorClient.search_jobs _ _ _ _ _ _ _) as [[r s] did]. reflexivity.
Qed.

Lemma C7_counterexample : ~ indeed_accepts_200_and_206.
Proof.
  intros H.
  specialize (H partial_world indeed_client "dev" None 50%Z None 10%Z
                (answer 206 (Ok partial_body)) eq_refl (or_intror eq_refl)).
  vm_compute in H. discriminate H.
Qed.

(** C7, amended. The France Travail client takes 200 and 206 as
    success: when the answer to its search request has one of them, the
    call returns what the body holds once parsed (it fails if the body
    does not parse); an answer with any other status but 401 makes the
    call fail, and a call returns only what it parsed from an answer
    with status 200 or 206 (after a 401, the answer to the one retry).
    The Indeed and the Glassdoor client take 200 only: with 200 the
    body is parsed and the records are returned, with any other status,
    206 included, the call fails. *)
Theorem C7_status_codes :
  (forall w url params headers (s : sys FranceTravailClient.t) resp,
     net w (sent s) = Ok resp ->
     status_code resp = 200%Z \/ status_code resp = 206%Z ->
     exists s' said,
       FranceTravailClient.fetch w url params headers s = (parsed resp, s', said)
       /\ requests said = [HttpGet url params headers])
  /\ (forall w url params headers (s : sys FranceTravailClient.t) resp,
        net w (sent s) = Ok resp ->
        status_code resp <> 200%Z ->
        status_code resp <> 206%Z ->
        status_code resp <> 401%Z ->
        exists e s' said,
          FranceTravailClient.fetch w url params headers s = (Raise e, s', said)
          /\ e = ValueError (MsgStatus
                   "Erreur lors de la recherche sur France Travail: "
                   (status_code resp) (text resp))
          /\ requests said = [HttpGet url params headers])
  /\ (forall w c a found c' did,
        FranceTravailClient.call w c a = (Ok found, c', did) ->
        exists k answer,
          net w k = Ok answer
          /\ (status_code answer = 200%Z \/ status_code answer = 206%Z)
          /\ parsed answer = Ok found)
  /\ (forall w c job_title location radius keywords limit resp,
        net w 0 = Ok resp ->
        fst (IndeedClient.call w c job_title location radius keywords limit)
        = if (status_code resp =? 200)%Z then indeed_parsed w resp
          else Raise (Exception (MsgStatus
                        "Erreur lors de la recherche sur Indeed: "
                        (status_code resp) (text resp))))
  /\ (forall w c job_title location radius keywords limit resp,
        net w 0 = Ok resp ->
        fst (GlassdoorClient.call w c job_title location radius keywords limit)
        = if (status_code resp =? 200)%Z then glassdoor_parsed w resp
          else Raise (Exception (MsgStatus
                        "Erreur lors de la recherche sur Glassdoor: "
                        (status_code resp) (text resp)))).
Proof.
  split; [|split; [|split; [|split]]].
  - intros w url params headers s resp H C.
    apply RefreshFacts.status_ok_codes in C.
    exact (FranceTravailFacts.fetch_success w url params headers s resp H C).
  - intros w url params headers s resp H C1 C2 C3.
    destruct (FranceTravailFacts.fetch_other_status w url params headers s resp H
                (proj2 (RefreshFacts.status_not_ok_codes resp) (conj C1 C2))
                (proj2 (Z.eqb_neq _ _) C3)) as (s' & said & E & R).
    do 3 eexists. split; [exact E|]. split; [reflexivity | exact R].
  - intros w c a found c' did E.
    destruct (RetryFacts.call_ok_from_ok_answer w c a found c' did E)
      as (k & answer' & N & S & P).
    exists k, answer'. repeat split; auto.
    apply RefreshFacts.status_ok_codes. exact S.
  - intros w c job_title location radius keywords limit resp H.
    rewrite call_indeed. apply indeed_status. exact H.
  - intros w c job_title location radius keywords limit resp H.
    rewrite call_glassdoor. apply glassdoor_status. exact H.
Qed.

Lemma C7_witness :
  net ok_world 0 = Ok (answer 200 (Ok partial_body))
  /\ status_code (answer 206 (Ok partial_body)) = 206%Z
  /\ is_ok (fst (IndeedClient.call ok_world indeed_client "dev" None 50%Z None 10%Z))
     = true
  /\ is_ok (fst (IndeedClient.call partial_world indeed_client "dev" None 50%Z None 10%Z))
     = false
  /\ is_ok (fst (GlassdoorClient.call partial_world glassdoor_client "dev" None 50%Z None 10%Z))
     = false
  /\ (exists s' said,
        FranceTravailClient.fetch partial_world "u" [] []
          {| self := keyed_client; sent := 0 |}
        = (parsed (answer 206 (Ok partial_body)), s', said)
        /\ requests said = [HttpGet "u" [] []])
  /\ (exists e s' said,
        FranceTravailClient.fetch MoreSamples.down_world "u" [] []
          {| self := keyed_client; sent := 0 |}
        = (Raise e, s', said)
        /\ e = ValueError (MsgStatus
                 "Erreur lors de la recherche sur France Travail: " 503 "")
        /\ requests said = [HttpGet "u" [] []])
  /\ fst (IndeedClient.call ok_world indeed_client "dev" None 50%Z None 10%Z)
     = indeed_parsed ok_world (answer 200 (Ok partial_body)).
Proof.
  split; [reflexivity|]. split; [reflexivity|].
  split; [vm_compute; reflexivity|]. split; [vm_compute; reflexivity|].
  split; [vm_compute; reflexivity|].
  split; [|split].
  - exact (proj1 C7_status_codes partial_world "u" [] []
             {| self := keyed_client; sent := 0 |}
             (answer 206 (Ok partial_body)) eq_refl (or_intror eq_refl)).
  - refine (proj1 (proj2 C7_status_codes) MoreSamples.down_world "u" [] []
              {| self := keyed_client; sent := 0 |}
              (answer 503 no_results) eq_refl _ _ _); discriminate.
  - exact (proj1 (proj2 (proj2 (proj2 C7_status_codes)))
             ok_world indeed_client "dev" None 50%Z None 10%Z
             (answer 200 (Ok partial_body)) eq_refl).
Defined.

End StatusClaims.

(* ================================================================== *)
(** ** The sort *)
(* ================================================================== *)

Module StringOrderFacts.
Import StringOrder.

Lemma ascii_compare_refl a : Ascii.compare a a = Eq.
Proof. unfold Ascii.compare. apply N.compare_refl. Qed.

Lemma ascii_compare_trans a b c :
  Ascii.compare a b = Lt -> Ascii.compare b c = Lt -> Ascii.compare a c = Lt.
Proof.
  unfold Ascii.compare. rewrite !N.compare_lt_iff. apply N.lt_trans.
Qed.

Lemma compare_refl s : String.compare s s = Eq.
Proof.
  induction s as [|a s IH]; simpl; [reflexivity|].
  rewrite ascii_compare_refl. exact IH.
Qed.

Lemma compare_trans s : forall t u,
  String.compare s t = Lt -> String.compare t u = Lt -> String.compare s u = Lt.
Proof.
  induction s as [|a s IH]; intros [|b t] [|c u]; simpl; try discriminate; auto.
  destruct (Ascii.compare a b) eqn:E1; destruct (Ascii.compare b c) eqn:E2;
    try discriminate; intros H1 H2.
  - apply Ascii.compare_eq_iff in E1, E2. subst.
    rewrite ascii_compare_refl. eapply IH; eassumption.
  - apply Ascii.compare_eq_iff in E1. subst. rewrite E2. reflexivity.
  - apply Ascii.compare_eq_iff in E2. subst. rewrite E1. reflexivity.
  - rewrite (ascii_compare_trans _ _ _ E1 E2). reflexivity.
Qed.

Lemma le_iff s t : le s t <-> String.compare s t <> Gt.
Proof.
  unfold le, PyStr.ltb, String.ltb. rewrite (String.compare_antisym s t).
  destruct (String.compare t s); simpl; split; intros H; congruence.
Qed.

Lemma le_refl s : le s s.
Proof. apply le_iff. rewrite compare_refl. discriminate. Qed.

Lemma le_trans s t u : le s t -> le t u -> le s u.
Proof.
  rewrite !le_iff. intros H1 H2.
  destruct (String.compare s t) eqn:E1; [| |congruence].
  - apply String.compare_eq_iff in E1. subst. exact H2.
  - destruct (String.compare t u) eqn:E2; [| |congruence].
    + apply String.compare_eq_iff in E2. subst. rewrite E1. discriminate.
    + rewrite (compare_trans _ _ _ E1 E2). discriminate.
Qed.

Lemma le_total s t : le s t \/ le t s.
Proof.
  rewrite !le_iff, (String.compare_antisym s t).
  destruct (String.compare t s); simpl; [left|right|left]; discriminate.
Qed.

(** [s < t] gives [s <= t]; and when [s < t] does not hold, [t <= s]. *)
Lemma lt_le s t : PyStr.ltb s t = true -> le s t.
Proof.
  intros H. apply le_iff. unfold PyStr.ltb, String.ltb in H.
  destruct (String.compare s t); congruence.
Qed.

Lemma not_lt_le s t : PyStr.ltb s t = false -> le t s.
Proof. exact (fun H => H). Qed.

End StringOrderFacts.

Module SortFacts.
Import ListSort SortViews.
Local Open Scope list_scope.

Section Permuted.
Context {A : Type}.
Implicit Types (pre items sorted pending : list (@item A)).

(** *** The sort moves the elements, it neither adds nor loses one *)

Lemma insert_step fuel pivot pre :
  insert (S fuel) pivot pre =
  match skipn (List.length pre / 2) pre with
  | [] => Ok (pre ++ [pivot])
  | x :: after =>
      match Py.lt (fst pivot) (fst x) with
      | Raise e => Raise e
      | Ok true =>
          match insert fuel pivot (firstn (List.length pre / 2) pre) with
          | Ok before' => Ok (before' ++ x :: after)
          | Raise e => Raise e
          end
      | Ok false =>
          match insert fuel pivot after with
          | Ok after' => Ok (firstn (List.length pre / 2) pre ++ x :: after')
          | Raise e => Raise e
          end
      end
  end.
Proof. reflexivity. Qed.

Lemma insert_permutes fuel : forall pivot pre l,
  insert fuel pivot pre = Ok l -> Permutation l (pivot :: pre).
Proof.
  induction fuel as [|fuel IH]; intros pivot pre l.
  - simpl. intros H; inversion H; subst. apply Permutation_refl.
  - rewrite insert_step.
    pose proof (firstn_skipn (List.length pre / 2) pre) as Split.
    remember (List.length pre / 2) as p eqn:Hp. clear Hp.
    remember (firstn p pre) as before eqn:Hb. clear Hb.
    destruct (skipn p pre) as [|x after]; subst pre.
    + intros H; inversion H; subst.
      apply Permutation_sym, Permutation_cons_append.
    + destruct (Py.lt (fst pivot) (fst x)) as [[|]|e]; [| |discriminate].
      * destruct (insert fuel pivot before) as [before'|e] eqn:E; [|discriminate].
        intros H; inversion H; subst. apply IH in E.
        rewrite E. apply Permutation_refl.
      * destruct (insert fuel pivot after) as [after'|e] eqn:E; [|discriminate].
        intros H; inversion H; subst. apply IH in E.
        rewrite E.
        change (pivot :: before ++ x :: after)
          with ((pivot :: before) ++ x :: after).
        rewrite <- !Permutation_middle.
        apply Permutation_refl.
Qed.

Lemma binarysort_permutes pending : forall sorted,
  Permutation (snd (binarysort sorted pending)) (sorted ++ pending).
Proof.
  induction pending as [|pivot rest IH]; intros sorted; cbn [binarysort].
  - rewrite app_nil_r. apply Permutation_refl.
  - destruct (insert (S (List.length sorted)) pivot sorted) as [sorted'|e] eqn:E.
    + rewrite IH. apply insert_permutes in E. rewrite E.
      apply Permutation_middle.
    + apply Permutation_refl.
Qed.

Lemma sort_items_permutes items :
  Permutation (snd (sort_items items)) items.
Proof.
  unfold sort_items.
  destruct (List.length items <? 2); [apply Permutation_refl|].
  destruct (count_run items) as [[n descending]|e]; [|apply Permutation_refl].
  rewrite binarysort_permutes.
  transitivity (firstn n items ++ skipn n items);
    [|rewrite firstn_skipn; apply Permutation_refl].
  apply Permutation_app_tail.
  destruct descending; [apply Permutation_sym, Permutation_rev | apply Permutation_refl].
Qed.

Lemma sort_permutes (key : A -> value) reverse (l : list A) :
  Permutation (snd (sort key reverse l)) l.
Proof.
  unfold sort.
  set (items := map (fun x => (key x, x)) l).
  pose proof (sort_items_permutes (if reverse then rev items else items)) as P.
  destruct (sort_items (if reverse then rev items else items)) as [r items'].
  simpl in *.
  assert (Q : Permutation (if reverse then rev items' else items') items).
  { destruct reverse.
    - rewrite <- Permutation_rev, P. apply Permutation_sym, Permutation_rev.
    - exact P. }
  apply (Permutation_map snd) in Q. rewrite Q.
  unfold items. rewrite map_map. simpl. rewrite map_id. apply Permutation_refl.
Qed.

End Permuted.

(** *** Lists in order *)

Lemma sorted_app {B} (R : B -> B -> Prop) (l1 l2 : list B) :
  StronglySorted R (l1 ++ l2) <->
  StronglySorted R l1 /\ StronglySorted R l2
  /\ Forall (fun a => Forall (R a) l2) l1.
Proof.
  induction l1 as [|a l1 IH]; simpl.
  - split; [intros H; repeat split; auto; constructor | intros (_ & H & _); exact H].
  - split.
    + intros H. apply StronglySorted_inv in H. destruct H as [H F].
      apply IH in H. destruct H as (H1 & H2 & H3).
      apply Forall_app in F. destruct F as [F1 F2].
      repeat split; auto; constructor; auto.
    + intros (H1 & H2 & H3).
      apply StronglySorted_inv in H1. destruct H1 as [H1 F1].
      inversion H3; subst.
      constructor; [apply IH; auto|].
      apply Forall_app; auto.
Qed.

Lemma sorted_rev {B} (R : B -> B -> Prop) (l : list B) :
  StronglySorted R l -> StronglySorted (fun a b => R b a) (rev l).
Proof.
  induction 1 as [|a l H IH F]; simpl; [constructor|].
  apply sorted_app. repeat split; auto.
  - repeat constructor.
  - apply Forall_rev. rewrite Forall_forall in F |- *.
    intros b Hb. constructor; [apply F; exact Hb | constructor].
Qed.

Lemma sorted_weaken {B} (R R' : B -> B -> Prop) (l : list B) :
  (forall a b, R a b -> R' a b) ->
  StronglySorted R l -> StronglySorted R' l.
Proof.
  intros W. induction 1 as [|a l H IH F]; constructor; auto.
  rewrite Forall_forall in F |- *. auto.
Qed.

(** *** With string keys the sort does not raise and puts in order *)

Section StringKeys.
Context {A : Type}.
Implicit Types (x y z a b pivot prev : @item A)
  (pre items sorted pending rest : list (@item A)).

Lemma lt_str_keyed x y :
  str_keyed x -> str_keyed y ->
  Py.lt (fst x) (fst y) = Ok (PyStr.ltb (skey x) (skey y)).
Proof. unfold str_keyed. intros -> ->. reflexivity. Qed.

Lemma upto_trans x y z : upto x y -> upto y z -> upto x z.
Proof. apply StringOrderFacts.le_trans. Qed.

Lemma downto_trans x y z : downto x y -> downto y z -> downto x z.
Proof.
  unfold downto, PyStr.ltb, String.ltb. intros H1 H2.
  destruct (String.compare (skey y) (skey x)) eqn:E1; try discriminate.
  destruct (String.compare (skey z) (skey y)) eqn:E2; try discriminate.
  rewrite (StringOrderFacts.compare_trans _ _ _ E2 E1). reflexivity.
Qed.

Lemma downto_upto x y : downto x y -> upto y x.
Proof. apply StringOrderFacts.lt_le. Qed.

Lemma run_ascending_chain rest : forall prev n,
  str_keyed prev -> Forall str_keyed rest ->
  exists k, run_ascending (fst prev) rest n = Ok (n + k)
            /\ ascending (prev :: firstn k rest).
Proof.
  induction rest as [|x rest IH]; intros prev n Hp Hr; simpl.
  - exists 0. rewrite Nat.add_0_r. split; [reflexivity|].
    repeat constructor.
  - inversion Hr as [|? ? Hx Hrest]; subst.
    rewrite (lt_str_keyed _ _ Hx Hp).
    destruct (PyStr.ltb (skey x) (skey prev)) eqn:L.
    + exists 0. rewrite Nat.add_0_r. split; [reflexivity|]. repeat constructor.
    + destruct (IH x (S n) Hx Hrest) as (k & E & Srt).
      exists (S k). rewrite <- Nat.add_succ_comm. split; [exact E|].
      simpl. constructor; [exact Srt|].
      constructor; [exact L|].
      apply StronglySorted_inv in Srt. destruct Srt as [_ F].
      rewrite Forall_forall in F |- *. intros y Hy.
      eapply upto_trans; [exact L | apply F; exact Hy].
Qed.

Lemma run_descending_chain rest : forall prev n,
  str_keyed prev -> Forall str_keyed rest ->
  exists k, run_descending (fst prev) rest n = Ok (n + k)
            /\ StronglySorted downto (prev :: firstn k rest).
Proof.
  induction rest as [|x rest IH]; intros prev n Hp Hr; simpl.
  - exists 0. rewrite Nat.add_0_r. split; [reflexivity|].
    repeat constructor.
  - inversion Hr as [|? ? Hx Hrest]; subst.
    rewrite (lt_str_keyed _ _ Hx Hp).
    destruct (PyStr.ltb (skey x) (skey prev)) eqn:L.
    + destruct (IH x (S n) Hx Hrest) as (k & E & Srt).
      exists (S k). rewrite <- Nat.add_succ_comm. split; [exact E|].
      simpl. constructor; [exact Srt|].
      constructor; [exact L|].
      apply StronglySorted_inv in Srt. destruct Srt as [_ F].
      rewrite Forall_forall in F |- *. intros y Hy.
      eapply downto_trans; [exact L | apply F; exact Hy].
    + exists 0. rewrite Nat.add_0_r. split; [reflexivity|]. repeat constructor.
Qed.

(** The run found at the head is in order once it is turned the right
    way round. *)
Lemma count_run_ordered items :
  Forall str_keyed items ->
  exists n descending,
    count_run items = Ok (n, descending)
    /\ ascending (if descending : bool then rev (firstn n items)
                  else firstn n items).
Proof.
  intros F. destruct items as [|a [|b rest]].
  - exists 0, false. split; [reflexivity|]. constructor.
  - exists 1, false. split; [reflexivity|]. repeat constructor.
  - inversion F as [|? ? Ha F']; subst. inversion F' as [|? ? Hb Hrest]; subst.
    cbn [count_run]. rewrite (lt_str_keyed _ _ Hb Ha).
    destruct (PyStr.ltb (skey b) (skey a)) eqn:L.
    + destruct (run_descending_chain rest b 2 Hb Hrest) as (k & -> & Srt).
      exists (2 + k), true. split; [reflexivity|].
      change (firstn (2 + k) (a :: b :: rest)) with (a :: b :: firstn k rest).
      apply (sorted_weaken (fun x y => downto y x));
        [exact (fun x y => downto_upto y x)|].
      apply sorted_rev. constructor; [exact Srt|].
      constructor; [exact L|].
      apply StronglySorted_inv in Srt. destruct Srt as [_ G].
      rewrite Forall_forall in G |- *. intros y Hy.
      eapply downto_trans; [exact L | apply G; exact Hy].
    + destruct (run_ascending_chain rest b 2 Hb Hrest) as (k & -> & Srt).
      exists (2 + k), false. split; [reflexivity|].
      change (firstn (2 + k) (a :: b :: rest)) with (a :: b :: firstn k rest).
      constructor; [exact Srt|].
      constructor; [exact L|].
      apply StronglySorted_inv in Srt. destruct Srt as [_ G].
      rewrite Forall_forall in G |- *. intros y Hy.
      eapply upto_trans; [exact L | apply G; exact Hy].
Qed.

Lemma half_lt n : 0 < n -> n / 2 < n.
Proof. intros H. apply Nat.div_lt; lia. Qed.

(** Insertion by halving keeps the order. *)
Lemma insert_ordered fuel : forall pivot pre,
  List.length pre < fuel ->
  str_keyed pivot -> Forall str_keyed pre -> ascending pre ->
  exists l, insert fuel pivot pre = Ok l /\ ascending l.
Proof.
  induction fuel as [|fuel IH]; intros pivot pre Hlen Hp Hk Hs; [lia|].
  rewrite insert_step.
  pose proof (firstn_skipn (List.length pre / 2) pre) as Split.
  assert (Hhalf : pre <> [] -> List.length pre / 2 < List.length pre).
  { intros N. apply half_lt. destruct pre; [contradiction|simpl; lia]. }
  pose proof (length_skipn (List.length pre / 2) pre) as Lskip.
  pose proof (length_firstn (List.length pre / 2) pre) as Lfirst.
  remember (List.length pre / 2) as p eqn:Ep. clear Ep.
  remember (firstn p pre) as before eqn:Eb. clear Eb.
  destruct (skipn p pre) as [|x after] eqn:Sk; rewrite ?Sk in *.
  - (* nothing at the middle: the list is empty *)
    assert (pre = []) as ->.
    { destruct pre as [|y pre]; [reflexivity|].
      assert (p < List.length (y :: pre)) by (apply Hhalf; discriminate).
      exfalso. cbn [List.length] in Lskip, H. lia. }
    eexists. split; [reflexivity|]. repeat constructor.
  - subst pre. rewrite length_app in *. simpl in *.
    apply Forall_app in Hk. destruct Hk as [Kb Ka].
    inversion Ka as [|? ? Kx Kafter]; subst.
    apply sorted_app in Hs. destruct Hs as (Sb & Sa & Sba).
    apply StronglySorted_inv in Sa. destruct Sa as [Safter Sx].
    rewrite (lt_str_keyed _ _ Hp Kx).
    destruct (PyStr.ltb (skey pivot) (skey x)) eqn:L.
    + destruct (IH pivot before) as (l & E & Sl); auto; [lia|].
      rewrite E. eexists. split; [reflexivity|].
      apply sorted_app. repeat split; auto.
      * constructor; assumption.
      * pose proof (insert_permutes _ _ _ _ E) as P.
        apply Permutation_sym in P.
        eapply Permutation_Forall; [exact P|].
        assert (Px : upto pivot x) by (apply StringOrderFacts.lt_le; exact L).
        constructor.
        -- constructor; [exact Px|].
           rewrite Forall_forall in Sx |- *. intros y Hy.
           eapply upto_trans; [exact Px | apply Sx; exact Hy].
        -- exact Sba.
    + destruct (IH pivot after) as (l & E & Sl); auto; [lia|].
      rewrite E. eexists. split; [reflexivity|].
      pose proof (insert_permutes _ _ _ _ E) as P.
      apply Permutation_sym in P.
      assert (Xp : upto x pivot) by exact L.
      apply sorted_app. repeat split; auto.
      * constructor; [exact Sl|].
        eapply Permutation_Forall; [exact P|].
        constructor; assumption.
      * rewrite Forall_forall in Sba |- *. intros y Hy.
        specialize (Sba y Hy). inversion Sba as [|? ? Yx Yafter]; subst.
        constructor; [exact Yx|].
        eapply Permutation_Forall; [exact P|].
        constructor; [eapply upto_trans; eassumption | exact Yafter].
Qed.

Lemma binarysort_ordered pending : forall sorted,
  Forall str_keyed sorted -> Forall str_keyed pending -> ascending sorted ->
  exists l, binarysort sorted pending = (Ok tt, l) /\ ascending l.
Proof.
  induction pending as [|pivot rest IH]; intros sorted Ks Kp Hs; cbn [binarysort].
  - exists sorted. split; [reflexivity | exact Hs].
  - inversion Kp as [|? ? Kpivot Krest]; subst.
    destruct (insert_ordered (S (List.length sorted)) pivot sorted)
      as (l & E & Sl); auto.
    rewrite E. apply IH; auto.
    pose proof (insert_permutes _ _ _ _ E) as P. apply Permutation_sym in P.
    eapply Permutation_Forall; [exact P|]. constructor; assumption.
Qed.

Lemma sort_items_ordered items :
  Forall str_keyed items ->
  exists l, sort_items items = (Ok tt, l) /\ ascending l.
Proof.
  intros K. unfold sort_items.
  destruct (List.length items <? 2) eqn:Short.
  - exists items. split; [reflexivity|].
    apply Nat.ltb_lt in Short.
    destruct items as [|a [|b rest]]; [constructor | repeat constructor | simpl in Short; lia].
  - destruct (count_run_ordered items K) as (n & descending & -> & Srun).
    rewrite <- (firstn_skipn n items) in K.
    apply Forall_app in K. destruct K as [Kf Ks].
    apply binarysort_ordered; auto.
    destruct descending; [apply Forall_rev|]; exact Kf.
Qed.

End StringKeys.

Lemma sorted_map {B C} (f : B -> C) (R : C -> C -> Prop) (l : list B) :
  StronglySorted (fun a b => R (f a) (f b)) l -> StronglySorted R (map f l).
Proof.
  induction 1 as [|a l H IH F]; simpl; constructor; auto.
  rewrite Forall_forall in F |- *. intros c Hc.
  apply in_map_iff in Hc. destruct Hc as (b & <- & Hb). auto.
Qed.

Lemma sorted_weaken_on {B} (P : B -> Prop) (R R' : B -> B -> Prop) (l : list B) :
  (forall a b, P a -> P b -> R a b -> R' a b) ->
  Forall P l -> StronglySorted R l -> StronglySorted R' l.
Proof.
  intros W F. induction 1 as [|a l H IH G]; constructor.
  - apply IH. inversion F; assumption.
  - inversion F as [|? ? Pa Pl]; subst.
    rewrite Forall_forall in G, Pl |- *. auto.
Qed.

(** When every key is a string, [l.sort(key=key, reverse=True)] does
    not raise and leaves the list in descending order of the keys. *)
Lemma sort_reverse_ordered {A} (key : A -> value) (l : list A) :
  Forall (fun x => exists s, key x = VStr s) l ->
  exists l',
    sort key true l = (Ok tt, l')
    /\ descending_by key l'
    /\ Permutation l' l.
Proof.
  intros K.
  pose proof (sort_permutes key true l) as P.
  unfold sort in *.
  set (items := map (fun x => (key x, x)) l) in *.
  assert (Inv : Forall (fun it : @item A => fst it = key (snd it) /\ str_keyed it)
                  (rev items)).
  { apply Forall_rev. unfold items. rewrite Forall_map.
    rewrite Forall_forall in K |- *. intros x Hx.
    destruct (K x Hx) as [s E]. unfold str_keyed, skey. simpl. rewrite E. auto. }
  assert (Ks : Forall str_keyed (rev items)).
  { rewrite Forall_forall in Inv |- *. intros it Hit. apply Inv. exact Hit. }
  destruct (sort_items_ordered (rev items) Ks) as (items' & E & Asc).
  pose proof (sort_items_permutes (rev items)) as Q.
  rewrite E in *. simpl in *.
  exists (map snd (rev items')). split; [reflexivity|]. split; [|exact P].
  apply sorted_map.
  assert (Inv' : Forall (fun it : @item A => fst it = key (snd it) /\ str_keyed it)
                   (rev items')).
  { apply Forall_rev. eapply Permutation_Forall; [apply Permutation_sym; exact Q|].
    exact Inv. }
  apply (sorted_weaken_on _ (fun a b => upto b a) _ _) with (2 := Inv').
  - intros a b [Ea _] [Eb _] H. unfold upto, StringOrder.le, skey in H.
    unfold key_text. rewrite <- Ea, <- Eb. exact H.
  - apply sorted_rev. exact Asc.
Qed.

End SortFacts.

(* ================================================================== *)
(** ** The aggregator *)
(* ================================================================== *)

Module AggregatorFacts.
Import JobSearcherAgent Views.
Local Open Scope list_scope.

Lemma insert_by_permutes finish s l :
  Permutation (insert_by finish s l) (s :: l).
Proof.
  induction l as [|x l IH]; simpl; [apply Permutation_refl|].
  destruct (finish x <=? finish s); [|apply Permutation_refl].
  rewrite IH. apply perm_swap.
Qed.

Lemma as_completed_from finish l : forall done,
  Permutation (fold_left (fun done s => insert_by finish s done) l done)
              (done ++ l).
Proof.
  induction l as [|s l IH]; intros done; simpl.
  - rewrite app_nil_r. apply Permutation_refl.
  - rewrite IH, insert_by_permutes. apply Permutation_middle.
Qed.

(** Every task comes out of [as_completed], once. *)
Lemma as_completed_permutes finish l : Permutation (as_completed finish l) l.
Proof. unfold as_completed. apply (as_completed_from finish l []). Qed.

Lemma sources_distinct : NoDup sources.
Proof.
  unfold sources. repeat constructor; simpl; intuition discriminate.
Qed.

Lemma available_distinct clients : NoDup (available clients).
Proof. apply NoDup_filter, sources_distinct. Qed.

Lemma completed_distinct clients finish : NoDup (completed clients finish).
Proof.
  eapply Permutation_NoDup; [apply Permutation_sym, as_completed_permutes|].
  apply available_distinct.
Qed.

Lemma completed_available clients finish s :
  In s (completed clients finish) <-> In s (available clients).
Proof.
  split; apply Permutation_in;
    [|apply Permutation_sym]; apply as_completed_permutes.
Qed.

Lemma available_configured clients s :
  In s (available clients) <-> clients s <> None.
Proof.
  unfold available. rewrite filter_In. split.
  - intros [_ H] N. rewrite N in H. discriminate.
  - intros N. split; [destruct s; simpl; auto|].
    destruct (clients s); [reflexivity|contradiction].
Qed.

Lemma JobSource_value_injective a b :
  JobSource_value a = JobSource_value b -> a = b.
Proof. destruct a, b; simpl; intros H; try reflexivity; discriminate. Qed.

(** The loop over the finished tasks: the results are the contributions
    in order, the failed sources are those whose round raised. *)
Lemma fan_in_folds clients query l : forall st,
  let st' := fold_left (fan_in_step (task_outcome clients query)) l st in
  fi_results st' = fi_results st ++ flat_map (contribution clients query) l
  /\ fi_failed st' = fi_failed st ++ filter (fails clients query) l.
Proof.
  induction l as [|s l IH]; intros st; simpl.
  - rewrite !app_nil_r. split; reflexivity.
  - destruct (IH (fan_in_step (task_outcome clients query) st s)) as [R F].
    rewrite R, F. clear R F IH.
    unfold fan_in_step, contribution, fails, gathered.
    destruct (collect s (task_outcome clients query s)) as [[processed|e] printed];
      simpl; rewrite <- !app_assoc; split; reflexivity.
Qed.

(** A search with a source available returns a response. *)
Lemma search_jobs_returns clients finish query :
  available clients <> [] ->
  exists happened,
    map task_source (submitted happened) = available clients
    /\ (forall e, fst (ListSort.sort sort_key true (merged clients finish query)) = Raise e ->
        In (LogSortError e) (printed happened))
    /\ search_jobs clients finish query
    = (Ok {| query := query;
             results := snd (ListSort.sort sort_key true (merged clients finish query));
             available_sources := map JobSource_value (available clients);
             failed_sources :=
               map JobSource_value
                 (filter (fails clients query) (completed clients finish));
             total_count :=
               List.length
                 (snd (ListSort.sort sort_key true (merged clients finish query))) |},
       happened).
Proof.
  intros N. unfold search_jobs. fold (available clients).
  destruct (available clients) as [|s0 rest] eqn:Av; [contradiction|].
  rewrite <- Av.
  pose proof (fan_in_folds clients query (as_completed finish (available clients))
                {| fi_results := []; fi_failed := []; fi_printed := [] |}) as [R F].
  simpl in R, F.
  change (fun s => fst (_search_on_source clients s query))
    with (task_outcome clients query).
  unfold merged, completed.
  rewrite <- R, <- F.
  destruct (ListSort.sort sort_key true _) as [sorted results'].
  eexists. split; [|split; [|reflexivity]]; simpl.
  - rewrite !map_map. simpl. apply map_id.
  - intros e ->. apply in_or_app. right. left. reflexivity.
Qed.

End AggregatorFacts.

Module RoundFacts.
Import JobSearcherAgent Views RoundViews AggregatorFacts.
Local Open Scope list_scope.

(** The task of a source is the call of its client. *)
Lemma task_of_client clients request s client :
  clients s = Some client ->
  task_outcome clients request s
  = fst (client (job_title request) (req_location request) (radius request)
           (keywords request) (limit_per_source request)).
Proof.
  intros H. unfold task_outcome, _search_on_source. rewrite H.
  destruct (client _ _ _ _ _) as [[found|e] did]; reflexivity.
Qed.

Lemma returned_attempted clients request s found :
  task_outcome clients request s = Ok found -> attempted clients s.
Proof.
  intros H N. unfold task_outcome, _search_on_source in H.
  rewrite N in H. discriminate H.
Qed.

Lemma attempted_available clients s :
  attempted clients s <-> In s (available clients).
Proof. symmetry. apply available_configured. Qed.

(** Going through what a task returned raises exactly on [None], a
    boolean and a number. *)
Lemma iterate_raises_iff found :
  (exists e, iterate found = Raise e) <-> not_iterable found.
Proof.
  destruct found as [[]|l]; simpl; split;
    solve [ intros _; exact I
          | intros _; eexists; reflexivity
          | intros [e H]; discriminate H
          | intros [] ].
Qed.

(** So does the round of the loop, for every source. *)
Lemma collect_raises_iff s found :
  (exists e, fst (collect s (Ok found)) = Raise e) <-> not_iterable found.
Proof.
  rewrite <- iterate_raises_iff.
  destruct s; simpl; try reflexivity.
  unfold _process_france_travail_results.
  destruct (iterate found) as [items|e]; simpl.
  - destruct (process_each items) as [postings said]. simpl.
    split; intros [e H]; discriminate H.
  - split; intros _; exists e; reflexivity.
Qed.

Lemma fails_iff clients request s :
  fails clients request s = true
  <-> (exists e, task_outcome clients request s = Raise e)
      \/ (exists found,
            task_outcome clients request s = Ok found /\ not_iterable found).
Proof.
  unfold fails, gathered.
  destruct (task_outcome clients request s) as [found|e] eqn:T.
  - pose proof (collect_raises_iff s found) as C.
    destruct (fst (collect s (Ok found))) as [postings|e'] eqn:G; simpl; split.
    + discriminate.
    + intros [[e H]|(found' & H & N)]; [discriminate H|].
      inversion H; subst found'. apply C in N. destruct N as [e N]. discriminate N.
    + intros _. right. exists found. split; [reflexivity|].
      apply C. exists e'. reflexivity.
    + reflexivity.
  - simpl. split; [|reflexivity]. intros _. left. exists e. reflexivity.
Qed.

(** The sources listed as failed are those that fail. *)
Lemma failing_listed clients request s :
  In s (available clients) /\ fails clients request s = true
  <-> source_fails clients request s.
Proof.
  rewrite fails_iff, <- attempted_available. unfold source_fails, task_raises.
  split.
  - intros [A [R|R]]; [left; split; assumption | right; exact R].
  - intros [[A R]|(found & T & N)].
    + split; [exact A | left; exact R].
    + split; [eapply returned_attempted; eassumption|].
      right. exists found. split; assumption.
Qed.

Lemma fails_or_succeeds clients request s :
  attempted clients s ->
  fails clients request s = false -> source_succeeds clients request s.
Proof.
  intros A F. unfold source_succeeds.
  destruct (task_outcome clients request s) as [found|e] eqn:T.
  - exists found. split; [reflexivity|]. intros N.
    assert (X : fails clients request s = true).
    { apply fails_iff. right. exists found. split; assumption. }
    rewrite X in F. discriminate F.
  - assert (X : fails clients request s = true).
    { apply fails_iff. left. exists e. exact T. }
    rewrite X in F. discriminate F.
Qed.

Lemma succeeds_not_fails clients request s :
  source_succeeds clients request s -> ~ source_fails clients request s.
Proof.
  intros (found & T & N) [[_ [e R]]|(found' & T' & N')].
  - rewrite T in R. discriminate R.
  - rewrite T in T'. inversion T'; subst found'. contradiction.
Qed.

(** What a round adds to the results. *)
Lemma contribution_brought clients request s :
  contribution clients request s = brought clients request s.
Proof.
  unfold contribution, gathered, brought.
  destruct (task_outcome clients request s) as [found|e]; [|reflexivity].
  destruct s; simpl; try (destruct (iterate found); reflexivity).
  unfold _process_france_travail_results.
  destruct (iterate found) as [items|e]; [|reflexivity].
  rewrite <- NormaliseFacts.process_each_kept.
  destruct (process_each items) as [postings said]. reflexivity.
Qed.

Lemma merged_brought clients finish request :
  Permutation (merged clients finish request)
              (flat_map (brought clients request) (available clients)).
Proof.
  unfold merged.
  rewrite (flat_map_ext _ _ (contribution_brought clients request)).
  apply Permutation_flat_map, as_completed_permutes.
Qed.

Lemma brought_succeeds clients request s x :
  In x (brought clients request s) -> source_succeeds clients request s.
Proof.
  unfold brought, source_succeeds.
  destruct (task_outcome clients request s) as [found|e]; [|intros []].
  destruct (iterate found) as [items|e] eqn:I; [|intros []].
  intros _. exists found. split; [reflexivity|].
  intros N. apply iterate_raises_iff in N. destruct N as [e N].
  rewrite I in N. discriminate N.
Qed.

(** A list without repetition whose only member is [f]. *)
Lemma only_member {X} (f : X) (l : list X) :
  NoDup l -> (forall x, In x l <-> x = f) -> l = [f].
Proof.
  intros N H. destruct l as [|a l].
  - exfalso. apply (H f). reflexivity.
  - assert (a = f) as -> by (apply H; left; reflexivity).
    f_equal. destruct l as [|b l]; [reflexivity|].
    exfalso. inversion N as [|? ? Nf _]; subst. apply Nf.
    assert (b = f) as -> by (apply H; right; left; reflexivity).
    left. reflexivity.
Qed.

End RoundFacts.

Module AggregatorClaims.
Import JobSearcherAgent Views Samples AggregatorFacts.
Import RoundViews RoundSamples RoundFacts.
Local Open Scope list_scope.

(** *** No source *)

(** C1. When no client is configured, the search raises the error of
    the missing source (a ValueError with its own message) and nothing
    else happens: no task is submitted, so no request is sent, and no
    response is built. *)
Theorem C1_no_source_available :
  forall clients finish query,
    (forall s, clients s = None) ->
    available clients = []
    /\ search_jobs clients finish query
       = (Raise NoSourceAvailableError, {| submitted := []; printed := [] |})
    /\ NoSourceAvailableError = ValueError no_source
    /\ network_calls (snd (search_jobs clients finish query)) = [].
Proof.
  intros clients finish query H.
  assert (A : available clients = []).
  { unfold available, sources. simpl. rewrite !H. reflexivity. }
  assert (E : search_jobs clients finish query
              = (Raise NoSourceAvailableError, {| submitted := []; printed := [] |})).
  { unfold search_jobs. fold (available clients). rewrite A. reflexivity. }
  repeat split; auto. rewrite E. reflexivity.
Qed.

Lemma C1_witness :
  (forall s, unconfigured s = None)
  /\ search_jobs unconfigured at_once any_query
     = (Raise NoSourceAvailableError, {| submitted := []; printed := [] |}).
Proof.
  split; [reflexivity|].
  exact (proj1 (proj2 (C1_no_source_available unconfigured at_once any_query
                         (fun s => eq_refl)))).
Defined.

(** *** The two lists of sources *)

Lemma one_failing_search :
  exists response happened,
    search_jobs one_failing at_once any_query = (Ok response, happened)
    /\ available_sources response = ["france_travail"]
    /\ failed_sources response = ["france_travail"]
    /\ results response = [].
Proof. do 2 eexists. split; [vm_compute; reflexivity|]. repeat split. Qed.

Lemma C3_counterexample : ~ lists_disjoint.
Proof.
  intros H.
  destruct one_failing_search as (response & happened & E & A & F & _).
  apply (H _ _ _ _ _ E "france_travail"); [rewrite A | rewrite F]; left; reflexivity.
Qed.

Lemma response_of clients finish request response happened :
  search_jobs clients finish request = (Ok response, happened) ->
  available clients <> []
  /\ results response = snd (ListSort.sort sort_key true (merged clients finish request))
  /\ available_sources response = map JobSource_value (available clients)
  /\ failed_sources response
     = map JobSource_value (filter (fails clients request) (completed clients finish))
  /\ total_count response = List.length (results response)
  /\ query response = request
  /\ map task_source (submitted happened) = available clients
  /\ (forall e, fst (ListSort.sort sort_key true (merged clients finish request)) = Raise e ->
        In (LogSortError e) (printed happened)).
Proof.
  intros E.
  assert (N : available clients <> []).
  { intros A. unfold search_jobs in E. fold (available clients) in E.
    rewrite A in E. discriminate E. }
  destruct (search_jobs_returns clients finish request N) as (h & S & L & E').
  rewrite E' in E. inversion E; subst. simpl. repeat split; auto.
Qed.

Lemma in_values s l : In (JobSource_value s) (map JobSource_value l) <-> In s l.
Proof.
  rewrite in_map_iff. split.
  - intros (s' & E & I). apply JobSource_value_injective in E. subst. exact I.
  - intros I. exists s. auto.
Qed.

Lemma values_distinct l : NoDup l -> NoDup (map JobSource_value l).
Proof.
  induction 1 as [|s l N _ IH]; simpl; constructor; [|exact IH].
  rewrite in_values. exact N.
Qed.

(** C3, amended. In every response, available_sources lists the
    sources that were attempted (those with a client, each once, in the
    order of the dict), whether they failed or not; failed_sources
    lists, each once, those of them that failed: the sources whose task
    raised (the task of a source raises what the search of its client
    raises) and those whose task returned what cannot be gone through
    (None, a boolean, a number), which is where the conversion of the
    round raises. So failed_sources is included in available_sources,
    the sources that succeeded are those of available_sources that are
    not in failed_sources, and the two lists share no source exactly
    when no source failed. *)
Theorem C3_failed_among_available :
  forall clients finish query response happened,
    search_jobs clients finish query = (Ok response, happened) ->
    available_sources response = map JobSource_value (available clients)
    /\ map task_source (submitted happened) = available clients
    /\ NoDup (available_sources response)
    /\ NoDup (failed_sources response)
    /\ (forall x, In x (failed_sources response) -> In x (available_sources response))
    /\ (forall s, In (JobSource_value s) (failed_sources response)
                  <-> In s (available clients) /\ fails clients query s = true)
    /\ (forall s, In s (available clients) ->
                  ~ In (JobSource_value s) (failed_sources response) ->
                  exists postings, gathered clients query s = Ok postings)
    /\ ((forall x, In x (available_sources response) ->
                   ~ In x (failed_sources response))
        <-> failed_sources response = [])
    /\ (forall s, In (JobSource_value s) (available_sources response)
                  <-> clients s <> None)
    /\ (forall s e, clients s <> None ->
                    task_outcome clients query s = Raise e ->
                    In (JobSource_value s) (failed_sources response))
    /\ (forall s found, task_outcome clients query s = Ok found ->
                        not_iterable found ->
                        In (JobSource_value s) (failed_sources response))
    /\ (forall s found, task_outcome clients query s = Ok found ->
                        ~ not_iterable found ->
                        In (JobSource_value s) (available_sources response)
                        /\ ~ In (JobSource_value s) (failed_sources response))
    /\ (forall s, In (JobSource_value s) (failed_sources response) ->
                  clients s <> None
                  /\ ((exists e, task_outcome clients query s = Raise e)
                      \/ (exists found, task_outcome clients query s = Ok found
                                        /\ not_iterable found)))
    /\ (forall s, clients s <> None ->
                  ~ In (JobSource_value s) (failed_sources response) ->
                  exists found, task_outcome clients query s = Ok found
                                /\ ~ not_iterable found)
    /\ (forall s client,
          clients s = Some client ->
          task_outcome clients query s
          = fst (client (job_title query) (req_location query) (radius query)
                   (keywords query) (limit_per_source query)))
    /\ (forall s found,
          not_iterable found
          <-> exists e, fst (collect s (Ok found)) = Raise e).
Proof.
  intros clients finish query response happened E.
  destruct (response_of _ _ _ _ _ E) as (N & R & A & F & T & Q & S & _).
  assert (Fin : forall s, In (JobSource_value s) (failed_sources response)
                          <-> In s (available clients) /\ fails clients query s = true).
  { intros s. rewrite F, in_values, filter_In, completed_available. reflexivity. }
  assert (Sub : forall x, In x (failed_sources response) ->
                          In x (available_sources response)).
  { intros x I. rewrite F in I. apply in_map_iff in I.
    destruct I as (s & <- & I). rewrite A. apply in_values.
    apply filter_In in I. destruct I as [I _].
    apply (completed_available clients finish s). exact I. }
  assert (Why : forall s, In (JobSource_value s) (failed_sources response)
                          <-> source_fails clients query s).
  { intros s. rewrite Fin. apply failing_listed. }
  split; [exact A|]. split; [exact S|].
  split; [rewrite A; apply values_distinct, available_distinct|].
  split; [rewrite F; apply values_distinct, NoDup_filter, completed_distinct|].
  split; [exact Sub|]. split; [exact Fin|]. split.
  { intros s I NF. unfold fails in Fin.
    destruct (gathered clients query s) as [postings|e] eqn:G;
      [exists postings; reflexivity|].
    exfalso. apply NF. apply Fin. rewrite G. auto. }
  split.
  { split.
    - intros D. destruct (failed_sources response) as [|x l] eqn:L; [reflexivity|].
      exfalso. apply (D x); [apply Sub|]; left; reflexivity.
    - intros -> x _ []. }
  split.
  { intros s. rewrite A, in_values. apply available_configured. }
  split.
  { intros s e C Te. apply Why. left. split; [exact C|]. exists e. exact Te. }
  split.
  { intros s found Tf Nf. apply Why. right. exists found. split; assumption. }
  split.
  { intros s found Tf Nf. split.
    - rewrite A, in_values. apply attempted_available.
      eapply returned_attempted. exact Tf.
    - intros I. apply Why in I. revert I. apply succeeds_not_fails.
      exists found. split; assumption. }
  split.
  { intros s I. apply Why in I. destruct I as [[C Rs]|(found & Tf & Nf)].
    - split; [exact C | left; exact Rs].
    - split; [eapply returned_attempted; exact Tf|].
      right. exists found. split; assumption. }
  split.
  { intros s C NF. apply fails_or_succeeds; [exact C|].
    destruct (fails clients query s) eqn:Fs; [|reflexivity].
    exfalso. apply NF, Fin. split; [|exact Fs].
    apply attempted_available. exact C. }
  split.
  { intros s client C. apply task_of_client. exact C. }
  intros s found. symmetry. apply collect_raises_iff.
Qed.

Lemma C3_witness :
  exists response happened,
    search_jobs three_sources at_once any_query = (Ok response, happened)
    /\ available_sources response = ["france_travail"; "indeed"; "glassdoor"]
    /\ failed_sources response = ["glassdoor"]
    /\ (forall x, In x (failed_sources response) -> In x (available_sources response)).
Proof.
  exists (match fst (search_jobs three_sources at_once any_query) with
          | Ok response => response
          | Raise _ => mkJobSearchResponse any_query [] [] [] 0
          end),
         (snd (search_jobs three_sources at_once any_query)).
  assert (E : search_jobs three_sources at_once any_query
              = (Ok (match fst (search_jobs three_sources at_once any_query) with
                     | Ok response => response
                     | Raise _ => mkJobSearchResponse any_query [] [] [] 0
                     end),
                 snd (search_jobs three_sources at_once any_query)))
    by (vm_compute; reflexivity).
  split; [exact E|]. split; [vm_compute; reflexivity|].
  split; [vm_compute; reflexivity|].
  exact (proj1 (proj2 (proj2 (proj2 (proj2
           (C3_failed_among_available _ _ _ _ _ E)))))).
Defined.

(** *** One source fails *)

(** The answer [{"resultats": null}] makes the France Travail task
    return [None]; with Glassdoor raising and Indeed returning a
    posting, two sources are listed as failed. *)
Lemma null_sources_search :
  task_outcome null_sources any_query FRANCE_TRAVAIL = Ok (PValue VNone)
  /\ task_outcome null_sources any_query GLASSDOOR = Raise RequestException
  /\ task_outcome null_sources any_query INDEED
     = Ok (PList [OPosting (posting "c" "2024-02-15")])
  /\ exists response happened,
       search_jobs null_sources at_once any_query = (Ok response, happened)
       /\ failed_sources response = ["france_travail"; "glassdoor"]
       /\ results response = [OPosting (posting "c" "2024-02-15")].
Proof.
  split; [vm_compute; reflexivity|]. split; [reflexivity|].
  split; [reflexivity|].
  do 2 eexists. split; [vm_compute; reflexivity|]. split; reflexivity.
Qed.

Lemma C2_counterexample : ~ one_failure_as_stated.
Proof.
  intros H.
  destruct null_sources_search as (Tf & Tg & Ti & response & happened & E & F & _).
  destruct (H null_sources at_once any_query GLASSDOOR)
    as (response' & happened' & E' & F').
  - split; [discriminate|]. exists RequestException. exact Tg.
  - intros s [A [e R]]. destruct s.
    + rewrite Tf in R. discriminate R.
    + exfalso. apply A. reflexivity.
    + rewrite Ti in R. discriminate R.
    + reflexivity.
  - exists INDEED. split; [discriminate|].
    eexists. split; [exact Ti|]. intros [].
  - rewrite E in E'. inversion E'; subst response'.
    rewrite F in F'. discriminate F'.
Qed.

(** C2, amended. A search with at least one attempted source does not
    raise, whatever its tasks do. In the response, failed_sources
    holds, each once, the sources that failed and no other: those whose
    task raised and those whose task returned what cannot be gone
    through (None, a boolean, a number: France Travail answering
    [{"resultats": null}] is one); the results are, in some order, the
    postings of the sources that succeeded, all of them and nothing
    else, so that what a source brings is not changed by the failure of
    another. In particular, when one source fails and no other does,
    and so when the task of one source raises and every other attempted
    source succeeds, failed_sources is the identifier of that source
    and nothing else. *)
Theorem C2_one_failure_is_isolated :
  forall clients finish request,
    (exists s, attempted clients s) ->
    exists response happened,
      search_jobs clients finish request = (Ok response, happened)
      /\ NoDup (failed_sources response)
      /\ (forall x, In x (failed_sources response) ->
                    exists s, x = JobSource_value s)
      /\ (forall s, In (JobSource_value s) (failed_sources response)
                    <-> source_fails clients request s)
      /\ Permutation (results response)
                     (flat_map (brought clients request) (available clients))
      /\ (forall x, In x (results response)
                    <-> exists s, source_succeeds clients request s
                                  /\ In x (brought clients request s))
      /\ total_count response = List.length (results response)
      /\ (forall f, source_fails clients request f ->
                    (forall s, source_fails clients request s -> s = f) ->
                    failed_sources response = [JobSource_value f])
      /\ (forall f, task_raises clients request f ->
                    (forall s, attempted clients s -> s <> f ->
                               source_succeeds clients request s) ->
                    failed_sources response = [JobSource_value f]).
Proof.
  intros clients finish request [s0 A0].
  assert (N : available clients <> []).
  { apply attempted_available in A0. intros X. rewrite X in A0. contradiction. }
  destruct (search_jobs_returns clients finish request N) as (happened & _ & _ & E).
  pose proof (SortFacts.sort_permutes sort_key true (merged clients finish request)) as P.
  pose proof (merged_brought clients finish request) as B.
  set (failed := filter (fails clients request) (completed clients finish)) in *.
  assert (D : NoDup failed) by apply NoDup_filter, completed_distinct.
  assert (Why : forall s, In s failed <-> source_fails clients request s).
  { intros s. unfold failed. rewrite filter_In, completed_available.
    apply failing_listed. }
  assert (One : forall f, source_fails clients request f ->
                          (forall s, source_fails clients request s -> s = f) ->
                          map JobSource_value failed = [JobSource_value f]).
  { intros f Ff U. rewrite (only_member f failed D); [reflexivity|].
    intros s. rewrite Why. split; [apply U | intros ->; exact Ff]. }
  eexists. exists happened. split; [exact E|]. simpl.
  split; [apply values_distinct; exact D|].
  split.
  { intros x I. apply in_map_iff in I. destruct I as (s & <- & _).
    exists s. reflexivity. }
  split; [intros s; rewrite in_values; apply Why|].
  split; [rewrite P; exact B|].
  split.
  { intros x. split.
    - intros I. apply (Permutation_in _ P), (Permutation_in _ B) in I.
      apply in_flat_map in I. destruct I as (s & _ & I).
      exists s. split; [eapply brought_succeeds; exact I | exact I].
    - intros (s & (found & T & _) & I).
      apply (Permutation_in _ (Permutation_sym P)),
            (Permutation_in _ (Permutation_sym B)).
      apply in_flat_map. exists s. split; [|exact I].
      apply attempted_available. eapply returned_attempted. exact T. }
  split; [reflexivity|].
  split; [exact One|].
  intros f Rf Others. apply One; [left; exact Rf|].
  intros s Fs.
  destruct (JobSource_eqb s f) eqn:Q;
    [destruct s, f; simpl in Q; try discriminate; reflexivity|].
  assert (X : s <> f) by (intros ->; destruct f; discriminate).
  assert (As : attempted clients s).
  { apply attempted_available.
    exact (proj1 (proj2 (failing_listed clients request s) Fs)). }
  exfalso. exact (succeeds_not_fails _ _ _ (Others s As X) Fs).
Qed.

Lemma C2_witness :
  (exists s, attempted null_sources s)
  /\ task_raises null_sources any_query GLASSDOOR
  /\ source_fails null_sources any_query FRANCE_TRAVAIL
  /\ source_succeeds null_sources any_query INDEED
  /\ (exists response happened,
        search_jobs null_sources at_once any_query = (Ok response, happened)
        /\ failed_sources response = ["france_travail"; "glassdoor"]
        /\ results response = [OPosting (posting "c" "2024-02-15")]
        /\ (forall s, In (JobSource_value s) (failed_sources response)
                      <-> source_fails null_sources any_query s)
        /\ total_count response = 1).
Proof.
  assert (A : exists s, attempted null_sources s) by (exists INDEED; discriminate).
  split; [exact A|].
  split; [split; [discriminate | exists RequestException; reflexivity]|].
  split.
  { right. exists (PValue VNone). split; [vm_compute; reflexivity | exact I]. }
  split.
  { eexists. split; [reflexivity | intros []]. }
  destruct (C2_one_failure_is_isolated null_sources at_once any_query A)
    as (response & happened & E & _ & _ & W & _ & _ & T & _).
  exists response, happened. split; [exact E|].
  assert (R : failed_sources response = ["france_travail"; "glassdoor"]
              /\ results response = [OPosting (posting "c" "2024-02-15")]).
  { revert E. vm_compute. intros E. inversion E; subst. split; reflexivity. }
  destruct R as [F R].
  split; [exact F|]. split; [exact R|]. split; [exact W|].
  rewrite T, R. reflexivity.
Defined.

(** *** The order of the results *)

Lemma dated_key job : dated job -> exists s, sort_key job = VStr s.
Proof.
  destruct job as [j|v]; simpl; [|intros _; eexists; reflexivity].
  intros [[s E]|E]; rewrite E; simpl.
  - destruct (negb (String.eqb s "")); eexists; reflexivity.
  - eexists; reflexivity.
Qed.

(** Whatever the sort does, the response holds every merged posting. *)
Lemma results_complete clients finish request response happened :
  search_jobs clients finish request = (Ok response, happened) ->
  Permutation (results response) (merged clients finish request)
  /\ total_count response = List.length (merged clients finish request).
Proof.
  intros E. destruct (response_of _ _ _ _ _ E) as (_ & R & _ & _ & T & _).
  rewrite T, R. pose proof (SortFacts.sort_permutes sort_key true
                              (merged clients finish request)) as P.
  split; [exact P | apply Permutation_length; exact P].
Qed.

(** A search with a source available never raises, whatever its tasks
    and the sort do. *)
Lemma search_never_raises clients finish request :
  available clients <> [] ->
  exists response happened,
    search_jobs clients finish request = (Ok response, happened).
Proof.
  intros N. destruct (search_jobs_returns clients finish request N)
    as (happened & _ & _ & E).
  eexists. exists happened. exact E.
Qed.

(** When the posting dates are strings (or missing), the results come
    newest first, a missing date counting as the empty string. *)
Lemma results_newest_first clients finish request response happened :
  search_jobs clients finish request = (Ok response, happened) ->
  Forall dated (merged clients finish request) ->
  newest_first (results response)
  /\ fst (ListSort.sort sort_key true (merged clients finish request)) = Ok tt.
Proof.
  intros E D. destruct (response_of _ _ _ _ _ E) as (_ & R & _).
  destruct (SortFacts.sort_reverse_ordered sort_key (merged clients finish request))
    as (l' & S & O & _).
  - rewrite Forall_forall in D |- *. intros x I. apply dated_key, D, I.
  - rewrite R, S. split; [exact O | reflexivity].
Qed.

(** The scenario of the specification: the dates "2024-01-10",
    "2024-03-01", "2024-02-15", "2024-01-20" from two sources, a third
    source failing. *)
Lemma scenario_newest_first :
  exists response happened,
    search_jobs three_sources at_once any_query = (Ok response, happened)
    /\ map date_of (merged three_sources at_once any_query)
       = [VStr "2024-01-10"; VStr "2024-03-01"; VStr "2024-02-15"; VStr "2024-01-20"]
    /\ option_map date_of (hd_error (results response)) = Some (VStr "2024-03-01")
    /\ total_count response = 4
    /\ failed_sources response = ["glassdoor"].
Proof. do 2 eexists. split; [vm_compute; reflexivity|]. repeat split. Qed.

Lemma undated_last :
  exists response happened,
    search_jobs undated_sources at_once any_query = (Ok response, happened)
    /\ map date_of (results response)
       = [VStr "2024-03-01"; VStr "2024-01-10"; VStr ""; VNone]
    /\ printed happened = [].
Proof. do 2 eexists. split; [vm_compute; reflexivity|]. repeat split. Qed.

(** C4, where the code departs from it. The sort compares a number with
    a string and raises; the search prints the error and returns a
    response with the four postings, but not in the order of the merge:
    the list was sorted in place and the postings "c" and "d" had
    already changed places when the comparison raised. *)
Theorem C4_failed_sort_leaves_list_reordered :
  exists response happened,
    search_jobs mixed_agent at_once any_query = (Ok response, happened)
    /\ map date_of (merged mixed_agent at_once any_query)
       = [VInt 20240105; VStr "2024-03-01"; VStr "2024-01-10"; VStr "2024-02-15"]
    /\ fst (ListSort.sort sort_key true (merged mixed_agent at_once any_query))
       = Raise TypeError
    /\ In (LogSortError TypeError) (printed happened)
    /\ map date_of (results response)
       = [VInt 20240105; VStr "2024-03-01"; VStr "2024-02-15"; VStr "2024-01-10"]
    /\ results response <> merged mixed_agent at_once any_query
    /\ Permutation (results response) (merged mixed_agent at_once any_query).
Proof.
  do 2 eexists. split; [vm_compute; reflexivity|].
  split; [vm_compute; reflexivity|]. split; [vm_compute; reflexivity|].
  split; [vm_compute; repeat (first [left; reflexivity | right])|].
  split; [reflexivity|]. split.
  - intros H. apply (f_equal (map date_of)) in H. vm_compute in H. discriminate H.
  - apply (SortFacts.sort_permutes sort_key true
             (merged mixed_agent at_once any_query)).
Qed.

End AggregatorClaims.

(* ================================================================== *)
(** * Further properties of the code *)
(* ================================================================== *)

(* ================================================================== *)
(** ** Strings and patterns *)
(* ================================================================== *)

Module TextFacts.
Import TextViews.

Lemma rstrip_idempotent s : PyStr.rstrip (PyStr.rstrip s) = PyStr.rstrip s.
Proof.
  induction s as [|c s IH]; [reflexivity|].
  simpl. destruct (PyStr.rstrip s) as [|c' r] eqn:R.
  - destruct (PyStr.is_space c) eqn:Sp; simpl; [reflexivity|].
    rewrite Sp. reflexivity.
  - simpl in IH |- *. rewrite IH. reflexivity.
Qed.

Lemma lstrip_solid s : starts_solid (PyStr.lstrip s).
Proof.
  induction s as [|c s IH]; simpl; [exact I|].
  destruct (PyStr.is_space c) eqn:Sp; [exact IH | exact Sp].
Qed.

Lemma lstrip_of_solid s : starts_solid s -> PyStr.lstrip s = s.
Proof. destruct s as [|c s]; simpl; [reflexivity|]. intros ->. reflexivity. Qed.

Lemma rstrip_solid s : starts_solid s -> starts_solid (PyStr.rstrip s).
Proof.
  destruct s as [|c s]; simpl; [auto|]. intros Sp.
  destruct (PyStr.rstrip s); [rewrite Sp|]; exact Sp.
Qed.

Lemma strip_idempotent s : stripped (PyStr.strip s).
Proof.
  unfold stripped, PyStr.strip.
  rewrite (lstrip_of_solid (PyStr.rstrip (PyStr.lstrip s))).
  - apply rstrip_idempotent.
  - apply rstrip_solid, lstrip_solid.
Qed.

Lemma strip_after_space s : PyStr.strip (" " ++ s) = PyStr.strip s.
Proof. reflexivity. Qed.

Lemma lstrip_comma_free s : comma_free s -> comma_free (PyStr.lstrip s).
Proof.
  unfold comma_free. induction s as [|c s IH]; simpl; [auto|].
  intros H. apply orb_false_iff in H. destruct H as [H1 H2].
  destruct (PyStr.is_space c); [auto|]. simpl. rewrite H1, H2. reflexivity.
Qed.

Lemma rstrip_comma_free s : comma_free s -> comma_free (PyStr.rstrip s).
Proof.
  unfold comma_free. induction s as [|c s IH]; simpl; [auto|].
  intros H. apply orb_false_iff in H. destruct H as [H1 H2].
  specialize (IH H2).
  destruct (PyStr.rstrip s) as [|c' r].
  - destruct (PyStr.is_space c); simpl; [reflexivity|].
    rewrite H1. reflexivity.
  - simpl in IH |- *. rewrite H1, IH. reflexivity.
Qed.

Lemma strip_comma_free s : comma_free s -> comma_free (PyStr.strip s).
Proof. intros H. apply rstrip_comma_free, lstrip_comma_free, H. Qed.

(** The pieces of [split] hold no comma, and there is one more piece
    than there are commas. *)
Lemma split_comma_free s :
  comma_free (fst (PyStr.split_comma s))
  /\ Forall comma_free (snd (PyStr.split_comma s))
  /\ List.length (snd (PyStr.split_comma s)) = commas s.
Proof.
  unfold comma_free. induction s as [|c s (IH1 & IH2 & IH3)]; simpl.
  - repeat split; constructor.
  - destruct (PyStr.split_comma s) as [hd tl]. simpl in *.
    destruct (Ascii.eqb c ","%char) eqn:E; simpl.
    + repeat split; [constructor; assumption | lia].
    + rewrite E, IH1. repeat split; assumption.
Qed.

Lemma split_pieces s :
  Forall comma_free (Enrichment.split s)
  /\ List.length (Enrichment.split s) = S (commas s).
Proof.
  unfold Enrichment.split.
  destruct (split_comma_free s) as (H1 & H2 & H3).
  destruct (PyStr.split_comma s) as [hd tl]. simpl in *.
  split; [constructor; assumption | lia].
Qed.

(** [split] undoes [join]. *)
Lemma split_comma_app x rest :
  comma_free x ->
  PyStr.split_comma (x ++ String ","%char rest)
  = (x, fst (PyStr.split_comma rest) :: snd (PyStr.split_comma rest)).
Proof.
  unfold comma_free. induction x as [|c x IH]; simpl.
  - intros _. destruct (PyStr.split_comma rest). reflexivity.
  - intros H. apply orb_false_iff in H. destruct H as [H1 H2].
    rewrite (IH H2). rewrite H1. reflexivity.
Qed.

Lemma split_comma_single x :
  comma_free x -> PyStr.split_comma x = (x, []).
Proof.
  unfold comma_free. induction x as [|c x IH]; simpl; [reflexivity|].
  intros H. apply orb_false_iff in H. destruct H as [H1 H2].
  rewrite (IH H2), H1. reflexivity.
Qed.

Lemma strip_split_join l :
  l <> [] -> Forall comma_free l -> Forall stripped l ->
  map PyStr.strip (Enrichment.split (PyStr.join ", " l)) = l.
Proof.
  unfold Enrichment.split.
  induction l as [|x rest IH]; [contradiction|].
  intros _ F S. inversion F as [|? ? Fx Frest]; subst.
  inversion S as [|? ? Sx Srest]; subst.
  destruct rest as [|y rest'].
  - simpl. rewrite (split_comma_single x Fx). simpl. rewrite Sx. reflexivity.
  - assert (N : y :: rest' <> []) by discriminate.
    specialize (IH N Frest Srest).
    change (PyStr.join ", " (x :: y :: rest'))
      with (x ++ String ","%char (String " "%char (PyStr.join ", " (y :: rest')))).
    rewrite (split_comma_app x _ Fx).
    remember (PyStr.join ", " (y :: rest')) as J.
    simpl. destruct (PyStr.split_comma J) as [hd tl]. simpl in *.
    rewrite Sx. f_equal.
    change (PyStr.strip (String " " hd)) with (PyStr.strip hd).
    exact IH.
Qed.

End TextFacts.

Module PatternFacts.
Import TextViews.

Lemma take_length n : forall s, String.length (PyStr.take n s) <= n.
Proof.
  induction n as [|n IH]; intros [|c s]; simpl; try lia.
  specialize (IH s). lia.
Qed.

Lemma take_whole n : forall s, String.length s = n -> PyStr.take n s = s.
Proof.
  induction n as [|n IH]; intros [|c s]; simpl; intros H; try reflexivity;
    try discriminate. rewrite IH; [reflexivity | lia].
Qed.

Lemma drop_whole n : forall s, String.length s = n -> PyStr.drop n s = "".
Proof.
  induction n as [|n IH]; intros [|c s]; simpl; intros H; try reflexivity;
    try discriminate. apply IH. lia.
Qed.

Lemma take_short n : forall s,
  String.length (PyStr.take n s) = n -> n <= String.length s.
Proof.
  induction n as [|n IH]; intros [|c s]; simpl; intros H; try lia.
  specialize (IH s). lia.
Qed.

Lemma take_take_length n m : forall s,
  n <= m -> String.length (PyStr.take m s) = m ->
  String.length (PyStr.take n (PyStr.take m s)) = n.
Proof.
  revert m. induction n as [|n IH]; intros m s L H.
  - destruct (PyStr.take m s); reflexivity.
  - destruct m as [|m]; [lia|]. destruct s as [|c s]; simpl in *; [discriminate|].
    rewrite IH; [reflexivity | lia | lia].
Qed.

Lemma all_chars_take f n : forall s,
  PyStr.all_chars f s = true -> PyStr.all_chars f (PyStr.take n s) = true.
Proof.
  induction n as [|n IH]; intros [|c s]; simpl; auto.
  intros H. apply andb_prop in H. destruct H as [H1 H2].
  rewrite H1, IH; auto.
Qed.

(** What the postal pattern finds is five decimal digits. *)
Lemma match_postal_here_five prev s g :
  PyStr.match_postal_here prev s = Some g ->
  String.length g = 5 /\ decimal g.
Proof.
  unfold PyStr.match_postal_here, decimal.
  destruct (negb _ && (String.length (PyStr.take 5 s) =? 5)
            && PyStr.all_chars PyStr.is_decimal (PyStr.take 5 s) && negb _) eqn:E;
    [|discriminate].
  intros H; inversion H; subst.
  apply andb_prop in E. destruct E as [E _].
  apply andb_prop in E. destruct E as [E D].
  apply andb_prop in E. destruct E as [_ L].
  apply Nat.eqb_eq in L. split; assumption.
Qed.

Lemma search_postal_from_five s : forall prev g,
  PyStr.search_postal_from prev s = Some g ->
  String.length g = 5 /\ decimal g.
Proof.
  induction s as [|c s IH]; intros prev g; simpl;
    destruct (PyStr.match_postal_here prev _) eqn:M; intros H;
    try discriminate;
    try (inversion H; subst; eapply match_postal_here_five; eassumption).
  eapply IH; eassumption.
Qed.

Lemma search_postal_five s g :
  PyStr.search_postal s = Some g -> String.length g = 5 /\ decimal g.
Proof. apply search_postal_from_five. Qed.

(** Five decimal digits are found in themselves. *)
Lemma search_postal_itself g :
  String.length g = 5 -> decimal g -> PyStr.search_postal g = Some g.
Proof.
  intros L D. unfold PyStr.search_postal.
  assert (M : PyStr.match_postal_here None g = Some g).
  { unfold PyStr.match_postal_here.
    rewrite (take_whole 5 g L), (drop_whole 5 g L), L, D. reflexivity. }
  destruct g as [|c g]; [discriminate L|].
  cbn [PyStr.search_postal_from]. rewrite M. reflexivity.
Qed.

(** A string of fewer than five characters holds no postal code. *)
Lemma match_postal_here_short prev s :
  String.length s < 5 -> PyStr.match_postal_here prev s = None.
Proof.
  intros L. unfold PyStr.match_postal_here.
  destruct (String.length (PyStr.take 5 s) =? 5) eqn:E.
  - apply Nat.eqb_eq, take_short in E. lia.
  - rewrite andb_false_r. reflexivity.
Qed.

Lemma search_postal_short s : forall prev,
  String.length s < 5 -> PyStr.search_postal_from prev s = None.
Proof.
  induction s as [|c s IH]; intros prev L;
    cbn [PyStr.search_postal_from]; rewrite (match_postal_here_short _ _ L).
  - reflexivity.
  - apply IH. simpl in L. lia.
Qed.

Lemma decimal_isdigit s :
  s <> "" -> decimal s -> PyStr.isdigit s = true.
Proof.
  unfold decimal, PyStr.isdigit. intros N D. destruct s as [|c s]; [contradiction|].
  clear N. revert D. generalize (String c s). clear.
  induction s as [|c s IH]; simpl; [reflexivity|].
  intros H. apply andb_prop in H. destruct H as [H1 H2].
  unfold PyStr.isdigit_char. rewrite H1. simpl. apply IH, H2.
Qed.

(** What the department pattern finds is two decimal digits. *)
Lemma search_dept_two s : forall g,
  ChatbotAgent.search_dept s = Some g -> String.length g = 2 /\ decimal g.
Proof.
  assert (M : forall s g, ChatbotAgent.match_dept_here s = Some g ->
                          String.length g = 2 /\ decimal g).
  { intros t g. unfold ChatbotAgent.match_dept_here, decimal.
    destruct (PyStr.startswith _ t && _ && _) eqn:E; [|discriminate].
    intros H; inversion H; subst.
    apply andb_prop in E. destruct E as [E D].
    apply andb_prop in E. destruct E as [_ L].
    apply Nat.eqb_eq in L. split; assumption. }
  induction s as [|c s IH]; intros g; cbn [ChatbotAgent.search_dept];
    destruct (ChatbotAgent.match_dept_here _) eqn:E; intros H;
    try discriminate;
    try (inversion H; subst; eapply M; eassumption).
  apply IH, H.
Qed.

Lemma find_city_known cities message_lower city :
  ChatbotAgent.find_city cities message_lower = Some city -> In city cities.
Proof.
  induction cities as [|c cities IH]; cbn [ChatbotAgent.find_city];
    [discriminate|].
  destruct (ChatbotAgent.as_word c message_lower);
    [intros H; inversion H; left; reflexivity|].
  destruct (existsb (fun phrase => PyStr.contains phrase message_lower)
              (ChatbotAgent.location_phrases c));
    [intros H; inversion H; left; reflexivity|].
  intros H. right. apply IH, H.
Qed.

End PatternFacts.

(* ================================================================== *)
(** ** The France Travail client: tokens, requests, failures *)
(* ================================================================== *)

Module TokenFacts.
Import Eff FranceTravailClient Views FranceTravailFacts.

Lemma truthy_opt_value o : Py.truthy (opt_value o) = Py.truthy_opt o.
Proof. destruct o; reflexivity. Qed.

(** With a static key the token is the key and nothing happens. *)
Lemma auth_token_of_key w (s : sys t) :
  Py.truthy_opt (api_key (self s)) = true ->
  _get_auth_token w s = (Ok (opt_value (api_key (self s))), s, []).
Proof.
  intros K. unfold _get_auth_token, bind, get_self, ret. simpl.
  rewrite K. reflexivity.
Qed.

(** When the guard of the 401 block does not hold, the [try] block sends
    the search request and nothing else, and leaves the client as it
    is. *)
Lemma fetch_without_refresh w url params headers (s : sys t) :
  may_refresh (self s) = false ->
  exists r said,
    fetch w url params headers s
    = (r, {| self := self s; sent := S (sent s) |}, said)
    /\ requests said = [HttpGet url params headers].
Proof.
  intros G. unfold may_refresh in G. begin_fetch.
  destruct (net w (sent s)) as [resp|e]; simpl;
    [ destruct (status_code resp =? 401)%Z; simpl; [rewrite G; simpl|] | ];
    repeat split_path; do 2 eexists; split; reflexivity.
Qed.

Lemma try_requests_gets url params said :
  try_requests url params (requests said) ->
  Forall (fun e => match e with
                   | HttpGet u p _ => u = url /\ p = params
                   | _ => True
                   end) said.
Proof.
  intros H.
  assert (G : Forall (fun e => match e with
                               | HttpGet u p _ => u = url /\ p = params
                               | _ => True
                               end) (requests said)).
  { destruct (requests said) as [|e1 [|e2 [|e3 [|e4 l]]]]; simpl in H;
      repeat match goal with
             | e : event |- _ => destruct e; simpl in H; try contradiction
             end;
      try contradiction;
      repeat constructor; simpl; intuition congruence. }
  clear H. induction said as [|e said IH]; [constructor|].
  unfold requests in G. simpl in G.
  destruct e; simpl in *.
  - constructor; simpl; auto.
  - inversion G; subst. constructor; simpl; auto.
  - inversion G; subst. constructor; simpl; auto.
Qed.

(** A department is worked out exactly when a location is given. *)
Lemma departement_given location :
  match departement location with
  | Some _ => Py.truthy_opt location = true
  | None => Py.truthy_opt location = false
  end.
Proof.
  unfold departement. destruct location as [location|]; [|reflexivity].
  unfold Py.truthy_opt.
  destruct (String.eqb location ""); [reflexivity|].
  destruct (PyStr.search_postal location); [reflexivity|].
  destruct ((String.length location =? 2) && PyStr.isdigit location);
    [reflexivity|].
  destruct (assoc (PyStr.lower location) dept_codes); reflexivity.
Qed.

(** A client with neither a key nor both credentials: the call raises
    at once. *)
Lemma unconfigured_call w id secret key a :
  Py.truthy_opt key = false ->
  Py.truthy_opt id && Py.truthy_opt secret = false ->
  call w (fst (init id secret key)) a
  = (Raise (ValueError not_configured), fst (init id secret key), []).
Proof.
  intros K C. rewrite call_unfolds.
  unfold _get_auth_token, bind, get_self, ret. simpl. rewrite K.
  unfold _get_access_token, bind, get_self, ret. simpl.
  rewrite <- negb_andb, C. reflexivity.
Qed.

End TokenFacts.

Module FranceTravailProps.
Import Eff FranceTravailClient Views FranceTravailFacts TokenFacts ErrorViews.

(** X1: a client built with a static key sends one search request per
    call, with the key as bearer token, never asks for a token, and is
    left as it was. *)
Theorem static_key_sends_one_request w id secret key a :
  key <> "" ->
  let c := fst (init id secret (Some key)) in
  snd (fst (call w c a)) = c
  /\ requests (snd (call w c a))
     = [HttpGet (base_url ++ "/offres/search") (query_params a)
          [("Authorization", "Bearer " ++ key); ("Accept", "application/json")]].
Proof.
  intros N c. rewrite call_unfolds.
  assert (K : Py.truthy_opt (api_key (self {| self := c; sent := 0 |})) = true).
  { simpl. apply negb_true_iff, String.eqb_neq. exact N. }
  rewrite (auth_token_of_key w _ K). simpl opt_value.
  assert (T : negb (Py.truthy (VStr key)) = false).
  { simpl. rewrite negb_involutive. apply String.eqb_neq. exact N. }
  rewrite T.
  assert (G : may_refresh (self {| self := c; sent := 0 |}) = false)
    by apply andb_false_r.
  destruct (fetch_without_refresh w (base_url ++ "/offres/search") (query_params a)
              (first_headers (VStr key)) {| self := c; sent := 0 |} G)
    as (r & said & F & R).
  simpl self in *. simpl api_base_url. rewrite F.
  destruct r; simpl; (split; [reflexivity|]);
    rewrite requests_app, (requests_printed _ (prepared_printed a)); exact R.
Qed.

Lemma static_key_sends_one_request_witness :
  snd (fst (call Samples.refusing_world Samples.overconfigured Samples.stage_args))
  = Samples.overconfigured
  /\ requests (snd (call Samples.refusing_world Samples.overconfigured Samples.stage_args))
     = [HttpGet (base_url ++ "/offres/search") (query_params Samples.stage_args)
          [("Authorization", "Bearer key"); ("Accept", "application/json")]].
Proof.
  apply (static_key_sends_one_request Samples.refusing_world
           (Some "id") (Some "secret") "key" Samples.stage_args).
  discriminate.
Defined.


(** What a successful token request leaves in the client. *)
Lemma get_access_token_success w (s : sys t) resp data token :
  has_credentials (self s) = true ->
  net w (sent s) = Ok resp ->
  status_code resp = 200%Z ->
  json resp = Ok (VDict data) ->
  Py.lookup "access_token" data = Some token ->
  Py.truthy token = true ->
  let stored := set_access_token token (self s) in
  let asked :=
    HttpPost token_url
      [("grant_type", VStr "client_credentials");
       ("client_id", opt_value (client_id (self s)));
       ("client_secret", opt_value (client_secret (self s)));
       ("scope", VStr "api_offresdemploiv2 o2dsoffre")]
      [("Content-Type", "application/x-www-form-urlencoded");
       ("Accept", "application/json")] in
  _get_access_token w s
  = match Py.lookup "expires_in" data with
    | None => (Ok token, {| self := stored; sent := S (sent s) |}, [asked])
    | Some seconds =>
        match add_seconds (now w) seconds with
        | Ok expiry =>
            (Ok token,
             {| self := set_token_expiry (Some expiry) stored;
                sent := S (sent s) |}, [asked])
        | Raise e =>
            (Ok VNone, {| self := stored; sent := S (sent s) |},
             [asked; Printed (LogTokenException e)])
        end
    end.
Proof.
  intros C N S200 J A T stored asked. subst stored asked.
  unfold has_credentials in C. apply andb_prop in C. destruct C as [C1 C2].
  unfold _get_access_token. open_method. rewrite C1, C2. simpl.
  rewrite N. simpl. rewrite S200. simpl. rewrite J. simpl.
  rewrite A. simpl. rewrite T. simpl.
  unfold Py.has_key.
  destruct (Py.lookup "expires_in" data) as [seconds|]; simpl; [|reflexivity].
  destruct (add_seconds (now w) seconds) as [expiry|e]; reflexivity.
Qed.

(** X2: a token that came with its lifetime is used again, without any
    request, as long as it has not expired, and asked again afterwards. *)
Theorem token_is_reused_until_it_expires
  w w' (s : sys t) resp data token seconds expiry :
  has_credentials (self s) = true ->
  Py.truthy_opt (api_key (self s)) = false ->
  net w (sent s) = Ok resp ->
  status_code resp = 200%Z ->
  json resp = Ok (VDict data) ->
  Py.lookup "access_token" data = Some token ->
  Py.truthy token = true ->
  Py.lookup "expires_in" data = Some seconds ->
  add_seconds (now w) seconds = Ok expiry ->
  exists s1 said,
    _get_access_token w s = (Ok token, s1, said)
    /\ ((now w' < expiry)%Z -> _get_auth_token w' s1 = (Ok token, s1, []))
    /\ ((expiry <= now w')%Z ->
        exists r s2 said' form headers,
          _get_auth_token w' s1 = (r, s2, said')
          /\ requests said' = [HttpPost token_url form headers]).
Proof.
  intros C K N S200 J A T E X.
  pose proof (get_access_token_success w s resp data token C N S200 J A T) as G.
  simpl in G. rewrite E, X in G. rewrite G. clear G.
  do 2 eexists. split; [reflexivity|].
  unfold _get_auth_token, bind, get_self, ret. simpl. rewrite K, T.
  split.
  - intros L. apply Z.ltb_lt in L. rewrite L. reflexivity.
  - intros L. apply Z.ltb_ge in L. rewrite L.
    match goal with
    | |- context [_get_access_token w' ?s1] =>
        destruct (get_access_token_requests w' s1)
          as (v & s2 & said' & -> & _ & _ & _ & _ & _ & _ & P & _)
    end.
    simpl in P. unfold has_credentials in C. rewrite C in P.
    destruct P as (form & headers & P).
    exists (Ok v), s2, said', form, headers. split; [reflexivity | exact P].
Qed.


(** X3: a token that came without lifetime is never used again. *)
Theorem token_without_lifetime_is_asked_again
  w w' (s : sys t) resp data token :
  has_credentials (self s) = true ->
  Py.truthy_opt (api_key (self s)) = false ->
  token_expiry (self s) = None ->
  net w (sent s) = Ok resp ->
  status_code resp = 200%Z ->
  json resp = Ok (VDict data) ->
  Py.lookup "access_token" data = Some token ->
  Py.truthy token = true ->
  Py.lookup "expires_in" data = None ->
  exists s1 said,
    _get_access_token w s = (Ok token, s1, said)
    /\ access_token (self s1) = token
    /\ exists r s2 said' form headers,
         _get_auth_token w' s1 = (r, s2, said')
         /\ requests said' = [HttpPost token_url form headers].
Proof.
  intros C K X N S200 J A T E.
  pose proof (get_access_token_success w s resp data token C N S200 J A T) as G.
  simpl in G. rewrite E in G. rewrite G. clear G.
  do 2 eexists. split; [reflexivity|]. split; [reflexivity|].
  unfold _get_auth_token, bind, get_self, ret. simpl. rewrite K, T, X.
  match goal with
  | |- context [_get_access_token w' ?s1] =>
      destruct (get_access_token_requests w' s1)
        as (v & s2 & said' & -> & _ & _ & _ & _ & _ & _ & P & _)
  end.
  simpl in P. unfold has_credentials in C. rewrite C in P.
  destruct P as (form & headers & P).
  exists (Ok v), s2, said', form, headers. split; [reflexivity | exact P].
Qed.

(** X4: when the lifetime sent with a token cannot be added to the
    clock, the token is stored but not returned: the search fails as if
    nothing were configured, before any search request. *)
Theorem unusable_lifetime_fails_the_search
  w id secret a resp data token seconds e :
  id <> "" -> secret <> "" ->
  net w 0 = Ok resp ->
  status_code resp = 200%Z ->
  json resp = Ok (VDict data) ->
  Py.lookup "access_token" data = Some token ->
  Py.truthy token = true ->
  Py.lookup "expires_in" data = Some seconds ->
  add_seconds (now w) seconds = Raise e ->
  let c := fst (init (Some id) (Some secret) None) in
  fst (fst (call w c a)) = Raise (ValueError not_configured)
  /\ access_token (snd (fst (call w c a))) = token
  /\ token_expiry (snd (fst (call w c a))) = None
  /\ gets (snd (call w c a)) = [].
Proof.
  intros Ni Ns N S200 J A T E X c. rewrite call_unfolds.
  assert (C : has_credentials (self {| self := c; sent := 0 |}) = true).
  { unfold has_credentials. simpl.
    apply String.eqb_neq in Ni, Ns. rewrite Ni, Ns. reflexivity. }
  pose proof (get_access_token_success w {| self := c; sent := 0 |}
                resp data token C N S200 J A T) as G.
  simpl in G. rewrite E, X in G.
  unfold _get_auth_token, bind, get_self, ret. simpl.
  unfold c in G |- *. simpl in G |- *. rewrite G. simpl.
  repeat split; reflexivity.
Qed.

(** X5: a client that has neither a key nor both credentials raises
    before anything is sent or printed. *)
Theorem unconfigured_client_sends_nothing w id secret key a :
  Py.truthy_opt key = false ->
  Py.truthy_opt id && Py.truthy_opt secret = false ->
  let c := fst (init id secret key) in
  call w c a = (Raise (ValueError not_configured), c, []).
Proof.
  intros K C c. rewrite call_unfolds.
  unfold _get_auth_token, bind, get_self, ret. simpl. rewrite K.
  unfold _get_access_token, bind, get_self, ret. simpl.
  rewrite <- negb_andb, C. reflexivity.
Qed.

(** X6: whatever fails, the search raises a [ValueError]. *)
Theorem search_raises_only_value_errors w c a e c' did :
  call w c a = (Raise e, c', did) -> exists text, e = ValueError text.
Proof.
  rewrite call_unfolds.
  destruct (get_auth_token_requests w {| self := c; sent := 0 |})
    as (v & s1 & t1 & -> & _).
  destruct (negb (Py.truthy v)).
  - intros H. inversion H. eexists. reflexivity.
  - destruct (fetch w _ _ _ s1) as [[[found|e'] s2] t2]; intros H;
      inversion H. destruct e'; eexists; reflexivity.
Qed.


(** X7: how a failure is reported by a client with a static key: a
    network error under the search message; a refused status, and a 401,
    under the message of the processing of results, which wraps the
    client's own error. *)
Theorem failures_are_reported_wrapped w id secret key a :
  key <> "" ->
  let c := fst (init id secret (Some key)) in
  (net w 0 = Raise RequestException ->
   fst (fst (call w c a))
   = Raise (ValueError (MsgCause search_error RequestException)))
  /\ (forall resp, net w 0 = Ok resp ->
        status_ok resp = false -> status_code resp <> 401%Z ->
        fst (fst (call w c a))
        = Raise (ValueError (MsgCause processing_error
                   (ValueError (MsgStatus search_error
                                  (status_code resp) (text resp))))))
  /\ (forall resp, net w 0 = Ok resp -> status_code resp = 401%Z ->
        fst (fst (call w c a))
        = Raise (ValueError (MsgCause processing_error (ValueError msg_401)))).
Proof.
  intros N c.
  assert (K : Py.truthy_opt (api_key (self {| self := c; sent := 0 |})) = true).
  { simpl. apply negb_true_iff, String.eqb_neq. exact N. }
  assert (T : negb (Py.truthy (VStr key)) = false).
  { simpl. rewrite negb_involutive. apply String.eqb_neq. exact N. }
  assert (G : may_refresh (self {| self := c; sent := 0 |}) = false)
    by apply andb_false_r.
  repeat split; [intros H | intros resp H Hok H401 | intros resp H H401];
    rewrite call_unfolds, (auth_token_of_key w _ K); simpl opt_value; rewrite T;
    simpl self.
  - destruct (fetch_network_failure w (api_base_url c ++ "/offres/search")
                (query_params a) (first_headers (VStr key))
                {| self := c; sent := 0 |} RequestException H)
      as (s' & said & -> & _).
    reflexivity.
  - apply Z.eqb_neq in H401.
    destruct (fetch_other_status w (api_base_url c ++ "/offres/search")
                (query_params a) (first_headers (VStr key))
                {| self := c; sent := 0 |} resp H Hok H401)
      as (s' & said & -> & _).
    reflexivity.
  - destruct (fetch_401_no_refresh w (api_base_url c ++ "/offres/search")
                (query_params a) (first_headers (VStr key))
                {| self := c; sent := 0 |} resp H H401 G)
      as (s' & said & -> & _).
    reflexivity.
Qed.

(** X8: every search request goes to the search address and carries the
    query text, the range made of the limit, and the department when a
    location is given; nothing else: neither the radius nor a contract
    type. *)
Theorem search_request_shape w c a r c' did :
  call w c a = (r, c', did) ->
  Forall (fun e =>
            match e with
            | HttpGet url params _ =>
                url = api_base_url c ++ "/offres/search"
                /\ map fst params
                   = (if Py.truthy_opt (a_location a)
                      then ["motsCles"; "range"; "departement"]
                      else ["motsCles"; "range"])
                /\ Py.lookup "motsCles" params = Some (VStr (query_text a))
                /\ Py.lookup "range" params
                   = Some (VStr ("0-" ++ PyStr.of_Z (a_limit a - 1)))
            | _ => True
            end) did.
Proof.
  assert (Q : map fst (query_params a)
              = (if Py.truthy_opt (a_location a)
                 then ["motsCles"; "range"; "departement"]
                 else ["motsCles"; "range"])
              /\ Py.lookup "motsCles" (query_params a) = Some (VStr (query_text a))
              /\ Py.lookup "range" (query_params a)
                 = Some (VStr ("0-" ++ PyStr.of_Z (a_limit a - 1)))).
  { unfold query_params. pose proof (departement_given (a_location a)) as D.
    destruct (departement (a_location a)) as [[dept line]|]; rewrite D;
      repeat split; reflexivity. }
  rewrite call_unfolds.
  destruct (get_auth_token_requests w {| self := c; sent := 0 |})
    as (v & s1 & t1 & -> & G & _ & _ & _ & _ & _ & B).
  simpl in B.
  assert (C1 : forall P : event -> Prop,
             (forall e, is_get e = false -> P e) -> Forall P t1).
  { intros P HP. clear - G HP. induction t1 as [|e t1 IH]; [constructor|].
    unfold gets in G. simpl in G. destruct (is_get e) eqn:E; [discriminate|].
    constructor; [apply HP, E | apply IH, G]. }
  assert (C2 : forall P : event -> Prop,
             (forall e, is_get e = false -> P e) -> Forall P (prepared a)).
  { intros P HP. pose proof (prepared_printed a) as F.
    eapply Forall_impl; [|exact F]. intros e He. apply HP.
    destruct e; simpl in *; auto; discriminate. }
  destruct (negb (Py.truthy v)).
  - intros H; inversion H; subst. apply C1. intros [] E; simpl in *; auto; discriminate.
  - pose proof (fetch_requests w (api_base_url (self s1) ++ "/offres/search")
                  (query_params a) (first_headers v) s1) as F.
    destruct (fetch w _ _ _ s1) as [[[found|e] s2] t2];
      destruct F as [F _]; apply try_requests_gets in F;
      intros H; inversion H; subst;
      repeat rewrite Forall_app; repeat split;
      try (apply C1; intros [] E; simpl in *; auto; discriminate);
      try (apply C2; intros [] E; simpl in *; auto; discriminate);
      (refine (Forall_impl _ _ F));
      intros [] X; simpl in *; auto;
      destruct X as [-> ->]; rewrite B; (split; [reflexivity | exact Q]).
Qed.

(** X9: what a 200 or a 206 gives, by the form of the body. *)
Theorem results_follow_the_body w c a resp data :
  Py.truthy_opt (api_key c) = true ->
  net w 0 = Ok resp ->
  status_ok resp = true ->
  json resp = Ok (VDict data) ->
  fst (fst (call w c a))
  = Ok (match Py.lookup "resultats" data with
        | None => VList []
        | Some (VDict inner) =>
            match Py.lookup "resultats" inner with
            | Some found => found
            | None => VList []
            end
        | Some found => found
        end).
Proof.
  intros K N Hok J. rewrite call_unfolds.
  rewrite (auth_token_of_key w {| self := c; sent := 0 |} K).
  rewrite truthy_opt_value. simpl self. rewrite K. simpl negb. cbv iota.
  destruct (fetch_success w (api_base_url c ++ "/offres/search") (query_params a)
              (first_headers (opt_value (api_key c)))
              {| self := c; sent := 0 |} resp N Hok)
    as (s' & said & -> & _).
  unfold parsed. rewrite J. unfold extract_results. simpl.
  unfold Py.has_key.
  destruct (Py.lookup "resultats" data) as [[]|]; reflexivity.
Qed.

(** X10: asking for a token never raises: a network error, a refused
    status or a body that cannot be read are printed and give [None].
    The endpoint is asked once at most, and not at all without both
    credentials; the credentials and the key stay as they are; a token
    that is returned has been stored. *)
Theorem token_request_never_raises w (s : sys t) :
  exists v s' said,
    _get_access_token w s = (Ok v, s', said)
    /\ gets said = []
    /\ List.length (requests said) <= 1
    /\ client_id (self s') = client_id (self s)
    /\ client_secret (self s') = client_secret (self s)
    /\ api_key (self s') = api_key (self s)
    /\ (has_credentials (self s) = false -> said = [] /\ v = VNone /\ s' = s)
    /\ (Py.truthy v = true -> access_token (self s') = v).
Proof.
  destruct (get_access_token_requests w s)
    as (v & s' & said & E & G & _ & I1 & I2 & I3 & _ & C & T).
  exists v, s', said. repeat split; auto.
  - destruct (Py.truthy_opt (client_id (self s)) && Py.truthy_opt (client_secret (self s))).
    + destruct C as (form & headers & ->). simpl. lia.
    + destruct C as (-> & _). simpl. lia.
  - unfold has_credentials in H. rewrite H in C. apply C.
  - unfold has_credentials in H. rewrite H in C. apply C.
  - unfold has_credentials in H. rewrite H in C. apply C.
Qed.

Lemma token_is_reused_until_it_expires_witness :
  exists s1 said,
    _get_access_token (MoreSamples.token_world 1000)
      {| self := MoreSamples.fresh_oauth; sent := 0 |} = (Ok (VStr "new"), s1, said)
    /\ ((now (MoreSamples.token_world 2000) < 4600)%Z ->
        _get_auth_token (MoreSamples.token_world 2000) s1 = (Ok (VStr "new"), s1, []))
    /\ ((4600 <= now (MoreSamples.token_world 2000))%Z ->
        exists r s2 said' form headers,
          _get_auth_token (MoreSamples.token_world 2000) s1 = (r, s2, said')
          /\ requests said' = [HttpPost token_url form headers]).
Proof.
  exact (token_is_reused_until_it_expires
           (MoreSamples.token_world 1000) (MoreSamples.token_world 2000)
           {| self := MoreSamples.fresh_oauth; sent := 0 |}
           (Samples.answer 200 (MoreSamples.token_body [("expires_in", VInt 3600)]))
           [("access_token", VStr "new"); ("expires_in", VInt 3600)]
           (VStr "new") (VInt 3600) 4600%Z
           eq_refl eq_refl eq_refl eq_refl eq_refl eq_refl eq_refl eq_refl eq_refl).
Defined.

Lemma token_without_lifetime_is_asked_again_witness :
  exists s1 said,
    _get_access_token MoreSamples.bare_token_world
      {| self := MoreSamples.fresh_oauth; sent := 0 |} = (Ok (VStr "new"), s1, said)
    /\ access_token (self s1) = VStr "new"
    /\ exists r s2 said' form headers,
         _get_auth_token MoreSamples.bare_token_world s1 = (r, s2, said')
         /\ requests said' = [HttpPost token_url form headers].
Proof.
  exact (token_without_lifetime_is_asked_again
           MoreSamples.bare_token_world MoreSamples.bare_token_world
           {| self := MoreSamples.fresh_oauth; sent := 0 |}
           (Samples.answer 200 (MoreSamples.token_body []))
           [("access_token", VStr "new")] (VStr "new")
           eq_refl eq_refl eq_refl eq_refl eq_refl eq_refl eq_refl eq_refl eq_refl).
Defined.

Lemma unusable_lifetime_fails_the_search_witness :
  fst (fst (call MoreSamples.bad_lifetime_world MoreSamples.fresh_oauth Samples.plain_args))
  = Raise (ValueError not_configured)
  /\ access_token (snd (fst (call MoreSamples.bad_lifetime_world MoreSamples.fresh_oauth
                               Samples.plain_args))) = VStr "new"
  /\ token_expiry (snd (fst (call MoreSamples.bad_lifetime_world MoreSamples.fresh_oauth
                               Samples.plain_args))) = None
  /\ gets (snd (call MoreSamples.bad_lifetime_world MoreSamples.fresh_oauth
                  Samples.plain_args)) = [].
Proof.
  apply (unusable_lifetime_fails_the_search MoreSamples.bad_lifetime_world
           "id" "secret" Samples.plain_args
           (Samples.answer 200 (MoreSamples.token_body [("expires_in", VStr "3600")]))
           [("access_token", VStr "new"); ("expires_in", VStr "3600")]
           (VStr "new") (VStr "3600") TypeError);
    try discriminate; reflexivity.
Defined.

Lemma unconfigured_client_sends_nothing_witness :
  call Samples.calm_world (fst (init (Some "id") None None)) Samples.stage_args
  = (Raise (ValueError not_configured), fst (init (Some "id") None None), []).
Proof.
  exact (unconfigured_client_sends_nothing Samples.calm_world (Some "id") None None
           Samples.stage_args eq_refl eq_refl).
Defined.

Lemma search_raises_only_value_errors_witness :
  exists text,
    match fst (fst (call MoreSamples.down_world Samples.keyed_client Samples.plain_args)) with
    | Raise e => e
    | Ok _ => TypeError
    end = ValueError text.
Proof.
  exact (search_raises_only_value_errors MoreSamples.down_world Samples.keyed_client
           Samples.plain_args _ _ _ eq_refl).
Defined.

Lemma failures_are_reported_wrapped_witness :
  fst (fst (call MoreSamples.down_world Samples.keyed_client Samples.plain_args))
  = Raise (ValueError (MsgCause processing_error
             (ValueError (MsgStatus search_error 503 "")))).
Proof.
  apply (proj1 (proj2 (failures_are_reported_wrapped MoreSamples.down_world
                         None None "key" Samples.plain_args ltac:(discriminate)))
           (Samples.answer 503 Samples.no_results));
    try reflexivity; discriminate.
Defined.

Lemma search_request_shape_witness :
  Forall (fun e =>
            match e with
            | HttpGet url params _ =>
                url = api_base_url Samples.oauth_client ++ "/offres/search"
                /\ map fst params = ["motsCles"; "range"; "departement"]
                /\ Py.lookup "motsCles" params = Some (VStr (query_text Samples.stage_args))
                /\ Py.lookup "range" params = Some (VStr "0-9")
            | _ => True
            end)
         (snd (call Samples.renewing_world Samples.oauth_client Samples.stage_args)).
Proof.
  exact (search_request_shape Samples.renewing_world Samples.oauth_client
           Samples.stage_args _ _ _ eq_refl).
Defined.

Lemma results_follow_the_body_witness :
  fst (fst (call MoreSamples.nested_world Samples.keyed_client Samples.plain_args))
  = Ok (VList [Samples.record "a" (VStr "2024-01-10");
               Samples.record "b" (VStr "2024-01-10")]).
Proof.
  exact (results_follow_the_body MoreSamples.nested_world Samples.keyed_client
           Samples.plain_args
           (Samples.answer 206 (Ok (VDict MoreSamples.nested_body)))
           MoreSamples.nested_body eq_refl eq_refl eq_refl eq_refl).
Defined.

End FranceTravailProps.

Module DepartmentProps.
Import TextViews PatternFacts FranceTravailClient.

(** X11: the department sent is always made of two characters that
    [isdigit] accepts. *)
Theorem department_is_two_digits place dept line :
  departement place = Some (dept, line) ->
  String.length dept = 2 /\ PyStr.isdigit dept = true.
Proof.
  unfold departement. destruct place as [place|]; [|discriminate].
  destruct (String.eqb place ""); [discriminate|].
  destruct (PyStr.search_postal place) as [g|] eqn:P.
  - intros H; inversion H; subst. clear H.
    apply search_postal_five in P. destruct P as [L D].
    assert (L2 : String.length (PyStr.take 2 g) = 2).
    { do 5 (destruct g as [|? g]; [discriminate L|]). reflexivity. }
    split; [exact L2|].
    apply decimal_isdigit; [|exact (all_chars_take _ 2 g D)].
    intros E. change (PyStr.take 2 g = "") in E. rewrite E in L2.
    discriminate L2.
  - destruct ((String.length place =? 2) && PyStr.isdigit place) eqn:C.
    + intros H; inversion H; subst. apply andb_prop in C. destruct C as [C1 C2].
      apply Nat.eqb_eq in C1. split; assumption.
    + unfold dept_codes. cbn [assoc].
      repeat match goal with
             | |- context [if ?b then _ else _] => destruct b
             end; intros H; inversion H; split; reflexivity.
Qed.

Lemma department_is_two_digits_witness :
  String.length "69" = 2 /\ PyStr.isdigit "69" = true.
Proof.
  exact (department_is_two_digits (Some "3 rue X, 69003 Lyon") "69"
           (LogDeptFromPostal "69") eq_refl).
Defined.

End DepartmentProps.

(* ================================================================== *)
(** ** The Indeed and Glassdoor clients *)
(* ================================================================== *)

Module ClientFacts.
Import Eff Views TextViews TextFacts RecordViews.

Lemma for_each_each {A B} (f : A -> result B) l : forall l',
  for_each f l = Ok l' -> Forall2 (fun x y => f x = Ok y) l l'.
Proof.
  induction l as [|x l IH]; simpl; intros l' H.
  - inversion H. constructor.
  - destruct (f x) as [y|e] eqn:Fx; simpl in H; [|discriminate].
    destruct (for_each f l) as [ys|e]; simpl in H; [|discriminate].
    inversion H; subst. constructor; auto.
Qed.

Lemma for_each_total {A B} (f : A -> result B) l :
  Forall (fun x => exists y, f x = Ok y) l -> exists l', for_each f l = Ok l'.
Proof.
  induction 1 as [|x l [y Hy] _ [l' IH]]; simpl.
  - eexists; reflexivity.
  - rewrite Hy, IH. simpl. eexists; reflexivity.
Qed.

Lemma for_each_raises {A B} (f : A -> result B) l x e :
  In x l -> f x = Raise e -> is_ok (for_each f l) = false.
Proof.
  induction l as [|y l IH]; simpl; [contradiction|].
  intros [->|I] Fx.
  - rewrite Fx. reflexivity.
  - destruct (f y); simpl; [|reflexivity].
    specialize (IH I Fx). destruct (for_each f l); [discriminate | reflexivity].
Qed.

Lemma has_char_contains s :
  PyStr.contains "," s = Py.has_char ","%char s.
Proof.
  induction s as [|c s IH]; [reflexivity|].
  cbn [PyStr.contains PyStr.startswith Py.has_char]. rewrite IH.
  destruct s; rewrite andb_true_r, Ascii.eqb_sym; reflexivity.
Qed.

(** The city and the country read in a string. *)
Lemma city_of_string s :
  city_of (VStr s)
  = Ok (VStr (if Py.has_char ","%char s
              then PyStr.strip (PyStr.split_first s) else s)).
Proof.
  unfold city_of. simpl. rewrite has_char_contains.
  destruct (Py.has_char ","%char s); reflexivity.
Qed.

Lemma country_of_string s :
  country_of (VStr s)
  = Ok (VStr (if Py.has_char ","%char s
              then PyStr.strip (PyStr.split_last s) else "France")).
Proof.
  unfold country_of. simpl. rewrite has_char_contains.
  destruct (Py.has_char ","%char s); reflexivity.
Qed.

(** Whatever it is given, [Location.__init__] leaves an address that is
    not empty. *)
Lemma append_not_empty a b : b <> "" -> (a ++ b =? "")%string = false.
Proof.
  intros N. apply String.eqb_neq. destruct a; simpl; [exact N | discriminate].
Qed.

Lemma address_set c z r k given :
  Py.truthy (formatted_address (Location_init c z r k given)) = true.
Proof.
  simpl. destruct (Py.truthy given) eqn:T; [exact T|].
  simpl. rewrite append_not_empty; [reflexivity | discriminate].
Qed.

End ClientFacts.

Module ClientProps.
Import Eff Views TextViews TextFacts RecordViews ClientFacts.

Ltac open_call :=
  unfold run, bind, ret, raise, lift, get_self, print, emit, request; simpl.

Ltac walk :=
  repeat match goal with
         | |- context [match ?x with _ => _ end] =>
             lazymatch x with
             | context [match _ with _ => _ end] => fail
             | _ => destruct x; simpl
             end
         end.

(** X12: the Indeed client sends one request per call; the keywords have
    no part in it, nor in what the call gives. *)
Theorem indeed_sends_one_request w c job_title location radius limit :
  exists params,
    Py.lookup "publisher" params
    = Some (FranceTravailClient.opt_value (IndeedClient.api_key c))
    /\ Py.lookup "q" params = Some (VStr job_title)
    /\ Py.lookup "limit" params = Some (VInt limit)
    /\ Py.lookup "radius" params = Some (VInt radius)
    /\ Py.lookup "l" params
       = (if Py.truthy_opt location
          then Some (FranceTravailClient.opt_value location) else None)
    /\ forall keywords,
         requests (snd (IndeedClient.call w c job_title location radius keywords limit))
         = [HttpGet (IndeedClient.base_url c) params []]
         /\ fst (IndeedClient.call w c job_title location radius keywords limit)
            = fst (IndeedClient.call w c job_title location radius None limit).
Proof.
  set (params := [("publisher", FranceTravailClient.opt_value (IndeedClient.api_key c));
                  ("q", VStr job_title); ("limit", VInt limit);
                  ("radius", VInt radius); ("format", VStr "json");
                  ("v", VStr "2")]).
  exists (if Py.truthy_opt location
          then Py.set "l" (FranceTravailClient.opt_value location) params
          else params).
  split; [|split; [|split; [|split; [|split]]]];
    try (destruct (Py.truthy_opt location); reflexivity).
  intros keywords'. unfold IndeedClient.call, IndeedClient.search_jobs.
  open_call. fold params.
  destruct keywords' as [[|k ks]|]; simpl; walk; split; reflexivity.
Qed.

(** X13: the Glassdoor client sends one request per call; neither the
    keywords nor the radius have a part in it, nor in what the call
    gives. *)
Theorem glassdoor_sends_one_request w c job_title location limit :
  exists params,
    Py.lookup "t.k" params
    = Some (FranceTravailClient.opt_value (GlassdoorClient.api_key c))
    /\ Py.lookup "jobTitle" params = Some (VStr job_title)
    /\ Py.lookup "numResults" params = Some (VInt limit)
    /\ Py.lookup "city" params
       = (if Py.truthy_opt location
          then Some (FranceTravailClient.opt_value location) else None)
    /\ forall radius keywords,
         requests (snd (GlassdoorClient.call w c job_title location radius keywords limit))
         = [HttpGet (GlassdoorClient.base_url c) params []]
         /\ fst (GlassdoorClient.call w c job_title location radius keywords limit)
            = fst (GlassdoorClient.call w c job_title location 50 None limit).
Proof.
  set (params := [("v", VStr "1"); ("format", VStr "json");
                  ("t.p", VStr "API_KEY");
                  ("t.k", FranceTravailClient.opt_value (GlassdoorClient.api_key c));
                  ("action", VStr "jobs-prog"); ("countryId", VStr "1");
                  ("jobTitle", VStr job_title); ("numResults", VInt limit)]).
  exists (if Py.truthy_opt location
          then Py.set "city" (FranceTravailClient.opt_value location) params
          else params).
  split; [|split; [|split; [|split]]];
    try (destruct (Py.truthy_opt location); reflexivity).
  intros radius' keywords'. unfold GlassdoorClient.call, GlassdoorClient.search_jobs.
  open_call. fold params.
  destruct keywords' as [[|k ks]|]; simpl; walk; split; reflexivity.
Qed.

(** What the two clients make of a body, once the answer is known. *)
Lemma indeed_call_result w c job_title location radius keywords limit resp :
  net w 0 = Ok resp ->
  status_code resp = 200%Z ->
  fst (IndeedClient.call w c job_title location radius keywords limit)
  = indeed_parsed w resp.
Proof.
  intros N S200. unfold IndeedClient.call, IndeedClient.search_jobs, indeed_parsed.
  open_call. destruct keywords as [[|k ks]|]; simpl; rewrite N; simpl;
    rewrite S200; simpl; walk; reflexivity.
Qed.

Lemma indeed_call_ok w c job_title location radius keywords limit postings :
  fst (IndeedClient.call w c job_title location radius keywords limit) = Ok postings ->
  exists resp, net w 0 = Ok resp /\ indeed_parsed w resp = Ok postings.
Proof.
  unfold IndeedClient.call, IndeedClient.search_jobs, indeed_parsed.
  open_call. destruct keywords as [[|k ks]|]; simpl;
    (destruct (net w 0) as [resp|e]; simpl; [|discriminate]);
    (destruct (status_code resp =? 200)%Z; simpl; [|discriminate]);
    intros H; exists resp; (split; [reflexivity|]);
    revert H; walk; intros H; try discriminate; exact H.
Qed.

Lemma glassdoor_call_ok w c job_title location radius keywords limit postings :
  fst (GlassdoorClient.call w c job_title location radius keywords limit) = Ok postings ->
  exists resp, net w 0 = Ok resp /\ glassdoor_parsed w resp = Ok postings.
Proof.
  unfold GlassdoorClient.call, GlassdoorClient.search_jobs, glassdoor_parsed.
  open_call. destruct keywords as [[|k ks]|]; simpl;
    (destruct (net w 0) as [resp|e]; simpl; [|discriminate]);
    (destruct (status_code resp =? 200)%Z; simpl; [|discriminate]);
    intros H; exists resp; (split; [reflexivity|]);
    revert H; walk; intros H; try discriminate; exact H.
Qed.

(** What the Indeed client makes of a record whose location is a string
    or is missing. *)
Lemma indeed_posting_of_located w record :
  located "formattedLocation" record ->
  exists posting,
    IndeedClient.posting_of w record = Ok posting
    /\ raw_data posting = record
    /\ source posting = Some INDEED
    /\ required_skills posting = VList []
    /\ Py.get record "jobkey" (VStr "") = Ok (job_id posting)
    /\ Py.get record "date" (VStr (today w)) = Ok (posted_date posting)
    /\ Py.truthy (formatted_address (location posting)) = true.
Proof.
  intros (d & -> & L). unfold IndeedClient.posting_of.
  assert (E : exists s, Py.get (VDict d) "formattedLocation" (VStr "") = Ok (VStr s)).
  { simpl. destruct L as [->|(s & ->)]; eexists; reflexivity. }
  destruct E as (s & ->). cbn [rbind].
  rewrite city_of_string, country_of_string. cbn [rbind Py.get].
  eexists. split; [reflexivity|].
  cbn [raw_data source required_skills job_id posted_date location JobPosting_init].
  repeat split. apply address_set.
Qed.

(** X14: out of a body whose records have a string (or nothing) as
    location, the Indeed client makes one posting per record, in the
    order of the records. *)
Theorem indeed_makes_one_posting_per_record
  w c job_title place radius keywords limit resp data records :
  net w 0 = Ok resp ->
  status_code resp = 200%Z ->
  json resp = Ok (VDict data) ->
  Py.lookup "results" data = Some (VList records) ->
  Forall (located "formattedLocation") records ->
  exists postings,
    fst (IndeedClient.call w c job_title place radius keywords limit) = Ok postings
    /\ Forall2 (fun record posting =>
                  raw_data posting = record
                  /\ source posting = Some INDEED
                  /\ required_skills posting = VList []
                  /\ Py.get record "jobkey" (VStr "") = Ok (job_id posting)
                  /\ Py.get record "date" (VStr (today w)) = Ok (posted_date posting)
                  /\ Py.truthy (formatted_address (location posting)) = true)
         records postings.
Proof.
  intros N S200 J R W.
  rewrite (indeed_call_result w c job_title place radius keywords limit resp N S200).
  unfold indeed_parsed. rewrite J. simpl. rewrite R. simpl.
  assert (T : Forall (fun x => exists y, IndeedClient.posting_of w x = Ok y) records).
  { eapply Forall_impl; [|exact W]. intros x Hx.
    destruct (indeed_posting_of_located w x Hx) as (p & -> & _). eexists; reflexivity. }
  destruct (for_each_total _ _ T) as (postings & E). rewrite E.
  exists postings. split; [reflexivity|].
  apply for_each_each in E. clear - E W.
  induction E as [|x y l l' Hxy _ IH]; [constructor|].
  inversion W; subst. constructor; [|apply IH; assumption].
  destruct (indeed_posting_of_located w x H1) as (p & Hp & P).
  rewrite Hp in Hxy. inversion Hxy; subst. exact P.
Qed.

Lemma indeed_posting_of_misplaced w record :
  misplaced "formattedLocation" record ->
  is_ok (IndeedClient.posting_of w record) = false.
Proof.
  unfold IndeedClient.posting_of.
  intros [N | (d & -> & [L | (n & L)])].
  - destruct record; try reflexivity. exfalso. eapply N. reflexivity.
  - simpl. rewrite L. reflexivity.
  - simpl. rewrite L. reflexivity.
Qed.

(** X15: one record that is no object, or whose location is [null] or a
    number, makes the whole call raise: the other records are lost. *)
Theorem indeed_one_bad_record_fails_the_call
  w c job_title location radius keywords limit resp data records record :
  net w 0 = Ok resp ->
  status_code resp = 200%Z ->
  json resp = Ok (VDict data) ->
  Py.lookup "results" data = Some (VList records) ->
  In record records ->
  misplaced "formattedLocation" record ->
  is_ok (fst (IndeedClient.call w c job_title location radius keywords limit)) = false.
Proof.
  intros N S200 J R I M.
  rewrite (indeed_call_result w c job_title location radius keywords limit resp N S200).
  unfold indeed_parsed. rewrite J. simpl. rewrite R. simpl.
  pose proof (indeed_posting_of_misplaced w record M) as B.
  destruct (IndeedClient.posting_of w record) as [p|e] eqn:P; [discriminate|].
  pose proof (for_each_raises _ _ _ _ I P) as X.
  destruct (for_each (IndeedClient.posting_of w) records); [discriminate|reflexivity].
Qed.

(** X16: whatever the API sent, a posting of the Glassdoor client has
    France as country, the day of the call as date, a string as
    identifier, an empty list of skills and an address that is not
    empty. *)
Theorem glassdoor_postings_are_uniform
  w c job_title place radius keywords limit postings :
  fst (GlassdoorClient.call w c job_title place radius keywords limit) = Ok postings ->
  Forall (fun posting =>
            country (location posting) = VStr "France"
            /\ posted_date posting = VStr (today w)
            /\ (exists s, job_id posting = VStr s)
            /\ source posting = Some GLASSDOOR
            /\ required_skills posting = VList []
            /\ Py.truthy (formatted_address (location posting)) = true)
         postings.
Proof.
  intros H. apply glassdoor_call_ok in H. destruct H as (resp & _ & H).
  unfold glassdoor_parsed in H.
  destruct (json resp) as [data|e]; simpl in H; [|discriminate].
  destruct (Py.get data "response" (VDict [])) as [inner|e]; simpl in H; [|discriminate].
  destruct (Py.get inner "jobListings" (VList [])) as [listed|e]; simpl in H; [|discriminate].
  destruct (Py.iterate listed) as [jobs|e]; simpl in H; [|discriminate].
  apply for_each_each in H.
  induction H as [|x y l l' Hxy _ IH]; constructor; [|exact IH].
  clear IH. unfold GlassdoorClient.posting_of in Hxy.
  repeat match type of Hxy with
         | rbind ?r _ = Ok _ =>
             let v := fresh "v" in
             destruct r as [v|]; cbn [rbind] in Hxy; [|discriminate]
         end.
  inversion Hxy; subst. cbn.
  repeat split; try (eexists; reflexivity).
  destruct (Py.truthy v) eqn:T; [exact T|].
  simpl. rewrite append_not_empty; [reflexivity | discriminate].
Qed.

(** X17: the city and the country read in a location string: without a
    comma the string itself is the city and the country is France; with
    one, the city is what comes before the first comma and the country
    what comes after the last, both without spaces around; neither
    holds a comma. *)
Theorem city_and_country_of_a_string s :
  exists city country,
    city_of (VStr s) = Ok (VStr city)
    /\ country_of (VStr s) = Ok (VStr country)
    /\ comma_free city /\ comma_free country
    /\ (comma_free s -> city = s /\ country = "France")
    /\ (~ comma_free s ->
        city = PyStr.strip (PyStr.split_first s)
        /\ country = PyStr.strip (PyStr.split_last s)
        /\ stripped city /\ stripped country).
Proof.
  rewrite city_of_string, country_of_string. unfold comma_free.
  destruct (split_comma_free s) as (F1 & F2 & _).
  assert (L : comma_free (PyStr.split_last s)).
  { unfold PyStr.split_last. destruct (PyStr.split_comma s) as [hd tl].
    simpl in F1, F2. clear - F1 F2.
    revert hd F1. induction F2 as [|x l Hx _ IH]; intros hd F1; simpl; [exact F1|].
    destruct l; [exact Hx | apply IH; exact F1]. }
  destruct (Py.has_char ","%char s) eqn:E; do 2 eexists;
    (split; [reflexivity|]); (split; [reflexivity|]).
  - repeat split; try (intros; discriminate);
      try apply strip_idempotent; apply strip_comma_free; assumption.
  - repeat split; try reflexivity; try assumption; contradiction.
Qed.

Lemma indeed_makes_one_posting_per_record_witness :
  exists postings,
    fst (IndeedClient.call (MoreSamples.indeed_world MoreSamples.indeed_records)
           Samples.indeed_client "dev" (Some "Lyon") 50 None 10) = Ok postings
    /\ Forall2 (fun record posting =>
                  raw_data posting = record
                  /\ source posting = Some INDEED
                  /\ required_skills posting = VList []
                  /\ Py.get record "jobkey" (VStr "") = Ok (job_id posting)
                  /\ Py.get record "date" (VStr "2024-01-01") = Ok (posted_date posting)
                  /\ Py.truthy (formatted_address (location posting)) = true)
         MoreSamples.indeed_records postings.
Proof.
  apply (indeed_makes_one_posting_per_record
           (MoreSamples.indeed_world MoreSamples.indeed_records)
           Samples.indeed_client "dev" (Some "Lyon") 50%Z None 10%Z
           (Samples.answer 200 (Ok (VDict [("results", VList MoreSamples.indeed_records)])))
           [("results", VList MoreSamples.indeed_records)] MoreSamples.indeed_records
           eq_refl eq_refl eq_refl eq_refl).
  repeat constructor; eexists; (split; [reflexivity|]);
    [right; eexists; reflexivity | left; reflexivity].
Defined.

Lemma indeed_one_bad_record_fails_the_call_witness :
  is_ok (fst (IndeedClient.call
                (MoreSamples.indeed_world
                   (MoreSamples.indeed_records ++ [MoreSamples.misplaced_record])%list)
                Samples.indeed_client "dev" None 50 None 10)) = false.
Proof.
  apply (indeed_one_bad_record_fails_the_call
           (MoreSamples.indeed_world
              (MoreSamples.indeed_records ++ [MoreSamples.misplaced_record])%list)
           Samples.indeed_client "dev" None 50%Z None 10%Z
           (Samples.answer 200
              (Ok (VDict [("results",
                           VList (MoreSamples.indeed_records
                                  ++ [MoreSamples.misplaced_record])%list)])))
           [("results", VList (MoreSamples.indeed_records
                               ++ [MoreSamples.misplaced_record])%list)]
           (MoreSamples.indeed_records ++ [MoreSamples.misplaced_record])%list
           MoreSamples.misplaced_record
           eq_refl eq_refl eq_refl eq_refl).
  - simpl. auto.
  - right. eexists. split; [reflexivity|]. left. reflexivity.
Defined.

Lemma glassdoor_postings_are_uniform_witness :
  Forall (fun posting =>
            country (location posting) = VStr "France"
            /\ posted_date posting = VStr "2024-01-01"
            /\ (exists s, job_id posting = VStr s)
            /\ source posting = Some GLASSDOOR
            /\ required_skills posting = VList []
            /\ Py.truthy (formatted_address (location posting)) = true)
         (match fst (GlassdoorClient.call Samples.ok_world Samples.glassdoor_client
                       "dev" None 50 None 10) with
          | Ok postings => postings
          | Raise _ => []
          end).
Proof.
  exact (glassdoor_postings_are_uniform Samples.ok_world Samples.glassdoor_client
           "dev" None 50%Z None 10%Z _ eq_refl).
Defined.

End ClientProps.

(* ================================================================== *)
(** ** Batches of France Travail records, and the text of a posting *)
(* ================================================================== *)

Module BatchFacts.
Import JobSearcherAgent Views.
Local Open Scope list_scope.

(** What every normalised record has. *)
Lemma normalise_marks job p :
  normalise job = Ok p ->
  source p = Some FRANCE_TRAVAIL
  /\ raw_data p = obj_raw job
  /\ country (location p) = VStr "France"
  /\ region (location p) = VStr ""
  /\ (exists skills, required_skills p = VList skills).
Proof.
  unfold normalise. intros H.
  repeat match type of H with
         | rbind ?r _ = Ok _ =>
             let v := fresh "v" in
             let E := fresh "E" in
             destruct r as [v|] eqn:E; cbn [rbind] in H; [|discriminate]
         end.
  inversion H; subst.
  cbn [source raw_data country region location required_skills
       JobPosting_init Location_init].
  repeat split.
  match goal with
  | E : (if ?b then _ else _) = Ok ?v |- context [Py.truthy ?v] =>
      destruct b; simpl in E;
      repeat match type of E with
             | rbind ?r _ = Ok _ =>
                 let u := fresh "u" in
                 destruct r as [u|]; cbn [rbind] in E; [|discriminate]
             end;
      inversion E; subst
  end.
  - destruct (Py.truthy (VList _)); eexists; reflexivity.
  - eexists; reflexivity.
Qed.

(** The postings of a batch come from its records, in their order. *)
Lemma process_each_sublist jobs :
  forall p, In p (fst (process_each jobs)) ->
            exists job, In job jobs /\ normalise job = Ok p.
Proof.
  induction jobs as [|job rest IH]; simpl; [contradiction|].
  destruct (process_each rest) as [ps printed]. simpl in IH.
  destruct (normalise job) as [q|e] eqn:N; simpl; intros p.
  - intros [<-|I]; [exists job; auto|].
    destruct (IH p I) as (j & Ij & Nj). exists j. auto.
  - intros I. destruct (IH p I) as (j & Ij & Nj). exists j. auto.
Qed.

Lemma process_each_length jobs :
  List.length (fst (process_each jobs)) <= List.length jobs.
Proof.
  induction jobs as [|job rest IH]; simpl; [lia|].
  destruct (process_each rest) as [ps printed]. simpl in IH.
  destruct (normalise job); simpl; lia.
Qed.

End BatchFacts.

Module BatchProps.
Import JobSearcherAgent Views BatchFacts.
Local Open Scope list_scope.

(** X18: every posting made out of a batch of France Travail records is
    marked as coming from France Travail, keeps the record it was made
    of, is in France, has no region, and has a list as skills; there are
    no more postings than records. *)
Theorem batch_postings_are_marked records postings :
  batch records = Ok postings ->
  List.length postings <= List.length records
  /\ Forall (fun p =>
               source p = Some FRANCE_TRAVAIL
               /\ In (raw_data p) records
               /\ country (location p) = VStr "France"
               /\ region (location p) = VStr ""
               /\ exists skills, required_skills p = VList skills)
            postings.
Proof.
  unfold batch, _process_france_travail_results. cbn [iterate Py.iterate rbind].
  pose proof (process_each_length (map OValue records)) as L.
  pose proof (process_each_sublist (map OValue records)) as S.
  destruct (process_each (map OValue records)) as [ps printed]. simpl in *.
  intros H; inversion H; subst. clear H.
  rewrite length_map in L. split; [exact L|].
  apply Forall_forall. intros p I.
  destruct (S p I) as (job & Ij & N).
  apply in_map_iff in Ij. destruct Ij as (r & <- & Ir).
  destruct (normalise_marks _ _ N) as (M1 & M2 & M3 & M4 & M5).
  simpl in M2. rewrite M2. repeat split; assumption.
Qed.

Lemma batch_postings_are_marked_witness :
  List.length (match batch Samples.sample_batch with
               | Ok postings => postings
               | Raise _ => []
               end) <= List.length Samples.sample_batch
  /\ Forall (fun p =>
               source p = Some FRANCE_TRAVAIL
               /\ In (raw_data p) Samples.sample_batch
               /\ country (location p) = VStr "France"
               /\ region (location p) = VStr ""
               /\ exists skills, required_skills p = VList skills)
            (match batch Samples.sample_batch with
             | Ok postings => postings
             | Raise _ => []
             end).
Proof.
  exact (batch_postings_are_marked Samples.sample_batch _ eq_refl).
Defined.

End BatchProps.

Module ModelFacts.
Import JobSearcherAgent JobModels.

(** The location of a normalised record. *)
Lemma normalise_location d p :
  normalise (OValue (VDict d)) = Ok p ->
  exists lieu city postal,
    Py.get (VDict d) "lieuTravail" (VDict []) = Ok lieu
    /\ Py.get lieu "libelle" (VStr "") = Ok city
    /\ Py.get lieu "codePostal" (VStr "") = Ok postal
    /\ location p
       = Location_init city postal (VStr "") (VStr "France")
           (VStr (Py.str city ++ ", " ++ Py.str postal ++ ", " ++ "France")).
Proof.
  unfold normalise. intros H.
  repeat match type of H with
         | rbind ?r _ = Ok _ =>
             let v := fresh "v" in
             let E := fresh "E" in
             destruct r as [v|] eqn:E; cbn [rbind] in H; [|discriminate]
         end.
  inversion H; subst. cbn [location JobPosting_init].
  refine (ex_intro _ _ (ex_intro _ _ (ex_intro _ _
            (conj _ (conj _ (conj _ eq_refl)))))); eassumption.
Qed.

End ModelFacts.

Module PlaceFacts.
Import JobSearcherAgent JobModels PlaceViews.

(** The names of a list of objects are read without error. *)
Lemma names_of_objects k default comps :
  Forall (fun comp => exists o, comp = VDict o) comps ->
  exists names, for_each (fun comp => Py.get comp k default) comps = Ok names.
Proof.
  induction 1 as [|comp comps [o ->] _ [names IH]]; simpl.
  - eexists. reflexivity.
  - rewrite IH. simpl. eexists. reflexivity.
Qed.

(** A record with objects where objects are read, and an object as its
    place, is normalised. *)
Lemma shaped_normalises d lieu :
  shaped d ->
  Py.lookup "lieuTravail" d = Some (VDict lieu) ->
  exists p, normalise (OValue (VDict d)) = Ok p.
Proof.
  intros (He & Ho & Hs & Hc) L.
  unfold normalise.
  cbn [obj_get obj_raw Py.get rbind PyExtra.contains_str Py.has_key].
  unfold Py.has_key. rewrite L. cbn [Py.get rbind].
  destruct He as [He|[o1 He]]; rewrite He; cbn [Py.get rbind];
    destruct Ho as [Ho|[o2 Ho]]; rewrite Ho; cbn [Py.get rbind];
    destruct Hs as [Hs|[o3 Hs]]; rewrite Hs; cbn [Py.get rbind];
    (destruct Hc as [Hc|(comps & Hc & F)]; rewrite Hc; cbn [Py.iterate rbind];
     [ | destruct (names_of_objects "libelle" (VStr "") comps F) as [names ->];
         cbn [rbind] ]);
    eexists; reflexivity.
Qed.

(** The text of a location whose postal code is a number that is not
    zero cannot be made, whatever the city is. *)
Lemma numeric_postal_code_text place n address :
  n <> 0%Z ->
  Location_str (Location_init place (VInt n) (VStr "") (VStr "France") address)
  = Raise TypeError.
Proof.
  intros N. unfold Location_str. cbn.
  apply Z.eqb_neq in N. rewrite N. cbn.
  destruct (Py.truthy place); cbn; [|reflexivity].
  destruct place; reflexivity.
Qed.

End PlaceFacts.

Module ModelProps.
Import JobSearcherAgent JobModels ModelFacts PlaceViews PlaceFacts.

(** X19: for a France Travail posting whose place has a name and a postal
    code, the text of the location is the address put in it; without
    postal code the address keeps an empty piece that the text has
    not. *)
Theorem france_travail_address_and_text d p lieu c z :
  normalise (OValue (VDict d)) = Ok p ->
  Py.lookup "lieuTravail" d = Some (VDict lieu) ->
  Py.lookup "libelle" lieu = Some (VStr c) ->
  c <> "" ->
  Py.lookup "codePostal" lieu = Some (VStr z) ->
  formatted_address (location p) = VStr (c ++ ", " ++ z ++ ", France")
  /\ Location_str (location p)
     = Ok (if String.eqb z "" then c ++ ", France"
           else c ++ ", " ++ z ++ ", France")
  /\ JobPosting_str p
     = Ok (Py.str (title p) ++ " chez " ++ Py.str (company p) ++ " - "
           ++ (if String.eqb z "" then c ++ ", France"
               else c ++ ", " ++ z ++ ", France")).
Proof.
  intros H L C N Z.
  destruct (normalise_location d p H) as (lieu' & city & postal & E1 & E2 & E3 & E).
  simpl in E1. rewrite L in E1. inversion E1; subst lieu'.
  simpl in E2. rewrite C in E2. inversion E2; subst city.
  simpl in E3. rewrite Z in E3. inversion E3; subst postal.
  assert (T : Location_str (location p)
              = Ok (if String.eqb z "" then c ++ ", France"
                    else c ++ ", " ++ z ++ ", France")).
  { rewrite E. unfold Location_str. cbn.
    apply String.eqb_neq in N. rewrite N. cbn.
    destruct (String.eqb z ""); reflexivity. }
  unfold JobPosting_str. rewrite T. split; [|split; reflexivity].
  rewrite E. cbn.
  destruct ((c ++ ", " ++ z ++ ", France") =? "")%string eqn:X;
    [|cbn in X |- *; rewrite X; reflexivity].
  apply String.eqb_eq in X. destruct c; discriminate.
Qed.

(** X20: a France Travail record that has objects where objects are read
    (entreprise, origineOffre and salaire are missing or objects,
    competences is missing or a list of objects) and whose place is an
    object with a number that is not zero as postal code is normalised
    into a posting, whatever the name of the place is; the number is
    kept as the postal code and written in the address, and the text of
    the location and of the posting cannot be made. *)
Theorem numeric_postal_code_breaks_the_text d lieu n :
  shaped d ->
  Py.lookup "lieuTravail" d = Some (VDict lieu) ->
  Py.lookup "codePostal" lieu = Some (VInt n) ->
  n <> 0%Z ->
  exists p,
    normalise (OValue (VDict d)) = Ok p
    /\ fst (process_each [OValue (VDict d)]) = [p]
    /\ city (location p) = place_name lieu
    /\ postal_code (location p) = VInt n
    /\ formatted_address (location p)
       = VStr (Py.str (place_name lieu) ++ ", " ++ PyStr.of_Z n ++ ", France")
    /\ Location_str (location p) = Raise TypeError
    /\ JobPosting_str p = Raise TypeError.
Proof.
  intros S L Z N.
  destruct (shaped_normalises d lieu S L) as [p H].
  exists p. split; [exact H|].
  split; [cbn [process_each]; rewrite H; reflexivity|].
  destruct (normalise_location d p H) as (lieu' & place & postal & E1 & E2 & E3 & E).
  simpl in E1. rewrite L in E1. inversion E1; subst lieu'.
  simpl in E2. fold (place_name lieu) in E2. inversion E2; subst place.
  simpl in E3. rewrite Z in E3. inversion E3; subst postal.
  assert (T : Location_str (location p) = Raise TypeError).
  { rewrite E. apply numeric_postal_code_text; exact N. }
  unfold JobPosting_str. rewrite T.
  split; [rewrite E; reflexivity|]. split; [rewrite E; reflexivity|].
  split; [|split; reflexivity].
  rewrite E. cbn.
  destruct ((Py.str (place_name lieu) ++ ", " ++ PyStr.of_Z n ++ ", France")
            =? "")%string eqn:X;
    [|cbn in X |- *; rewrite X; reflexivity].
  apply String.eqb_eq in X. destruct (Py.str (place_name lieu)); discriminate.
Qed.

Lemma france_travail_address_and_text_witness :
  exists p,
    normalise (OValue (VDict (MoreSamples.placed_record (VStr "69003")))) = Ok p
    /\ formatted_address (location p) = VStr "Lyon, 69003, France"
    /\ Location_str (location p) = Ok "Lyon, 69003, France"
    /\ JobPosting_str p
       = Ok ("Dev chez " ++ placeholder ++ " - Lyon, 69003, France").
Proof.
  eexists. split; [reflexivity|].
  refine (france_travail_address_and_text
            (MoreSamples.placed_record (VStr "69003")) _
            [("libelle", VStr "Lyon"); ("codePostal", VStr "69003")]
            "Lyon" "69003" eq_refl eq_refl eq_refl _ eq_refl).
  discriminate.
Defined.

Lemma numeric_postal_code_breaks_the_text_witness :
  shaped (MoreSamples.placed_record (VInt 69003))
  /\ shaped RoundSamples.nameless_record
  /\ (exists p,
        normalise (OValue (VDict (MoreSamples.placed_record (VInt 69003)))) = Ok p
        /\ formatted_address (location p) = VStr "Lyon, 69003, France"
        /\ Location_str (location p) = Raise TypeError
        /\ JobPosting_str p = Raise TypeError)
  /\ (exists p,
        normalise (OValue (VDict RoundSamples.nameless_record)) = Ok p
        /\ formatted_address (location p) = VStr ", 69003, France"
        /\ Location_str (location p) = Raise TypeError
        /\ JobPosting_str p = Raise TypeError).
Proof.
  assert (S1 : shaped (MoreSamples.placed_record (VInt 69003)))
    by (repeat split; left; reflexivity).
  assert (S2 : shaped RoundSamples.nameless_record)
    by (repeat split; left; reflexivity).
  split; [exact S1|]. split; [exact S2|]. split.
  - destruct (numeric_postal_code_breaks_the_text
                (MoreSamples.placed_record (VInt 69003))
                [("libelle", VStr "Lyon"); ("codePostal", VInt 69003)]
                69003%Z S1 eq_refl eq_refl)
      as (p & H & _ & _ & _ & A & T & J); [discriminate|].
    exists p. repeat split; assumption.
  - destruct (numeric_postal_code_breaks_the_text
                RoundSamples.nameless_record
                [("codePostal", VInt 69003)]
                69003%Z S2 eq_refl eq_refl)
      as (p & H & _ & _ & _ & A & T & J); [discriminate|].
    exists p. repeat split; assumption.
Defined.

End ModelProps.

(* ================================================================== *)
(** ** The search of the agent *)
(* ================================================================== *)

Module SearchFacts.
Import JobSearcherAgent Views AggregatorFacts.
Local Open Scope list_scope.

(** A search that returns, unfolded. *)
Lemma search_unfolds clients finish request response happened :
  search_jobs clients finish request = (Ok response, happened) ->
  available clients <> []
  /\ response
     = {| query := request;
          results := snd (ListSort.sort sort_key true (merged clients finish request));
          available_sources := map JobSource_value (available clients);
          failed_sources :=
            map JobSource_value
              (filter (fails clients request) (completed clients finish));
          total_count :=
            List.length
              (snd (ListSort.sort sort_key true (merged clients finish request))) |}.
Proof.
  intros E.
  assert (N : available clients <> []).
  { intros A. unfold search_jobs in E. fold (available clients) in E.
    rewrite A in E. discriminate E. }
  destruct (search_jobs_returns clients finish request N) as (h & _ & _ & E').
  rewrite E' in E. inversion E; subst. split; [exact N | reflexivity].
Qed.

(** The tasks of a search are those of the available sources, whatever
    the order in which they finish. *)
Lemma search_submits clients finish request :
  submitted (snd (search_jobs clients finish request))
  = map (fun s => {| task_source := s;
                     task_events := snd (_search_on_source clients s request) |})
        (available clients).
Proof.
  unfold search_jobs. fold (available clients).
  destruct (available clients) as [|s0 rest] eqn:A; [reflexivity|].
  destruct (ListSort.sort sort_key true _) as [sorted results']. simpl.
  rewrite !map_map. reflexivity.
Qed.

Lemma filter_permutes {X} (p : X -> bool) l l' :
  Permutation l l' -> Permutation (filter p l) (filter p l').
Proof.
  induction 1 as [|x l l' _ IH|x y l|l l' l'' _ IH1 _ IH2]; simpl.
  - constructor.
  - destruct (p x); [constructor|]; exact IH.
  - destruct (p x), (p y); try apply Permutation_refl. constructor.
  - eapply Permutation_trans; eassumption.
Qed.

Lemma completed_permutes clients finish finish' :
  Permutation (completed clients finish) (completed clients finish').
Proof.
  unfold completed.
  eapply Permutation_trans; [apply as_completed_permutes|].
  apply Permutation_sym, as_completed_permutes.
Qed.

End SearchFacts.

Module SearchProps.
Import JobSearcherAgent Views AggregatorFacts SearchFacts.
Local Open Scope list_scope.

(** X21: the order in which the tasks finish changes the order of the
    results and of the failed sources, and nothing else. *)
Theorem completion_order_changes_only_the_order
  clients finish finish' request response happened :
  search_jobs clients finish request = (Ok response, happened) ->
  exists response' happened',
    search_jobs clients finish' request = (Ok response', happened')
    /\ Permutation (results response') (results response)
    /\ Permutation (failed_sources response') (failed_sources response)
    /\ available_sources response' = available_sources response
    /\ total_count response' = total_count response
    /\ submitted happened' = submitted happened.
Proof.
  intros E. destruct (search_unfolds _ _ _ _ _ E) as [N ->].
  destruct (search_jobs_returns clients finish' request N) as (h' & _ & _ & E').
  pose proof (search_submits clients finish request) as S.
  pose proof (search_submits clients finish' request) as S'.
  rewrite E in S. rewrite E' in S'. simpl in S, S'.
  assert (P : Permutation
                (snd (ListSort.sort sort_key true (merged clients finish' request)))
                (snd (ListSort.sort sort_key true (merged clients finish request)))).
  { eapply Permutation_trans; [apply SortFacts.sort_permutes|].
    eapply Permutation_trans; [|apply Permutation_sym, SortFacts.sort_permutes].
    unfold merged. apply Permutation_flat_map, completed_permutes. }
  eexists. exists h'. split; [exact E'|]. simpl.
  repeat split.
  - exact P.
  - apply Permutation_map, filter_permutes, completed_permutes.
  - apply Permutation_length, P.
  - congruence.
Qed.

(** X22: when nothing is configured for France Travail, the search of
    such an agent still returns: no result, France Travail among the
    failed sources, nothing sent. *)
Theorem unconfigured_agent_returns_nothing w id secret key finish request :
  Py.truthy_opt key = false ->
  Py.truthy_opt id && Py.truthy_opt secret = false ->
  exists happened,
    search_jobs (Wiring.agent_clients w id secret key) finish request
    = (Ok {| query := request; results := [];
             available_sources := ["france_travail"];
             failed_sources := ["france_travail"];
             total_count := 0 |}, happened)
    /\ network_calls happened = []
    /\ printed happened
       = [LogFanInError FRANCE_TRAVAIL
            (ValueError FranceTravailClient.not_configured)].
Proof.
  intros K C. eexists.
  unfold search_jobs. cbn [filter sources is_some Wiring.agent_clients init_clients
                           _init_client fst map as_completed fold_left insert_by].
  unfold fan_in_step, _search_on_source.
  cbn [Wiring.agent_clients init_clients _init_client fst].
  unfold Wiring.france_travail.
  rewrite (TokenFacts.unconfigured_call w id secret key _ K C).
  cbn. repeat split.
Qed.

Lemma unconfigured_agent_returns_nothing_witness :
  exists happened,
    search_jobs (Wiring.agent_clients Samples.calm_world None (Some "secret") None)
      Samples.at_once Samples.any_query
    = (Ok {| query := Samples.any_query; results := [];
             available_sources := ["france_travail"];
             failed_sources := ["france_travail"];
             total_count := 0 |}, happened)
    /\ network_calls happened = []
    /\ printed happened
       = [LogFanInError FRANCE_TRAVAIL
            (ValueError FranceTravailClient.not_configured)].
Proof.
  exact (unconfigured_agent_returns_nothing Samples.calm_world None (Some "secret")
           None Samples.at_once Samples.any_query eq_refl eq_refl).
Defined.

Lemma completion_order_changes_only_the_order_witness :
  exists response' happened',
    search_jobs MoreSamples.two_sources MoreSamples.indeed_first Samples.any_query
    = (Ok response', happened')
    /\ Permutation (results response')
         (results (match fst (search_jobs MoreSamples.two_sources Samples.at_once
                                Samples.any_query) with
                   | Ok response => response
                   | Raise _ => response'
                   end))
    /\ Permutation (failed_sources response') []
    /\ available_sources response' = ["france_travail"; "indeed"]
    /\ total_count response' = 3
    /\ submitted happened'
       = submitted (snd (search_jobs MoreSamples.two_sources Samples.at_once
                           Samples.any_query)).
Proof.
  exact (completion_order_changes_only_the_order MoreSamples.two_sources
           Samples.at_once MoreSamples.indeed_first Samples.any_query _ _ eq_refl).
Defined.

End SearchProps.

Module AgentFacts.
Import JobSearcherAgent Views BatchFacts.
Local Open Scope list_scope.

(** What France Travail brings to the results are postings marked as
    its own. *)
Lemma france_travail_contribution clients request :
  Forall (fun job => exists p, job = OPosting p /\ source p = Some FRANCE_TRAVAIL)
         (contribution clients request FRANCE_TRAVAIL).
Proof.
  unfold contribution, gathered, collect.
  destruct (task_outcome clients request FRANCE_TRAVAIL) as [found|e];
    [|constructor].
  unfold _process_france_travail_results.
  destruct (iterate found) as [jobs|e]; [|constructor].
  pose proof (process_each_sublist jobs) as S.
  destruct (process_each jobs) as [ps printed]. simpl in *.
  apply Forall_forall. intros job I.
  apply in_map_iff in I. destruct I as (p & <- & Ip).
  destruct (S p Ip) as (j & _ & N).
  exists p. split; [reflexivity|]. apply (normalise_marks _ _ N).
Qed.

End AgentFacts.

Module AgentProps.
Import JobSearcherAgent Views AggregatorFacts SearchFacts AgentFacts.
Local Open Scope list_scope.

(** X23: an agent built by [__init__] always has France Travail, and only
    France Travail, to search: its search never raises for want of a
    source, whatever the environment holds, and every result is a
    posting of France Travail. *)
Theorem built_agent_searches_france_travail w id secret key finish request :
  exists response happened,
    search_jobs (Wiring.agent_clients w id secret key) finish request
    = (Ok response, happened)
    /\ available_sources response = ["france_travail"]
    /\ map task_source (submitted happened) = [FRANCE_TRAVAIL]
    /\ Forall (fun job => exists p, job = OPosting p
                                    /\ source p = Some FRANCE_TRAVAIL)
              (results response).
Proof.
  assert (A : available (Wiring.agent_clients w id secret key) = [FRANCE_TRAVAIL])
    by reflexivity.
  assert (N : available (Wiring.agent_clients w id secret key) <> [])
    by (rewrite A; discriminate).
  destruct (search_jobs_returns _ finish request N) as (h & S & _ & E).
  eexists. exists h. split; [exact E|]. simpl. rewrite S, A.
  repeat split.
  eapply Permutation_Forall;
    [apply Permutation_sym, SortFacts.sort_permutes|].
  unfold merged, completed. rewrite A. simpl. rewrite app_nil_r.
  apply france_travail_contribution.
Qed.

End AgentProps.

(* ================================================================== *)
(** ** Equal dates *)
(* ================================================================== *)

Module StableFacts.
Import ListSort SortViews StableViews SortFacts.
Local Open Scope list_scope.

Section Stable.
Context {A : Type}.
Implicit Types (x y pivot : @item A)
  (l pre items sorted pending run : list (@item A)).

Lemma ltb_irreflexive s : PyStr.ltb s s = false.
Proof.
  unfold PyStr.ltb, String.ltb. rewrite StringOrderFacts.compare_refl. reflexivity.
Qed.

Lemma with_key_app k l pre :
  with_key skey k (l ++ pre) = with_key skey k l ++ with_key skey k pre.
Proof. apply filter_app. Qed.

(** No element of the list has the key. *)
Lemma with_key_none k l :
  Forall (fun y => skey y <> k) l -> with_key skey k l = [].
Proof.
  induction 1 as [|y l Hy _ IH]; [reflexivity|].
  unfold with_key in *. simpl. apply String.eqb_neq in Hy. rewrite Hy. exact IH.
Qed.

(** Insertion by halving puts the pivot after the elements that have
    its key. *)
Lemma insert_stable fuel : forall pivot pre l,
  Forall str_keyed pre -> ascending pre ->
  insert fuel pivot pre = Ok l ->
  str_keyed pivot ->
  List.length pre < fuel ->
  forall k, with_key skey k l = with_key skey k (pre ++ [pivot]).
Proof.
  induction fuel as [|fuel IH]; intros pivot pre l Hk Hs E Hp Hlen k; [lia|].
  rewrite insert_step in E.
  pose proof (firstn_skipn (List.length pre / 2) pre) as Split.
  pose proof (length_skipn (List.length pre / 2) pre) as Lskip.
  pose proof (length_firstn (List.length pre / 2) pre) as Lfirst.
  assert (Hhalf : pre <> [] -> List.length pre / 2 < List.length pre).
  { intros N. apply half_lt. destruct pre; [contradiction|simpl; lia]. }
  remember (List.length pre / 2) as p eqn:Ep. clear Ep.
  remember (firstn p pre) as before eqn:Eb. clear Eb.
  destruct (skipn p pre) as [|x after] eqn:Sk; rewrite ?Sk in *.
  - inversion E; subst. reflexivity.
  - subst pre. rewrite length_app in *. simpl in *.
    apply Forall_app in Hk. destruct Hk as [Kb Ka].
    inversion Ka as [|? ? Kx Kafter]; subst.
    apply sorted_app in Hs. destruct Hs as (Sb & Sa & Sba).
    apply StronglySorted_inv in Sa. destruct Sa as [Safter Sx].
    rewrite (lt_str_keyed _ _ Hp Kx) in E.
    destruct (PyStr.ltb (skey pivot) (skey x)) eqn:L.
    + destruct (insert fuel pivot before) as [before'|e] eqn:E'; [|discriminate].
      inversion E; subst. clear E.
      assert (Lb : List.length before < fuel) by lia.
      rewrite !with_key_app, (IH _ _ _ Kb Sb E' Hp Lb k), with_key_app.
      rewrite <- !app_assoc. f_equal.
      destruct (String.eqb (skey pivot) k) eqn:Same.
      * apply String.eqb_eq in Same.
        rewrite (with_key_none k (x :: after)); [rewrite app_nil_r; reflexivity|].
        constructor.
        -- intros Ex. rewrite Ex, <- Same, ltb_irreflexive in L. discriminate.
        -- rewrite Forall_forall in Sx |- *. intros y Hy Ey.
           specialize (Sx y Hy). unfold upto, StringOrder.le in Sx.
           rewrite Ey, <- Same, L in Sx. discriminate.
      * apply String.eqb_neq in Same.
        rewrite (with_key_none k [pivot]) by (repeat constructor; exact Same).
        rewrite app_nil_r. reflexivity.
    + destruct (insert fuel pivot after) as [after'|e] eqn:E'; [|discriminate].
      inversion E; subst. clear E.
      assert (La : List.length after < fuel) by lia.
      change (before ++ x :: after') with (before ++ [x] ++ after').
      change ((before ++ x :: after) ++ [pivot])
        with ((before ++ [x] ++ after) ++ [pivot]).
      rewrite !with_key_app, (IH _ _ _ Kafter Safter E' Hp La k), with_key_app.
      rewrite <- !app_assoc. reflexivity.
Qed.

Lemma binarysort_stable pending : forall sorted l,
  Forall str_keyed sorted -> Forall str_keyed pending -> ascending sorted ->
  binarysort sorted pending = (Ok tt, l) ->
  forall k, with_key skey k l = with_key skey k (sorted ++ pending).
Proof.
  induction pending as [|pivot rest IH]; intros sorted l Ks Kp Hs E k;
    cbn [binarysort] in E.
  - inversion E; subst. rewrite app_nil_r. reflexivity.
  - inversion Kp as [|? ? Kpivot Krest]; subst.
    destruct (insert_ordered (S (List.length sorted)) pivot sorted)
      as (l' & E' & Sl); auto.
    rewrite E' in E.
    assert (Kl : Forall str_keyed l').
    { pose proof (insert_permutes _ _ _ _ E') as P. apply Permutation_sym in P.
      eapply Permutation_Forall; [exact P|]. constructor; assumption. }
    rewrite (IH l' l Kl Krest Sl E k), with_key_app.
    rewrite (insert_stable _ _ _ _ Ks Hs E' Kpivot (Nat.lt_succ_diag_r _) k).
    change (pivot :: rest) with ([pivot] ++ rest).
    rewrite !with_key_app, <- app_assoc. reflexivity.
Qed.

(** A run that goes strictly down holds a key once at most: turned
    round, the elements that have a given key are the same. *)
Lemma rev_stable run :
  StronglySorted downto run -> forall k, with_key skey k (rev run) = with_key skey k run.
Proof.
  induction 1 as [|a l H IH F]; intros k; [reflexivity|].
  simpl rev. rewrite with_key_app, IH.
  change (a :: l) with ([a] ++ l). rewrite with_key_app.
  destruct (String.eqb (skey a) k) eqn:Same.
  - apply String.eqb_eq in Same.
    rewrite (with_key_none k l); [rewrite app_nil_r; reflexivity|].
    rewrite Forall_forall in F |- *. intros y Hy Ey.
    specialize (F y Hy). unfold downto in F.
    rewrite Ey, <- Same, ltb_irreflexive in F. discriminate.
  - apply String.eqb_neq in Same.
    rewrite (with_key_none k [a]) by (repeat constructor; exact Same).
    rewrite app_nil_r. reflexivity.
Qed.

Lemma count_run_strict items n :
  Forall str_keyed items ->
  count_run items = Ok (n, true) ->
  StronglySorted downto (firstn n items).
Proof.
  intros F. destruct items as [|a [|b rest]]; try discriminate.
  inversion F as [|? ? Ha F']; subst. inversion F' as [|? ? Hb Hrest]; subst.
  cbn [count_run]. rewrite (lt_str_keyed _ _ Hb Ha).
  destruct (PyStr.ltb (skey b) (skey a)) eqn:L.
  - destruct (run_descending_chain rest b 2 Hb Hrest) as (k & -> & Srt).
    intros H; inversion H; subst.
    change (firstn (2 + k) (a :: b :: rest)) with (a :: b :: firstn k rest).
    constructor; [exact Srt|].
    constructor; [exact L|].
    apply StronglySorted_inv in Srt. destruct Srt as [_ G].
    rewrite Forall_forall in G |- *. intros y Hy.
    eapply downto_trans; [exact L | apply G; exact Hy].
  - destruct (run_ascending_chain rest b 2 Hb Hrest) as (k & -> & _).
    discriminate.
Qed.

Lemma sort_items_stable items l :
  Forall str_keyed items ->
  sort_items items = (Ok tt, l) ->
  forall k, with_key skey k l = with_key skey k items.
Proof.
  intros K E k. unfold sort_items in E.
  destruct (List.length items <? 2); [inversion E; reflexivity|].
  destruct (count_run_ordered items K) as (n & descending & C & Srun).
  rewrite C in E.
  pose proof K as K'. rewrite <- (firstn_skipn n items) in K'.
  apply Forall_app in K'. destruct K' as [Kf Ks].
  assert (Kr : Forall str_keyed (if descending then rev (firstn n items)
                                 else firstn n items)).
  { destruct descending; [apply Forall_rev|]; exact Kf. }
  rewrite (binarysort_stable _ _ _ Kr Ks Srun E k), with_key_app.
  transitivity (with_key skey k (firstn n items ++ skipn n items));
    [|rewrite firstn_skipn; reflexivity].
  rewrite with_key_app. f_equal.
  destruct descending; [|reflexivity].
  apply rev_stable. apply count_run_strict; assumption.
Qed.

End Stable.

(** [l.sort(key=key, reverse=True)] on string keys: the elements that
    have the same key stay in the order they had. *)
Lemma sort_reverse_stable {A} (key : A -> value) (l l' : list A) :
  Forall (fun x => exists s, key x = VStr s) l ->
  sort key true l = (Ok tt, l') ->
  forall k, with_key (key_text key) k l' = with_key (key_text key) k l.
Proof.
  intros K E k. unfold sort in E.
  set (items := map (fun x => (key x, x)) l) in *.
  assert (Inv : Forall (fun it : @item A => fst it = key (snd it) /\ str_keyed it)
                  (rev items)).
  { apply Forall_rev. unfold items. rewrite Forall_map.
    rewrite Forall_forall in K |- *. intros x Hx.
    destruct (K x Hx) as [s Es]. unfold str_keyed, skey. simpl. rewrite Es. auto. }
  assert (Ks : Forall str_keyed (rev items)).
  { rewrite Forall_forall in Inv |- *. intros it Hit. apply Inv. exact Hit. }
  pose proof (sort_items_permutes (rev items)) as Q.
  destruct (sort_items (rev items)) as [r items'] eqn:S.
  inversion E; subst r l'. clear E. simpl in Q.
  pose proof (sort_items_stable (rev items) items' Ks S k) as St.
  assert (Agree : forall its : list (@item A),
             Forall (fun it => fst it = key (snd it) /\ str_keyed it) its ->
             with_key (key_text key) k (map snd its)
             = map snd (with_key (@skey A) k its)).
  { intros its F. unfold with_key. rewrite filter_map_swap. f_equal.
    apply filter_ext_in. intros it Hit. rewrite Forall_forall in F.
    destruct (F it Hit) as [E1 _]. unfold key_text, skey. rewrite E1. reflexivity. }
  assert (Inv' : Forall (fun it : @item A => fst it = key (snd it) /\ str_keyed it)
                   (rev items')).
  { apply Forall_rev. eapply Permutation_Forall; [apply Permutation_sym; exact Q|].
    exact Inv. }
  assert (Inv0 : Forall (fun it : @item A => fst it = key (snd it) /\ str_keyed it)
                   items).
  { apply Forall_rev in Inv. rewrite rev_involutive in Inv. exact Inv. }
  assert (R : with_key (@skey A) k (rev items') = with_key (@skey A) k items).
  { unfold with_key in *. rewrite filter_rev, St, filter_rev, rev_involutive.
    reflexivity. }
  rewrite (Agree _ Inv'), R, <- (Agree _ Inv0).
  unfold items. rewrite map_map. simpl. rewrite map_id. reflexivity.
Qed.

End StableFacts.

Module StableProps.
Import JobSearcherAgent Views SortViews StableViews SearchFacts StableFacts.
Local Open Scope list_scope.

(** X24: when the posting dates are strings (or missing), the postings
    that have the same date come in the results in the order in which
    they were merged. *)
Theorem equal_dates_keep_merge_order clients finish request response happened :
  search_jobs clients finish request = (Ok response, happened) ->
  Forall dated (merged clients finish request) ->
  forall d,
    with_key date_text d (results response)
    = with_key date_text d (merged clients finish request).
Proof.
  intros E D d. destruct (search_unfolds _ _ _ _ _ E) as [_ ->]. simpl.
  assert (K : Forall (fun x => exists s, sort_key x = VStr s)
                (merged clients finish request)).
  { eapply Forall_impl; [|exact D]. intros [j|v]; simpl.
    - intros [[s Es]|Es]; rewrite Es; simpl.
      + destruct (negb (String.eqb s "")); eexists; reflexivity.
      + eexists; reflexivity.
    - intros _. eexists; reflexivity. }
  destruct (SortFacts.sort_reverse_ordered sort_key _ K) as (l' & S & _).
  rewrite S. simpl.
  exact (sort_reverse_stable sort_key _ l' K S d).
Qed.

Lemma equal_dates_keep_merge_order_witness :
  with_key date_text "2024-01-10"
    (results (match fst (search_jobs MoreSamples.two_sources MoreSamples.indeed_first
                           Samples.any_query) with
              | Ok response => response
              | Raise _ =>
                  {| query := Samples.any_query; results := [];
                     available_sources := []; failed_sources := [];
                     total_count := 0 |}
              end))
  = with_key date_text "2024-01-10"
      (merged MoreSamples.two_sources MoreSamples.indeed_first Samples.any_query).
Proof.
  apply (equal_dates_keep_merge_order MoreSamples.two_sources MoreSamples.indeed_first
           Samples.any_query _ _ eq_refl).
  apply Forall_forall. intros job I. vm_compute in I.
  repeat (destruct I as [<-|I]; [left; eexists; reflexivity|]).
  contradiction.
Defined.

End StableProps.

(* ================================================================== *)
(** ** The enrichment of a query *)
(* ================================================================== *)

Module EnrichmentProps.
Import TextViews TextFacts Enrichment.


Lemma join_strings sep l :
  JobModels.join sep (VList (map VStr l)) = Ok (PyStr.join sep l).
Proof.
  unfold JobModels.join. cbn [Py.iterate rbind].
  assert (E : for_each JobModels.join_item (map VStr l) = Ok l).
  { induction l as [|x l IH]; [reflexivity|]. simpl. rewrite IH. reflexivity. }
  rewrite E. reflexivity.
Qed.

Lemma pair_texts_of_objects d k a sep b :
  (forall v, Py.lookup k d = Some v -> exists l, v = VList (map VDict l)) ->
  exists l, pair_texts (VDict d) k a sep b = Ok (VList (map VStr l)).
Proof.
  intros H. unfold pair_texts. cbn [Py.get rbind].
  assert (E : exists objects,
             match Py.lookup k d with Some x => x | None => VList [] end
             = VList (map VDict objects)).
  { destruct (Py.lookup k d) as [v|]; [apply H; reflexivity|].
    exists []. reflexivity. }
  destruct E as (objects & ->). cbn [Py.iterate rbind].
  assert (T : exists l, for_each (pair_text a sep b) (map VDict objects)
                        = Ok (map VStr l)).
  { induction objects as [|o objects (l & IH)]; [exists []; reflexivity|].
    simpl. rewrite IH. simpl. eexists (_ :: l). reflexivity. }
  destruct T as (l & ->). exists l. reflexivity.
Qed.

(** X25: without CV data the answer is the empty list and the chain is
    not invoked; with plain CV data the text of the CV is always built
    (what is missing is left empty) and the chain is invoked once; what
    it answers is cut at the commas and stripped, what it raises is
    raised. *)
Theorem enrich_invokes_chain_once llm job_title place :
  (forall cv_data, Py.truthy cv_data = false ->
     enrich_search_query llm job_title place cv_data = (Ok [], []))
  /\ (forall d, d <> [] -> CvViews.plain_cv d ->
        exists text,
          cv_text (VDict d) = Ok text
          /\ enrich_search_query llm job_title place (VDict d)
             = (match llm {| inv_cv_data := text; inv_job_title := job_title;
                             inv_location := place |} with
                | Ok answer => Ok (map PyStr.strip (split answer))
                | Raise e => Raise e
                end,
                [{| inv_cv_data := text; inv_job_title := job_title;
                    inv_location := place |}])).
Proof.
  split.
  - intros cv_data T. unfold enrich_search_query. rewrite T. reflexivity.
  - intros d N (P1 & P2 & P3).
    assert (C : exists text, cv_text (VDict d) = Ok text).
    { unfold cv_text. cbn [Py.get rbind].
      assert (S : exists l,
                 match Py.lookup "skills" d with Some x => x | None => VList [] end
                 = VList (map VStr l)).
      { destruct (Py.lookup "skills" d) as [v|]; [apply P1; reflexivity|].
        exists []. reflexivity. }
      destruct S as (skills & ->). rewrite join_strings. cbn [rbind].
      destruct (pair_texts_of_objects d "experiences" "position" " chez " "company" P2)
        as (l2 & ->).
      cbn [rbind]. rewrite join_strings. cbn [rbind].
      destruct (pair_texts_of_objects d "education" "diploma" " en " "field_of_study" P3)
        as (l3 & ->).
      cbn [rbind]. rewrite join_strings. cbn [rbind].
      eexists. reflexivity. }
    destruct C as (text & C). exists text. split; [exact C|].
    unfold enrich_search_query. rewrite C.
    destruct d; [contradiction|]. cbn [Py.truthy negb].
    destruct (llm _); reflexivity.
Qed.

(** X26: when the chain has answered, there is one keyword more than
    there are commas in the answer (so at least one, possibly empty);
    no keyword has a space at either end, none holds a comma. *)
Theorem enrich_keywords_shape llm job_title location cv_data keywords asked :
  Py.truthy cv_data = true ->
  enrich_search_query llm job_title location cv_data = (Ok keywords, asked) ->
  exists text answer,
    cv_text cv_data = Ok text
    /\ asked = [{| inv_cv_data := text; inv_job_title := job_title;
                   inv_location := location |}]
    /\ llm {| inv_cv_data := text; inv_job_title := job_title;
              inv_location := location |} = Ok answer
    /\ List.length keywords = S (commas answer)
    /\ Forall stripped keywords
    /\ Forall comma_free keywords.
Proof.
  unfold enrich_search_query. intros ->. simpl.
  destruct (cv_text cv_data) as [text|e]; [|discriminate].
  destruct (llm _) as [answer|e] eqn:L; [|discriminate].
  intros H. inversion H; subst. exists text, answer.
  destruct (split_pieces answer) as [F N].
  repeat split; auto.
  - rewrite length_map. exact N.
  - apply Forall_map. apply Forall_forall. intros x _. apply strip_idempotent.
  - apply Forall_map. eapply Forall_impl; [|exact F].
    intros x. apply strip_comma_free.
Qed.

Lemma enrich_keywords_shape_witness :
  exists text answer,
    cv_text MoreSamples.sample_cv = Ok text
    /\ snd (enrich_search_query MoreSamples.sample_chain "dev" "Lyon" MoreSamples.sample_cv)
       = [{| inv_cv_data := text; inv_job_title := "dev"; inv_location := "Lyon" |}]
    /\ MoreSamples.sample_chain {| inv_cv_data := text; inv_job_title := "dev";
                       inv_location := "Lyon" |} = Ok answer
    /\ List.length ["python"; "sql"; ""; "spark"] = S (commas answer)
    /\ Forall stripped ["python"; "sql"; ""; "spark"]
    /\ Forall comma_free ["python"; "sql"; ""; "spark"].
Proof.
  exact (enrich_keywords_shape MoreSamples.sample_chain "dev" "Lyon" MoreSamples.sample_cv
           ["python"; "sql"; ""; "spark"] _ eq_refl eq_refl).
Defined.

(** X27: keywords written by the chain with a comma and a space between
    them come back as they were, when none of them holds a comma or
    has a space at an end. *)
Theorem enrich_recovers_joined_keywords llm job_title location cv_data text keywords :
  Py.truthy cv_data = true ->
  cv_text cv_data = Ok text ->
  keywords <> [] ->
  Forall stripped keywords ->
  Forall comma_free keywords ->
  llm {| inv_cv_data := text; inv_job_title := job_title;
         inv_location := location |} = Ok (PyStr.join ", " keywords) ->
  fst (enrich_search_query llm job_title location cv_data) = Ok keywords.
Proof.
  intros T C N S F L. unfold enrich_search_query. rewrite T, C. simpl.
  rewrite L. simpl. rewrite strip_split_join; auto.
Qed.

Lemma enrich_recovers_joined_keywords_witness :
  exists text,
    cv_text MoreSamples.sample_cv = Ok text
    /\ fst (enrich_search_query MoreSamples.joining_chain "dev" "Lyon"
              MoreSamples.sample_cv)
       = Ok ["python"; "data engineering"; "sql"].
Proof.
  eexists. split; [reflexivity|].
  apply (enrich_recovers_joined_keywords MoreSamples.joining_chain "dev" "Lyon"
           MoreSamples.sample_cv _ ["python"; "data engineering"; "sql"]
           eq_refl eq_refl).
  - discriminate.
  - repeat constructor.
  - repeat constructor.
  - reflexivity.
Defined.

Lemma enrich_invokes_chain_once_witness :
  exists text,
    cv_text MoreSamples.sample_cv = Ok text
    /\ enrich_search_query MoreSamples.sample_chain "dev" "Lyon" MoreSamples.sample_cv
       = (match MoreSamples.sample_chain
                  {| inv_cv_data := text; inv_job_title := "dev";
                     inv_location := "Lyon" |} with
          | Ok answer => Ok (map PyStr.strip (split answer))
          | Raise e => Raise e
          end,
          [{| inv_cv_data := text; inv_job_title := "dev";
              inv_location := "Lyon" |}]).
Proof.
  apply (proj2 (enrich_invokes_chain_once MoreSamples.sample_chain "dev" "Lyon")
           MoreSamples.sample_cv_data).
  - discriminate.
  - split; [|split]; intros v H; inversion H.
    + exists ["python"; "sql"]. reflexivity.
    + exists [[("position", VStr "Dev"); ("company", VStr "ACME")]]. reflexivity.
Defined.

End EnrichmentProps.

(* ================================================================== *)
(** ** Locations read in a message *)
(* ================================================================== *)

Module ChatbotProps.
Import TextViews PatternFacts ChatbotAgent.

(** X28: what is read in a message as a location is the name of one of
    the seven cities, in small letters, or five decimal digits, or two
    decimal digits. *)
Theorem extracted_location_shape message place :
  _extract_location_from_message message = Some place ->
  In place known_cities
  \/ (String.length place = 5 /\ decimal place)
  \/ (String.length place = 2 /\ decimal place).
Proof.
  unfold _extract_location_from_message.
  destruct (find_city known_cities (PyStr.lower message)) as [city|] eqn:C.
  - intros H; inversion H; subst. left. eapply find_city_known, C.
  - destruct (PyStr.search_postal message) as [g|] eqn:P.
    + intros H; inversion H; subst. right. left. apply search_postal_five in P. exact P.
    + intros H. right. right. eapply search_dept_two, H.
Qed.

(** X29: the France Travail client recognises every location read in a
    message: the department is the one of the city, the first two
    digits of the postal code, or the two digits themselves; it is
    never the department taken by default for a location it does not
    know. *)
Theorem extracted_location_is_recognised message place :
  _extract_location_from_message message = Some place ->
  exists dept line,
    FranceTravailClient.departement (Some place) = Some (dept, line)
    /\ line <> LogDeptDefault place
    /\ (In place known_cities ->
        FranceTravailClient.assoc place FranceTravailClient.dept_codes = Some dept)
    /\ (decimal place -> String.length place = 5 -> dept = PyStr.take 2 place)
    /\ (decimal place -> String.length place = 2 -> dept = place).
Proof.
  unfold _extract_location_from_message.
  destruct (find_city known_cities (PyStr.lower message)) as [city|] eqn:C.
  - intros H; inversion H; subst. clear H. apply find_city_known in C.
    simpl in C.
    repeat (destruct C as [<-|C];
            [do 2 eexists; split; [reflexivity|];
             repeat split; try discriminate; try reflexivity;
             intros D; discriminate D|]).
    contradiction.
  - destruct (PyStr.search_postal message) as [g|] eqn:P.
    + intros H; inversion H; subst. clear H.
      apply search_postal_five in P. destruct P as [L D].
      exists (PyStr.take 2 place), (LogDeptFromPostal (PyStr.take 2 place)).
      assert (N : String.eqb place "" = false)
        by (apply String.eqb_neq; intros ->; discriminate L).
      unfold FranceTravailClient.departement.
      rewrite N, (search_postal_itself place L D).
      repeat split; try discriminate; try (intros; lia).
      intros K. exfalso. simpl in K.
      repeat (destruct K as [<-|K]; [vm_compute in D; discriminate D|]). exact K.
    + intros H. apply search_dept_two in H. destruct H as [L D].
      exists place, (LogDeptDirect place).
      assert (N : String.eqb place "" = false)
        by (apply String.eqb_neq; intros ->; discriminate L).
      assert (I : PyStr.isdigit place = true).
      { apply decimal_isdigit; [intros ->; discriminate L | exact D]. }
      unfold FranceTravailClient.departement.
      rewrite N. unfold PyStr.search_postal.
      rewrite (search_postal_short place None) by lia.
      rewrite L, I.
      repeat split; try discriminate; try (intros; lia).
      intros K. exfalso. simpl in K.
      repeat (destruct K as [<-|K]; [vm_compute in D; discriminate D|]). exact K.
Qed.

Lemma extracted_location_shape_witness :
  In "69003" known_cities
  \/ (String.length "69003" = 5 /\ decimal "69003")
  \/ (String.length "69003" = 2 /\ decimal "69003").
Proof.
  exact (extracted_location_shape "Des offres pour parisiens au 69003 ?" "69003"
           eq_refl).
Defined.

Lemma extracted_location_is_recognised_witness :
  exists dept line,
    FranceTravailClient.departement (Some "lyon") = Some (dept, line)
    /\ line <> LogDeptDefault "lyon"
    /\ (In "lyon" known_cities ->
        FranceTravailClient.assoc "lyon" FranceTravailClient.dept_codes = Some dept)
    /\ (decimal "lyon" -> String.length "lyon" = 5 -> dept = PyStr.take 2 "lyon")
    /\ (decimal "lyon" -> String.length "lyon" = 2 -> dept = "lyon").
Proof.
  exact (extracted_location_is_recognised "Un poste vers LYON, vite" "lyon" eq_refl).
Defined.

End ChatbotProps.
